(** * FloatChat: the axis/chart selector and the nearest-port router

    A shallow embedding of [choose_axes], [detect_date_column] and
    [to_numeric_df] (frontend_service.py) and of [find_nearest_ports] and
    [render_map_with_route] (map_feature.py), with the properties the
    design document states about them.

    Conventions of the embedding:
    - A Python string is the [string] of its UTF-8 bytes; [contains sub s] is
      Python's [sub in s].  [str.lower()] follows the Unicode tables of the
      interpreter: in the destination lookup it is the field of the class
      [Unicode], and every property is proved for all instances, those about
      ASCII strings under the hypothesis [lowers_ascii].  The chart selector
      only looks for the ASCII words "date", "temperature", "temp", "salinity"
      and "pressure" in a lower-cased label; no character outside ASCII
      lower-cases to a letter of these words in a way that completes one of
      them, so [lower], which lower-cases the ASCII letters, decides these
      tests as [str.lower()] does.
    - A finite float is the rational it denotes ([Q]); [NaN] and the
      infinities are separate constructors of [pyfloat].  Float addition and
      [round(x, 2)] round to the nearest float: they are the fields of the
      class [FloatArith], and every property is proved for all instances.
      [round2] is the exact rounding to two decimals; with exact addition it
      makes the instance [exact_floats] used in the examples.
    - geopy and pandas are outside the repository: their functions are the
      fields of the classes [Geopy] and [Pandas], and every property is proved
      for all instances.
    - [to_numeric_df] copies and then mutates a DataFrame object; it is
      modelled over a store of DataFrame objects. *)

From Stdlib Require Import QArith Qround Qabs ZArith String Ascii List Bool Lia Lqa.
From Stdlib Require Import Sorting.Sorted.
From stdpp Require Import gmap strings.
Import ListNotations.
Local Open Scope string_scope.
Local Open Scope list_scope.

(** ** Python values *)

Inductive pyfloat : Type :=
| Finite (q : Q)
| NaN
| Inf (negative : bool).

(** The values a latitude or longitude can be at run time.  [NpInt64] is a
    numpy integer scalar (what [.iloc[0]] gives on an int64 column): it is not
    an instance of [int].  A numpy float64 scalar is an instance of [float]
    and is represented by [PyFloat]. *)
Inductive pyval : Type :=
| PyNone
| PyBool (b : bool)
| PyInt (z : Z)
| PyFloat (f : pyfloat)
| PyStr (s : string)
| NpInt64 (z : Z).

(** [isinstance(v, (int, float))]; [bool] is a subclass of [int]. *)
Definition isinstance_int_float (v : pyval) : bool :=
  match v with
  | PyBool _ | PyInt _ | PyFloat _ => true
  | PyNone | PyStr _ | NpInt64 _ => false
  end.

(** [math.isfinite] on a number; used to state what "finite number" means. *)
Definition is_finite_number (v : pyval) : bool :=
  match v with
  | PyBool _ | PyInt _ | NpInt64 _ => true
  | PyFloat (Finite _) => true
  | PyFloat NaN | PyFloat (Inf _) => false
  | PyNone | PyStr _ => false
  end.

Inductive exn : Type := ValueError | IndexError | KeyError.

Inductive result (A : Type) : Type :=
| Returned (a : A)
| Raised (e : exn).
Arguments Returned {A} a.
Arguments Raised {A} e.

#[export] Instance result_ret : MRet result := @Returned.
#[export] Instance result_bind : MBind result := fun A B k r =>
  match r with
  | Returned a => k a
  | Raised e => Raised e
  end.

(** ** Strings *)

Definition lower_ascii (c : ascii) : ascii :=
  let n := nat_of_ascii c in
  if ((65 <=? n)%nat && (n <=? 90)%nat)%bool then ascii_of_nat (n + 32) else c.

Fixpoint lower (s : string) : string :=
  match s with
  | EmptyString => EmptyString
  | String c s' => String (lower_ascii c) (lower s')
  end.

(** [s.lower()], by the Unicode tables of the interpreter. *)
Class Unicode : Type := { str_lower : string -> string }.

(** [s.isascii()] *)
Fixpoint ascii_only (s : string) : bool :=
  match s with
  | EmptyString => true
  | String c s' => (nat_of_ascii c <? 128)%nat && ascii_only s'
  end.

(** [sub in s] *)
Fixpoint contains (sub s : string) : bool :=
  String.prefix sub s ||
  match s with
  | EmptyString => false
  | String _ s' => contains sub s'
  end.

(** ** Numbers *)

(** Rounding to the nearest integer, halves to the even neighbour. *)
Definition round_half_even (q : Q) : Z :=
  let f := Qfloor q in
  match Qcompare (q - inject_Z f) (1 # 2) with
  | Lt => f
  | Gt => (f + 1)%Z
  | Eq => if Z.even f then f else (f + 1)%Z
  end.

(** The decimal rounding to two places, halves to the even neighbour. *)
Definition round2 (q : Q) : Q := round_half_even (q * 100) # 100.

(** The float arithmetic of the interpreter on finite floats: [a + b], which
    is a float or an infinity, and [round(x, 2)], which is a finite float. *)
Class FloatArith : Type := {
  float_add : Q -> Q -> pyfloat;
  float_round2 : Q -> Q
}.

(** [round(f, 2)] on any float: NaN and the infinities are returned as they
    are. *)
Definition round_float `{FloatArith} (f : pyfloat) : pyfloat :=
  match f with
  | Finite q => Finite (float_round2 q)
  | NaN => NaN
  | Inf negative => Inf negative
  end.

(** [a <= b] on floats. *)
Definition float_le (a b : pyfloat) : Prop :=
  match a, b with
  | NaN, _ | _, NaN => False
  | Inf true, _ => True
  | _, Inf false => True
  | Finite x, Finite y => (x <= y)%Q
  | Finite _, Inf true => False
  | Inf false, _ => False
  end.

(** ** list.sort(key=...)

    Python's sort is stable and compares keys with [<] only.  On keys that
    [<] orders totally the result of a stable sort is unique, so an insertion
    sort stands for it. *)
Section Sort.
Context {A : Type} (key : A -> Q).

Definition key_lt (a b : A) : bool :=
  match Qcompare (key a) (key b) with Lt => true | _ => false end.

(** [x] goes before the first element that is not smaller than it. *)
Fixpoint sort_insert (x : A) (l : list A) : list A :=
  match l with
  | [] => [x]
  | y :: l' => if key_lt y x then y :: sort_insert x l' else x :: y :: l'
  end.

Fixpoint sort_by_key (l : list A) : list A :=
  match l with
  | [] => []
  | x :: l' => sort_insert x (sort_by_key l')
  end.

End Sort.

(** [l[:n]] for a Python integer [n]. *)
Definition slice_to {A : Type} (n : Z) (l : list A) : list A :=
  if (n <? 0)%Z then firstn (List.length l - Z.to_nat (- n)) l
  else firstn (Z.to_nat n) l.

(** ** pandas: the DataFrame model *)

Inductive dtype : Type := Int64 | Float64 | BoolDtype | Object | Datetime64.

Definition dtype_eqb (a b : dtype) : bool :=
  match a, b with
  | Int64, Int64 | Float64, Float64 | BoolDtype, BoolDtype
  | Object, Object | Datetime64, Datetime64 => true
  | _, _ => false
  end.

(** The dtypes [select_dtypes(include=["number"])] keeps. *)
Definition is_number (t : dtype) : bool :=
  match t with
  | Int64 | Float64 => true
  | BoolDtype | Object | Datetime64 => false
  end.

Record Series : Type := mkSeries { s_dtype : dtype; s_values : list pyval }.

(** A DataFrame: the length of its index and its columns in order.  The
    frames of the application are built by [pd.DataFrame] from a list of JSON
    records, so their column labels are pairwise distinct ([unique_labels]). *)
Record DataFrame : Type :=
  mkDataFrame { index_len : nat; columns : list (string * Series) }.

Definition labels (d : DataFrame) : list string := map fst (columns d).

Definition unique_labels (d : DataFrame) : Prop := List.NoDup (labels d).

(** [df[c]] *)
Fixpoint lookup_column (c : string) (cols : list (string * Series)) : option Series :=
  match cols with
  | [] => None
  | (c', s) :: rest => if String.eqb c c' then Some s else lookup_column c rest
  end.

Definition getitem (d : DataFrame) (c : string) : option Series :=
  lookup_column c (columns d).

(** [df[c] = s]: replaces the column labelled [c], appends it when absent. *)
Fixpoint assign_column (c : string) (s : Series) (cols : list (string * Series))
  : list (string * Series) :=
  match cols with
  | [] => [(c, s)]
  | (c', s') :: rest =>
      if String.eqb c c' then (c', s) :: rest else (c', s') :: assign_column c s rest
  end.

Definition setitem (d : DataFrame) (c : string) (s : Series) : DataFrame :=
  mkDataFrame (index_len d) (assign_column c s (columns d)).

(** [df.select_dtypes(include=["number"]).columns.tolist()] *)
Definition select_number (d : DataFrame) : list string :=
  map fst (List.filter (fun cs => is_number (s_dtype (snd cs))) (columns d)).

(** [df.empty] *)
Definition df_empty (d : DataFrame) : bool :=
  (index_len d =? 0)%nat || (List.length (columns d) =? 0)%nat.

(** The pandas functions the code calls.
    - [to_numeric_ignore s] is [pd.to_numeric(s, errors="ignore")]: the
      converted series, or [s] itself when a value does not parse.
    - [to_datetime_raise s] tells whether [pd.to_datetime(s, errors="raise")]
      returns ([true]) or raises ([false]).
    - [to_datetime_coerce s] is [pd.to_datetime(s, errors="coerce")]: one
      entry per row, [None] standing for NaT. *)
Class Pandas : Type := {
  to_numeric_ignore : Series -> Series;
  to_datetime_raise : Series -> bool;
  to_datetime_coerce : Series -> list (option Z)
}.

(** ** The store of DataFrame objects *)

Abbreviation loc := positive (only parsing).
Abbreviation store := (gmap positive DataFrame) (only parsing).

(** A computation over the store.  [None] is a failure, a dangling reference
    or a label the frame does not have; neither occurs when the argument is
    an object of the store ([choose_axes_run]). *)
Definition M (A : Type) : Type := store -> option (A * store).

#[export] Instance M_ret : MRet M := fun A a σ => Some (a, σ).
#[export] Instance M_bind : MBind M := fun A B k m σ =>
  match m σ with
  | Some (a, σ') => k a σ'
  | None => None
  end.

(** [df.copy()]: a new object with the same contents. *)
Definition df_copy (l : loc) : M loc := fun σ =>
  match σ !! l with
  | Some d => let l' := fresh (dom σ) in Some (l', <[l' := d]> σ)
  | None => None
  end.

Definition df_read (l : loc) : M DataFrame := fun σ =>
  match σ !! l with
  | Some d => Some (d, σ)
  | None => None
  end.

Definition df_write (l : loc) (d : DataFrame) : M unit := fun σ =>
  match σ !! l with
  | Some _ => Some (tt, <[l := d]> σ)
  | None => None
  end.

Fixpoint for_each {A : Type} (xs : list A) (body : A -> M unit) : M unit :=
  match xs with
  | [] => mret tt
  | x :: rest => body x ≫= fun _ => for_each rest body
  end.

(** ** frontend_service.py *)

Section Frontend.
Context `{Pandas}.

(** The body of the loop of [to_numeric_df], on the object at [df]. *)
Definition to_numeric_step (df : loc) (c : string) : M unit :=
  d ← df_read df;
  match getitem d c with
  | Some s =>
      if dtype_eqb (s_dtype s) Object
      then df_write df (setitem d c (to_numeric_ignore s))
      else mret tt
  | None => fun _ => None
  end.

Definition to_numeric_df (df : loc) : M loc :=
  df ← df_copy df;
  d ← df_read df;
  for_each (labels d) (to_numeric_step df);;
  mret df.

(** [parsed.notna().sum()] *)
Definition notna_sum (parsed : list (option Z)) : nat :=
  List.length (List.filter (fun v => match v with Some _ => true | None => false end) parsed).

Fixpoint detect_date_loop (d : DataFrame) (cs : list string) : option string :=
  match cs with
  | [] => None
  | c :: rest =>
      if contains "date" (lower c) then
        match getitem d c with
        | Some s =>
            if to_datetime_raise s then Some c
            else
              let parsed := to_datetime_coerce s in
              if (Nat.max 1 (List.length parsed / 4) <=? notna_sum parsed)%nat
              then Some c
              else detect_date_loop d rest
        | None => detect_date_loop d rest
        end
      else detect_date_loop d rest
  end.

Definition detect_date_column (d : DataFrame) : option string :=
  detect_date_loop d (labels d).

(** [c in numeric_cols] *)
Definition mem (c : string) (l : list string) : bool := existsb (String.eqb c) l.

(** Truth value of a string in a condition. *)
Definition truthy (s : string) : bool :=
  match s with EmptyString => false | String _ _ => true end.

(** [for c in cols: if pref in c.lower() and c in numeric_cols: return c] *)
Fixpoint first_match (pref : string) (cols numeric_cols : list string) : option string :=
  match cols with
  | [] => None
  | c :: rest =>
      if contains pref (lower c) && mem c numeric_cols then Some c
      else first_match pref rest numeric_cols
  end.

(** The two nested loops [for pref in prefs: for c in cols: ...]. *)
Fixpoint first_preferred (prefs cols numeric_cols : list string) : option string :=
  match prefs with
  | [] => None
  | pref :: more =>
      match first_match pref cols numeric_cols with
      | Some c => Some c
      | None => first_preferred more cols numeric_cols
      end
  end.

(** The loop that looks for the pressure column. *)
Fixpoint find_pressure (cols : list string) : option string :=
  match cols with
  | [] => None
  | c :: rest =>
      if String.eqb "pressure" (lower c) || contains "pressure" (lower c)
      then Some c
      else find_pressure rest
  end.

Definition axes : Type := option string * option string * string.

(** The last two rules: scatter, then table. *)
Definition scatter_or_table (numeric_cols : list string) : axes :=
  match numeric_cols with
  | x :: y :: _ => (Some x, Some y, "scatter")
  | _ => (None, None, "table")
  end.

(** The pressure rule and what follows it. *)
Definition pressure_rule (cols numeric_cols : list string) : axes :=
  match find_pressure cols with
  | Some pressure_col =>
      if truthy pressure_col then
        match first_preferred ["temperature"; "salinity"; "temp"] cols numeric_cols with
        | Some c => (Some c, Some pressure_col, "line")
        | None =>
            let others :=
              List.filter (fun c => negb (String.eqb c pressure_col)) numeric_cols in
            match others with
            | o :: _ => (Some o, Some pressure_col, "line")
            | [] => scatter_or_table numeric_cols
            end
        end
      else scatter_or_table numeric_cols
  | None => scatter_or_table numeric_cols
  end.

(** The date rule and what follows it. *)
Definition date_rule (d : DataFrame) (cols numeric_cols : list string) : axes :=
  match detect_date_column d with
  | Some date_col =>
      if truthy date_col then
        match first_preferred ["temperature"; "temp"; "salinity"; "pressure"]
                cols numeric_cols with
        | Some c => (Some date_col, Some c, "line")
        | None =>
            match numeric_cols with
            | n :: _ => (Some date_col, Some n, "line")
            | [] => pressure_rule cols numeric_cols
            end
        end
      else pressure_rule cols numeric_cols
  | None => pressure_rule cols numeric_cols
  end.

(** [choose_axes] from [cols = list(df.columns)] on, [d] being the contents of
    the converted frame. *)
Definition choose_axes_rules (d : DataFrame) : axes :=
  let cols := labels d in
  let numeric_cols := select_number d in
  if (index_len d =? 1)%nat && negb (List.length numeric_cols =? 0)%nat
  then (None, None, "bar")
  else date_rule d cols numeric_cols.

Definition choose_axes (df : loc) : M axes :=
  df ← to_numeric_df df;
  d ← df_read df;
  mret (choose_axes_rules d).

End Frontend.

(** ** map_feature.py *)

Record Port : Type := mkPort { name : string; lat : Q; lon : Q }.

Definition GLOBAL_OCEAN_PORTS : list Port :=
  [ mkPort "Durban, South Africa" (-298587 # 10000) (310218 # 10000);
    mkPort "Mombasa, Kenya" (-40500 # 10000) (396667 # 10000);
    mkPort "Chennai, India" (130827 # 10000) (802707 # 10000);
    mkPort "Colombo, Sri Lanka" (69271 # 10000) (798612 # 10000);
    mkPort "Chittagong, Bangladesh" (223475 # 10000) (918123 # 10000);
    mkPort "Port Louis, Mauritius" (-201610 # 10000) (575029 # 10000);
    mkPort "Singapore" (1290270 # 1000000) (103851959 # 1000000);
    mkPort "Shanghai, China" (312304 # 10000) (1214737 # 10000);
    mkPort "Yokohama, Japan" (354437 # 10000) (1396380 # 10000);
    mkPort "Los Angeles, USA" (337297 # 10000) (-1182625 # 10000);
    mkPort "Sydney, Australia" (-338688 # 10000) (1512093 # 10000);
    mkPort "Rotterdam, Netherlands" (519244 # 10000) (44777 # 10000);
    mkPort "New York, USA" (407306 # 10000) (-739865 # 10000);
    mkPort "Santos, Brazil" (-239910 # 10000) (-463813 # 10000);
    mkPort "Lagos, Nigeria" (64531 # 10000) (33958 # 10000) ].

Definition coords : Type := (pyval * pyval)%type.

Definition port_coords (p : Port) : coords :=
  (PyFloat (Finite (lat p)), PyFloat (Finite (lon p))).

(** [geopy.distance.distance(a, b).km]: the distance in kilometres, or the
    exception geopy raises on coordinates it refuses. *)
Class Geopy : Type := { distance_km : coords -> coords -> result Q }.

(** An entry of the list [find_nearest_ports] returns. *)
Record Candidate : Type := mkCandidate {
  c_name : string;
  c_lat : Q;
  c_lon : Q;
  distance_from_float : Q
}.

Definition candidate_coords (c : Candidate) : coords :=
  (PyFloat (Finite (c_lat c)), PyFloat (Finite (c_lon c))).

(** An entry of [route_details]. *)
Record RouteDetail : Type := mkRouteDetail {
  r_name : string;
  total_distance : pyfloat;
  distance_to_port : Q;
  is_primary : bool
}.

(** What [render_map_with_route] shows: one of its four notices, or the map
    with the table built from [route_details]. *)
Inductive outcome : Type :=
| NoFloatData
| NoLatitudeLongitude
| NoNearestPort
| DestinationNotFound (dest_name : string)
| RouteShown (nearest_ports : list Candidate) (dest_port : Port)
    (route_details : list RouteDetail).

Section MapFeature.
Context `{Geopy} `{FloatArith} `{Unicode}.

(** The loop over the catalog that fills [distances]. *)
Fixpoint port_distances (float_coords : coords) (ports : list Port)
  : result (list Candidate) :=
  match ports with
  | [] => mret []
  | port :: rest =>
      distance ← distance_km float_coords (port_coords port);
      distances ← port_distances float_coords rest;
      mret (mkCandidate (name port) (lat port) (lon port) (float_round2 distance)
              :: distances)
  end.

Definition find_nearest_ports (float_lat float_lon : pyval) (num_ports : Z)
  : result (list Candidate) :=
  if negb (isinstance_int_float float_lat) || negb (isinstance_int_float float_lon)
  then mret []
  else
    distances ← port_distances (float_lat, float_lon) GLOBAL_OCEAN_PORTS;
    mret (slice_to num_ports (sort_by_key distance_from_float distances)).

(** The destination lookup: the first catalog entry whose lower-cased name
    contains the lower-cased [dest_name]. *)
Definition find_dest_port (catalog : list Port) (dest_name : string) : option Port :=
  List.find (fun p => contains (str_lower dest_name) (str_lower (name p))) catalog.

(** The loop [for i, port in enumerate(nearest_ports)], from index [i] on. *)
Fixpoint route_loop (i : nat) (ports : list Candidate) (dest_port : Port)
  : result (list RouteDetail) :=
  match ports with
  | [] => mret []
  | port :: rest =>
      let primary := (i =? 0)%nat in
      distance_port_to_dest ← distance_km (candidate_coords port) (port_coords dest_port);
      let total := float_add (distance_from_float port) distance_port_to_dest in
      details ← route_loop (S i) rest dest_port;
      mret (mkRouteDetail (c_name port) (round_float total) (distance_from_float port)
              primary :: details)
  end.

(** [series.iloc[0]] *)
Definition iloc0 (s : Series) : result pyval :=
  match s_values s with
  | v :: _ => mret v
  | [] => Raised IndexError
  end.

Definition column (d : DataFrame) (c : string) : result Series :=
  match getitem d c with
  | Some s => mret s
  | None => Raised KeyError
  end.

Definition render_map_with_route (float_df : DataFrame) (float_id dest_name : string)
  : result outcome :=
  if df_empty float_df then mret NoFloatData
  else if negb (existsb (String.eqb "latitude") (labels float_df))
          || negb (existsb (String.eqb "longitude") (labels float_df))
          || match getitem float_df "latitude" with
             | Some s => (List.length (s_values s) =? 0)%nat
             | None => true
             end
  then mret NoLatitudeLongitude
  else
    float_lat ← column float_df "latitude" ≫= iloc0;
    float_lon ← column float_df "longitude" ≫= iloc0;
    nearest_ports ← find_nearest_ports float_lat float_lon 4;
    match nearest_ports with
    | [] => mret NoNearestPort
    | _ :: _ =>
        match find_dest_port GLOBAL_OCEAN_PORTS dest_name with
        | None => mret (DestinationNotFound dest_name)
        | Some dest_port =>
            route_details ← route_loop 0 nearest_ports dest_port;
            if (List.length route_details <? 4)%nat then Raised IndexError
            else mret (RouteShown nearest_ports dest_port route_details)
        end
    end.

End MapFeature.

(** ** frontend_service.py: plot_dataframe *)

(** What [plot_dataframe] calls besides the functions of [Pandas]:
    [float(v)], [pd.to_datetime(s, errors="coerce")] as the series it returns
    (or the exception it raises), and [df.sort_values(by=x)]. *)
Class PlotEnv : Type := {
  py_float : pyval -> result pyfloat;
  to_datetime_series : Series -> result Series;
  sort_values : DataFrame -> string -> result DataFrame
}.

(** What [plot_dataframe] asks for: the grid of [st.dataframe], or one of the
    three calls to plotly express with the frame and the axes it passes, with
    an inverted y axis when [reversed] is set.  What plotly does with the
    call, its refusal of an axis that is no column included, is not part of
    the model; the properties below pass it axes that are columns. *)
Inductive chart : Type :=
| Grid (d : DataFrame)
| BarChart (metric : list string) (value : list (option pyfloat))
| LineChart (d : DataFrame) (x y : string) (reversed : bool)
| ScatterChart (d : DataFrame) (x y : string) (reversed : bool).

(** [pd.isna(v)] on a cell. *)
Definition isna (v : pyval) : bool :=
  match v with
  | PyNone | PyFloat NaN => true
  | _ => false
  end.

(** [df.iloc[0][c]] *)
Definition first_row_value (d : DataFrame) (c : string) : result pyval :=
  if (index_len d =? 0)%nat then Raised IndexError
  else
    match getitem d c with
    | Some s =>
        match s_values s with
        | v :: _ => Returned v
        | [] => Raised IndexError
        end
    | None => Raised KeyError
    end.

(** [if y and "pressure" in y.lower()] *)
Definition reversed_axis (y : string) : bool :=
  match y with
  | EmptyString => false
  | String _ _ => contains "pressure" (lower y)
  end.

Section Plot.
Context `{PlotEnv}.

(** The list comprehension that fills the column "value" of the bar chart. *)
Fixpoint bar_values (d : DataFrame) (numeric_cols : list string)
  : result (list (option pyfloat)) :=
  match numeric_cols with
  | [] => Returned []
  | c :: rest =>
      v ← first_row_value d c;
      value ← (if isna v then Returned None else f ← py_float v; Returned (Some f));
      values ← bar_values d rest;
      Returned (value :: values)
  end.

(** [try: df[x] = pd.to_datetime(df[x], errors="coerce") except Exception: pass] *)
Definition parse_date_axis (df : positive) (x : string) : M unit :=
  d ← df_read df;
  match getitem d x with
  | Some s =>
      match to_datetime_series s with
      | Returned s' => df_write df (setitem d x s')
      | Raised _ => mret tt
      end
  | None => mret tt
  end.

Definition plot_dataframe (df : positive) (x y : option string) (chart_type : string)
  : M (result chart) :=
  if String.eqb chart_type "bar" then
    d ← df_read df;
    match select_number d with
    | [] => mret (Returned (Grid d))
    | numeric_cols =>
        mret (values ← bar_values d numeric_cols; Returned (BarChart numeric_cols values))
    end
  else if String.eqb chart_type "line" || String.eqb chart_type "scatter" then
    match x, y with
    | Some x, Some y =>
        (if contains "date" (lower x) then parse_date_axis df x else mret tt);;
        d ← df_read df;
        if String.eqb chart_type "line" then
          let df_plot :=
            match sort_values d x with
            | Returned sorted => sorted
            | Raised _ => d
            end in
          mret (Returned (LineChart df_plot x y (reversed_axis y)))
        else mret (Returned (ScatterChart d x y (reversed_axis y)))
    | _, _ => d ← df_read df; mret (Returned (Grid d))
    end
  else d ← df_read df; mret (Returned (Grid d)).

End Plot.

(** ** The plot controls of the page *)

(** [l.index(v)] *)
Fixpoint index_of (v : string) (l : list string) : option nat :=
  match l with
  | [] => None
  | a :: l' => if String.eqb v a then Some 0%nat else option_map S (index_of v l')
  end.

(** [options.index(v) if v in options else fallback] *)
Definition default_index (v : string) (options : list string) (fallback : nat) : nat :=
  match index_of v options with
  | Some i => i
  | None => fallback
  end.

(** [st.selectbox(label, options=options, index=index)]: the option the user
    picked, the one at [index] while the widget is untouched; [None] when the
    index is not one of the options. *)
Definition selectbox (options : list string) (index : nat) (picked : option nat)
  : option string :=
  nth_error options (match picked with Some i => i | None => index end).

Definition chart_kinds : list string := ["line"; "scatter"; "bar"; "table"].

(** The block between [choose_axes] and [plot_dataframe]: the axes and the
    kind that are plotted, given what the user picked in the three select
    boxes.  [None] is an exception. *)
Definition plot_controls (cols_for_select : list string) (x_col y_col : option string)
    (chart_type : string) (picked_x picked_y picked_kind : option nat)
  : option (option string * option string * string) :=
  if negb (String.eqb chart_type "bar") && (1 <? List.length cols_for_select)%nat then
    default_x ← match x_col with
                | Some x => if mem x cols_for_select then Some x else hd_error cols_for_select
                | None => hd_error cols_for_select
                end;
    default_y ← match y_col with
                | Some y => if mem y cols_for_select then Some y else nth_error cols_for_select 1
                | None => nth_error cols_for_select 1
                end;
    chosen_x ← selectbox cols_for_select (default_index default_x cols_for_select 0) picked_x;
    chosen_y ← selectbox cols_for_select (default_index default_y cols_for_select 1) picked_y;
    kind ← selectbox chart_kinds
             (if mem chart_type ["line"; "scatter"; "bar"]
              then default_index chart_type chart_kinds 0 else 0%nat)
             picked_kind;
    Some (Some chosen_x, Some chosen_y, kind)
  else Some (x_col, y_col, chart_type).

(** ** test2.py and qr_component.py: sharing the chat *)

(** The values of a message: a text, the rows of a query result, or null. *)
Inductive jval : Type :=
| JNull
| JStr (s : string)
| JRows (rows : list (list (string * pyval))).

(** Truth value of a [jval] in a condition. *)
Definition jtruthy (v : jval) : bool :=
  match v with
  | JNull => false
  | JStr s => truthy s
  | JRows rows => negb (List.length rows =? 0)%nat
  end.

(** A message of the chat is a dict. *)
Abbreviation message := (gmap string jval) (only parsing).

(** The part of [st.session_state] the sharing reads and writes. *)
Record session : Type := mkSession {
  messages : list (gmap string jval);
  map_is_visible : bool;
  map_float_id : jval;
  map_dest : jval;
  fetch_map_data : bool;
  history_loaded : bool
}.

(** [m.get("role") == role] *)
Definition has_role (role : string) (m : message) : bool :=
  match m !! "role" with
  | Some (JStr r) => String.eqb r role
  | _ => false
  end.

Definition map_state_message (s : session) : message :=
  {[ "role" := JStr "system_map_state";
     "map_id" := map_float_id s;
     "map_dest" := map_dest s ]}.

(** Whether the map state goes into the shared history. *)
Definition map_shared (s : session) : bool :=
  map_is_visible s && jtruthy (map_float_id s) && jtruthy (map_dest s).

(** The list built before [render_qr_share_button] is called. *)
Definition history_to_share (s : session) : list message :=
  messages s ++ (if map_shared s then [map_state_message s] else []).

(** What a click on the share button does: the warning, or the POST of the
    history to the backend. *)
Inductive qr_outcome : Type :=
| NothingToShare
| HistoryPosted (chat_history : list (gmap string jval)).

Definition render_qr_share_button (chat_history : list message) : qr_outcome :=
  if (List.length chat_history <=? 1)%nat then NothingToShare
  else HistoryPosted chat_history.

(** [messages[0]["content"] == t("welcome")] *)
Definition content_is (welcome : string) (m : message) : result bool :=
  match m !! "content" with
  | Some (JStr c) => Returned (String.eqb c welcome)
  | Some _ => Returned false
  | None => Raised KeyError
  end.

(** The block that loads a shared history, [loaded_history] being the list
    the backend returned and [welcome] the text [t("welcome")].  The result
    is the session after the block and the exception its [except] clause
    reported, if any. *)
Definition load_shared_history (welcome : string) (s : session)
    (loaded_history : list message) : session * option exn :=
  if history_loaded s then (s, None)
  else
    match
      match messages s with
      | [m] => content_is welcome m
      | _ => Returned false
      end
    with
    | Raised e => (s, Some e)
    | Returned false => (s, None)
    | Returned true =>
        match loaded_history with
        | [] => (s, None)
        | _ :: _ =>
            match List.find (has_role "system_map_state") loaded_history with
            | Some m =>
                match m !! "map_id" with
                | None => (s, Some KeyError)
                | Some id =>
                    let s1 := mkSession (messages s) (map_is_visible s) id (map_dest s)
                                (fetch_map_data s) (history_loaded s) in
                    match m !! "map_dest" with
                    | None => (s1, Some KeyError)
                    | Some dest =>
                        (mkSession
                           (List.filter (fun m => negb (has_role "system_map_state" m))
                              loaded_history)
                           (map_is_visible s) id dest true true, None)
                    end
                end
            | None =>
                (mkSession loaded_history (map_is_visible s) (map_float_id s) (map_dest s)
                   (fetch_map_data s) true, None)
            end
        end
    end.

(** ** test2.py: the float's location; emergency_feature.py *)

(** [pd.to_numeric(s, errors="coerce")] *)
Class PandasCoerce : Type := { to_numeric_coerce : Series -> Series }.

(** The rows a boolean mask keeps. *)
Fixpoint keep_rows {A : Type} (mask : list bool) (l : list A) : list A :=
  match mask, l with
  | b :: mask', a :: l' => if b then a :: keep_rows mask' l' else keep_rows mask' l'
  | _, _ => []
  end.

(** Row by row conjunction of two masks. *)
Fixpoint both (m1 m2 : list bool) : list bool :=
  match m1, m2 with
  | b1 :: r1, b2 :: r2 => (b1 && b2) :: both r1 r2
  | _, _ => []
  end.

(** [s.notna()] *)
Definition notna_mask (s : Series) : list bool :=
  map (fun v => negb (isna v)) (s_values s).

(** The rows in which no column of [subset] is null. *)
Fixpoint complete_rows (d : DataFrame) (subset : list string) (mask : list bool)
  : result (list bool) :=
  match subset with
  | [] => Returned mask
  | c :: rest =>
      s ← column d c;
      complete_rows d rest (both mask (notna_mask s))
  end.

Definition count_rows (mask : list bool) : nat :=
  List.length (List.filter (fun b => b) mask).

(** [df.dropna(subset=subset)] *)
Definition dropna (subset : list string) (d : DataFrame) : result DataFrame :=
  mask ← complete_rows d subset (repeat true (index_len d));
  Returned
    (mkDataFrame (count_rows mask)
       (map (fun cs => (fst cs, mkSeries (s_dtype (snd cs)) (keep_rows mask (s_values (snd cs)))))
          (columns d))).

Section Location.
Context `{PandasCoerce}.

(** The block that prepares the location of a float, from the frame built
    of the rows the backend returned on: the frame kept as
    [st.session_state.map_float_data] with the map made visible, or [None]
    when the float is reported as not found. *)
Definition located_frame (float_df : DataFrame) : result (option DataFrame) :=
  lats ← column float_df "latitude";
  let float_df := setitem float_df "latitude" (to_numeric_coerce lats) in
  lons ← column float_df "longitude";
  let float_df := setitem float_df "longitude" (to_numeric_coerce lons) in
  float_df ← dropna ["latitude"; "longitude"] float_df;
  Returned (if df_empty float_df then None else Some float_df).

End Location.

(** The coordinates [render_emergency_call] reports: those of the first row
    of the map's frame, or [None], for which the alert buttons are replaced
    by a disabled one. *)
Definition last_coords (is_map_visible : bool) (map_float_data : option DataFrame)
  : option (pyval * pyval) :=
  match map_float_data with
  | Some d =>
      if is_map_visible && negb (df_empty d) then
        match
          lat ← column d "latitude" ≫= iloc0;
          lon ← column d "longitude" ≫= iloc0;
          Returned (lat, lon)
        with
        | Returned coords => Some coords
        | Raised _ => None
        end
      else None
  | None => None
  end.

(** A small instance of [PandasCoerce]: numbers are kept, anything else
    becomes NaN. *)
Definition plain_coerce : PandasCoerce :=
  {| to_numeric_coerce := fun s =>
       mkSeries Float64
         (map (fun v => match v with
                        | PyInt z | NpInt64 z => PyFloat (Finite (inject_Z z))
                        | PyFloat f => PyFloat f
                        | _ => PyFloat NaN
                        end) (s_values s)) |}.

(** ** test2.py: translating the history *)

(** The request to the resummarize endpoint, from the user's query, the rows
    and the language code: the "summary" of the JSON answer ([None] when the
    answer has none), or the exception of the request. *)
Class Backend : Type := {
  resummarize : option jval -> jval -> string -> result (option jval)
}.

Section Translate.
Context `{Backend}.

(** [m.get(key)] in a condition. *)
Definition get_truthy (m : message) (key : string) : bool :=
  match m !! key with
  | Some v => jtruthy v
  | None => false
  end.

(** [m[key]] *)
Definition item (m : message) (key : string) : result jval :=
  match m !! key with
  | Some v => Returned v
  | None => Raised KeyError
  end.

Definition is_assistant (role : jval) : bool :=
  match role with
  | JStr r => String.eqb r "assistant"
  | _ => false
  end.

(** The body of the loop over the messages: the message appended to
    [temp_messages]. *)
Definition translate_message (welcome lang_code : string) (i : nat) (m : message)
  : result message :=
  role ← item m "role";
  if is_assistant role && get_truthy m "data" && get_truthy m "user_query" then
    match
      data ← item m "data";
      summary ← resummarize (m !! "user_query") data lang_code;
      content ← item m "content";
      Returned (match summary with Some text => text | None => content end)
    with
    | Returned content => Returned (<["content" := content]> m)
    | Raised _ => Returned m
    end
  else if (i =? 0)%nat && is_assistant role then Returned (<["content" := JStr welcome]> m)
  else Returned m.

Fixpoint translate_from (welcome lang_code : string) (i : nat) (ms : list message)
  : result (list message) :=
  match ms with
  | [] => Returned []
  | m :: rest =>
      m' ← translate_message welcome lang_code i m;
      rest' ← translate_from welcome lang_code (S i) rest;
      Returned (m' :: rest')
  end.

(** The new value of [st.session_state.messages]. *)
Definition translate_history (welcome lang_code : string) (ms : list message)
  : result (list message) :=
  translate_from welcome lang_code 0 ms.

End Translate.

(** A backend that answers every request with the same text. *)
Definition fixed_backend : Backend :=
  {| resummarize := fun _ _ _ => Returned (Some (JStr "Au large de Chennai.")) |}.

(** ** Small instances of the two libraries

    They let the model run on concrete input.  [grid_geopy] measures along
    the degree grid, 111 km per degree, and raises [ValueError] on a
    coordinate that is not a finite number or on a latitude outside
    [-90, 90], as geopy 2 does.  [iso_pandas] reads decimal digit strings as
    integers and strings of the shape YYYY-MM-DD as dates. *)

Definition number_of (v : pyval) : option Q :=
  match v with
  | PyBool b => Some (if b then 1 else 0)%Q
  | PyInt z | NpInt64 z => Some (inject_Z z)
  | PyFloat (Finite q) => Some q
  | PyFloat NaN | PyFloat (Inf _) | PyNone | PyStr _ => None
  end.

Definition grid_point (p : coords) : option (Q * Q) :=
  match number_of (fst p), number_of (snd p) with
  | Some a, Some b =>
      if Qle_bool (-90) a && Qle_bool a 90 then Some (a, b) else None
  | _, _ => None
  end.

Definition grid_geopy : Geopy :=
  {| distance_km := fun a b =>
       match grid_point a, grid_point b with
       | Some (la, lo), Some (la', lo') =>
           Returned (111 * (Qabs (la - la') + Qabs (lo - lo')))%Q
       | _, _ => Raised ValueError
       end |}.

(** Exact arithmetic: the sum itself and the decimal rounding. *)
Definition exact_floats : FloatArith :=
  {| float_add := fun a b => Finite (a + b); float_round2 := round2 |}.

(** Lower-casing of the ASCII letters and of the Kelvin sign (U+212A, the
    bytes 226 132 170), which [str.lower()] turns into "k". *)
Fixpoint lower_kelvin (s : string) : string :=
  match s with
  | EmptyString => EmptyString
  | String c s1 =>
      match s1 with
      | String c2 (String c3 s3) =>
          if Ascii.eqb c "226" && Ascii.eqb c2 "132" && Ascii.eqb c3 "170"
          then String "k" (lower_kelvin s3)
          else String (lower_ascii c) (lower_kelvin s1)
      | _ => String (lower_ascii c) (lower_kelvin s1)
      end
  end.

Definition kelvin_unicode : Unicode := {| str_lower := lower_kelvin |}.

(** The Kelvin sign followed by "enya". *)
Definition kelvin_enya : string :=
  String "226" (String "132" (String "170" "enya")).

Definition is_digit (c : ascii) : bool :=
  let n := nat_of_ascii c in (48 <=? n)%nat && (n <=? 57)%nat.

Fixpoint all_digits (s : string) : bool :=
  match s with
  | EmptyString => true
  | String c s' => is_digit c && all_digits s'
  end.

Fixpoint digits_value (acc : Z) (s : string) : Z :=
  match s with
  | EmptyString => acc
  | String c s' => digits_value (10 * acc + Z.of_nat (nat_of_ascii c - 48))%Z s'
  end.

Definition parse_number (v : pyval) : option pyval :=
  match v with
  | PyInt z | NpInt64 z => Some (NpInt64 z)
  | PyStr s => if truthy s && all_digits s then Some (NpInt64 (digits_value 0 s)) else None
  | _ => None
  end.

Fixpoint parse_numbers (vs : list pyval) : option (list pyval) :=
  match vs with
  | [] => Some []
  | v :: rest =>
      match parse_number v, parse_numbers rest with
      | Some n, Some ns => Some (n :: ns)
      | _, _ => None
      end
  end.

Definition is_iso_date (s : string) : bool :=
  match s with
  | String y1 (String y2 (String y3 (String y4 (String d1 (String m1 (String m2
      (String d2 (String a1 (String a2 EmptyString))))))))) =>
      forallb is_digit [y1; y2; y3; y4; m1; m2; a1; a2]
      && Ascii.eqb d1 "-" && Ascii.eqb d2 "-"
  | _ => false
  end.

Definition is_null (v : pyval) : bool :=
  match v with
  | PyNone | PyFloat NaN => true
  | _ => false
  end.

Definition parse_date (v : pyval) : option Z :=
  match v with
  | PyStr s => if is_iso_date s then Some (digits_value 0 (substring 0 4 s)) else None
  | _ => None
  end.

Definition iso_pandas : Pandas :=
  {| to_numeric_ignore := fun s =>
       match parse_numbers (s_values s) with
       | Some ns => mkSeries Int64 ns
       | None => s
       end;
     to_datetime_raise := fun s =>
       forallb (fun v => is_null v || match parse_date v with Some _ => true | None => false end)
         (s_values s);
     to_datetime_coerce := fun s => map parse_date (s_values s) |}.

(** ** Notions used in the statements *)

(** [a] occurs before [b] in [l]. *)
Definition before {A : Type} (l : list A) (a b : A) : Prop :=
  exists l1 l2 l3, l = l1 ++ a :: l2 ++ b :: l3.

(** The order a stable ascending sort of [l] by [key] puts its elements in:
    smaller key first, and among equal keys the order of [l]. *)
Definition stable_le {A : Type} (key : A -> Q) (l : list A) (a b : A) : Prop :=
  (key a < key b)%Q \/ ((key a == key b)%Q /\ before l a b).

(** The order of the candidates of [find_nearest_ports]: nearer first, and
    at equal distance the port that comes first in the catalog. *)
Definition nearer (a b : Candidate) : Prop :=
  (distance_from_float a < distance_from_float b)%Q \/
  ((distance_from_float a == distance_from_float b)%Q /\
   before (map name GLOBAL_OCEAN_PORTS) (c_name a) (c_name b)).

(** [c] is the entry [find_nearest_ports] computes for [port]. *)
Definition entry_of `{Geopy} `{FloatArith} (float_coords : coords) (port : Port)
  (c : Candidate) : Prop :=
  c_name c = name port /\ c_lat c = lat port /\ c_lon c = lon port /\
  exists d, distance_km float_coords (port_coords port) = Returned d /\
            distance_from_float c = float_round2 d.

(** The test of the destination lookup. *)
Definition name_matches `{Unicode} (dest_name : string) (p : Port) : bool :=
  contains (str_lower dest_name) (str_lower (name p)).

(** On a string of ASCII characters [str.lower()] lower-cases the letters A
    to Z and keeps every other character. *)
Definition lowers_ascii `{Unicode} : Prop :=
  forall s : string, ascii_only s = true -> str_lower s = lower s.

(** What rounding to the nearest float gives the float arithmetic: adding a
    float that is not negative to a float that [round(x, 2)] returned gives no
    less, [round(x, 2)] is monotone, and a float that it returned is its own
    rounding. *)
Definition float_laws `{FloatArith} : Prop :=
  (forall x b : Q, (0 <= b)%Q ->
     float_le (Finite (float_round2 x)) (float_add (float_round2 x) b)) /\
  (forall x y : Q, (x <= y)%Q -> (float_round2 x <= float_round2 y)%Q) /\
  (forall x : Q, (float_round2 (float_round2 x) == float_round2 x)%Q).

(** [r] is the entry of [route_details] built for the candidate [c]. *)
Definition route_of `{Geopy} `{FloatArith} (dest_port : Port) (c : Candidate)
  (r : RouteDetail) : Prop :=
  r_name r = c_name c /\ distance_to_port r = distance_from_float c /\
  exists d, distance_km (candidate_coords c) (port_coords dest_port) = Returned d /\
            total_distance r = round_float (float_add (distance_from_float c) d).

Definition singapore : Port :=
  mkPort "Singapore" (1290270 # 1000000) (103851959 # 1000000).

(** The rows of a float at latitude 0, longitude 0. *)
Definition origin_frame : DataFrame :=
  mkDataFrame 1
    [ ("latitude", mkSeries Float64 [PyFloat (Finite 0)]);
      ("longitude", mkSeries Float64 [PyFloat (Finite 0)]) ].

(** What [to_numeric_df] does to a series: an object series goes through
    [pd.to_numeric], any other is kept. *)
Definition convert_series `{Pandas} (s : Series) : Series :=
  if dtype_eqb (s_dtype s) Object then to_numeric_ignore s else s.

Definition convert_column `{Pandas} (cs : string * Series) : string * Series :=
  (fst cs, convert_series (snd cs)).

(** The contents of the frame after one pass of the loop of [to_numeric_df]
    and after the whole loop. *)
Definition convert_step `{Pandas} (d : DataFrame) (c : string) : DataFrame :=
  match getitem d c with
  | Some s => if dtype_eqb (s_dtype s) Object then setitem d c (to_numeric_ignore s) else d
  | None => d
  end.

Definition converted `{Pandas} (d : DataFrame) : DataFrame :=
  fold_left convert_step (labels d) d.

(** A column counts as numeric when its dtype is a number dtype once
    [to_numeric_df] has run over it. *)
Definition numeric_column `{Pandas} (s : Series) : bool :=
  is_number (s_dtype (convert_series s)).

(** The test [detect_date_column] applies to a column. *)
Definition date_like `{Pandas} (cs : string * Series) : bool :=
  contains "date" (lower (fst cs)) &&
  (to_datetime_raise (snd cs) ||
   (Nat.max 1 (List.length (to_datetime_coerce (snd cs)) / 4)
      <=? notna_sum (to_datetime_coerce (snd cs)))%nat).

(** [c] is the first of [cols] that passes [test]. *)
Definition first_label (test : string -> bool) (cols : list string) (c : string) : Prop :=
  exists pre post, cols = pre ++ c :: post /\ test c = true /\
    Forall (fun c' => test c' = false) pre.

(** [c in numeric_cols], for the [numeric_cols] of [choose_axes]: the labels
    of the columns with a number dtype once [to_numeric_df] has run. *)
Definition numeric_label `{Pandas} (d : DataFrame) (c : string) : bool :=
  mem c (select_number (converted d)).

(** The results [choose_axes] can give on a frame with the labels [cols]. *)
Definition axes_of_columns (cols : list string) (a : axes) : Prop :=
  a = (None, None, "bar") \/ a = (None, None, "table") \/
  exists cx cy kind, (kind = "line" \/ kind = "scatter") /\
    a = (Some cx, Some cy, kind) /\ In cx cols /\ In cy cols.

(** The date test in the words of the design document: the label contains
    "date", and either the strict parse succeeds or at least 25% of the
    non-null entries parse as dates. *)
Definition documented_date_like `{Pandas} (cs : string * Series) : bool :=
  contains "date" (lower (fst cs)) &&
  (to_datetime_raise (snd cs) ||
   (List.length (List.filter (fun v => negb (is_null v)) (s_values (snd cs)))
      <=? 4 * notna_sum (to_datetime_coerce (snd cs)))%nat).

(** What [choose_axes] looks at in a table: the row count and, for each
    column in order, its label, whether it is numeric and whether it passes
    the date test, both after the conversion of [to_numeric_df]. *)
Definition column_profile `{Pandas} (cs : string * Series) : string * bool * bool :=
  (fst cs, numeric_column (snd cs), date_like (convert_column cs)).

Definition profile `{Pandas} (d : DataFrame) : nat * list (string * bool * bool) :=
  (index_len d, map column_profile (columns d)).

(** Agreement on labels, dtypes and row count. *)
Definition same_shape (d1 d2 : DataFrame) : Prop :=
  index_len d1 = index_len d2 /\
  map (fun cs => (fst cs, s_dtype (snd cs))) (columns d1)
  = map (fun cs => (fst cs, s_dtype (snd cs))) (columns d2).

(** ** Tables used as examples *)

Definition fl (q : Q) : pyval := PyFloat (Finite q).

(** Two profile rows. *)
Definition profile_table : DataFrame :=
  mkDataFrame 2
    [ ("pressure", mkSeries Float64 [fl 10; fl 20]);
      ("salinity", mkSeries Float64 [fl 35; fl 36]) ].

(** One profile row. *)
Definition single_row_table : DataFrame :=
  mkDataFrame 1
    [ ("pressure", mkSeries Float64 [fl 10]);
      ("salinity", mkSeries Float64 [fl 35]) ].

(** Two tables with the same labels, dtypes and row count; the strings of
    the first are dates, those of the second are not. *)
Definition dated_table : DataFrame :=
  mkDataFrame 2
    [ ("date", mkSeries Object [PyStr "2020-01-01"; PyStr "2020-01-02"]);
      ("temp", mkSeries Float64 [fl 12; fl 13]) ].

Definition undated_table : DataFrame :=
  mkDataFrame 2
    [ ("date", mkSeries Object [PyStr "north"; PyStr "south"]);
      ("temp", mkSeries Float64 [fl 12; fl 13]) ].

(** Other dates and temperatures than in [dated_table]. *)
Definition later_dated_table : DataFrame :=
  mkDataFrame 2
    [ ("date", mkSeries Object [PyStr "2021-06-01"; PyStr "2021-06-02"]);
      ("temp", mkSeries Float64 [fl 20; fl 21]) ].

(** Seven rows, one of them with a date. *)
Definition sparse_dates : Series :=
  mkSeries Object
    [ PyStr "2020-01-01"; PyStr "n/a"; PyStr "n/a"; PyStr "n/a";
      PyStr "n/a"; PyStr "n/a"; PyStr "n/a" ].

Definition sparse_dates_table : DataFrame :=
  mkDataFrame 7
    [ ("date", sparse_dates);
      ("temp", mkSeries Float64 [fl 1; fl 2; fl 3; fl 4; fl 5; fl 6; fl 7]) ].

(** One row with a date. *)
Definition single_dated_row : DataFrame :=
  mkDataFrame 1
    [ ("date", mkSeries Object [PyStr "2020-01-01"]);
      ("temp", mkSeries Float64 [fl 12]) ].

(** Two profile rows with a temperature. *)
Definition profile_with_temperature : DataFrame :=
  mkDataFrame 2
    [ ("pressure", mkSeries Float64 [fl 10; fl 20]);
      ("salinity", mkSeries Float64 [fl 35; fl 36]);
      ("temperature", mkSeries Float64 [fl 12; fl 11]) ].

(** Two profile rows whose salinity is given in words. *)
Definition profile_with_worded_salinity : DataFrame :=
  mkDataFrame 2
    [ ("pressure", mkSeries Float64 [fl 10; fl 20]);
      ("salinity", mkSeries Object [PyStr "high"; PyStr "low"]) ].

(** Two profile rows with a second pressure, named first. *)
Definition profile_with_sea_pressure : DataFrame :=
  mkDataFrame 2
    [ ("sea_pressure", mkSeries Float64 [fl 11; fl 21]);
      ("pressure", mkSeries Float64 [fl 10; fl 20]);
      ("salinity", mkSeries Float64 [fl 35; fl 36]) ].

(** Two profile rows with adjusted values and flags after the two columns. *)
Definition profile_with_adjusted : DataFrame :=
  mkDataFrame 2
    [ ("pressure", mkSeries Float64 [fl 10; fl 20]);
      ("salinity", mkSeries Float64 [fl 35; fl 36]);
      ("pressure_adjusted", mkSeries Float64 [fl 11; fl 21]);
      ("salinity_qc", mkSeries Float64 [fl 1; fl 1]) ].

(** Dates with a temperature and a salinity. *)
Definition dated_temperature_table : DataFrame :=
  mkDataFrame 2
    [ ("date", mkSeries Object [PyStr "2020-01-01"; PyStr "2020-01-02"]);
      ("salinity", mkSeries Float64 [fl 35; fl 36]);
      ("temperature", mkSeries Float64 [fl 12; fl 13]) ].

(** Two rows of positions. *)
Definition positions_table : DataFrame :=
  mkDataFrame 2
    [ ("float_id", mkSeries Object [PyStr "a17"; PyStr "b42"]);
      ("latitude", mkSeries Float64 [fl 10; fl 11]);
      ("longitude", mkSeries Float64 [fl 70; fl 71]) ].

(** Text only. *)
Definition text_table : DataFrame :=
  mkDataFrame 2
    [ ("platform", mkSeries Object [PyStr "apex"; PyStr "arvor"]);
      ("country", mkSeries Object [PyStr "india"; PyStr "france"]) ].

(** The contract of [pd.to_numeric(s, errors="ignore")]: the result is the
    input itself or a series that is no longer of object dtype. *)
Definition to_numeric_contract `{Pandas} : Prop :=
  forall s, to_numeric_ignore s = s \/ s_dtype (to_numeric_ignore s) <> Object.

(** The frame after the [try] block of [plot_dataframe] has run on the x
    column: the column is replaced when it exists and the parse returns. *)
Definition date_axis_parsed `{PlotEnv} (d : DataFrame) (x : string) : DataFrame :=
  match getitem d x with
  | Some s =>
      match to_datetime_series s with
      | Returned s' => setitem d x s'
      | Raised _ => d
      end
  | None => d
  end.

(** The contents of the frame after [plot_dataframe], and what the call puts
    on the page ([plot_dataframe_run]). *)
Definition plotted_frame `{PlotEnv} (d : DataFrame) (x y : option string)
    (chart_type : string) : DataFrame :=
  if String.eqb chart_type "bar" then d
  else if String.eqb chart_type "line" || String.eqb chart_type "scatter" then
    match x, y with
    | Some x, Some _ => if contains "date" (lower x) then date_axis_parsed d x else d
    | _, _ => d
    end
  else d.

Definition plotted_chart `{PlotEnv} (d : DataFrame) (x y : option string)
    (chart_type : string) : result chart :=
  let d' := plotted_frame d x y chart_type in
  if String.eqb chart_type "bar" then
    match select_number d with
    | [] => Returned (Grid d)
    | numeric_cols =>
        values ← bar_values d numeric_cols; Returned (BarChart numeric_cols values)
    end
  else if String.eqb chart_type "line" || String.eqb chart_type "scatter" then
    match x, y with
    | Some x, Some y =>
        if String.eqb chart_type "line" then
          Returned (LineChart (match sort_values d' x with
                               | Returned sorted => sorted
                               | Raised _ => d'
                               end) x y (reversed_axis y))
        else Returned (ScatterChart d' x y (reversed_axis y))
    | _, _ => Returned (Grid d)
    end
  else Returned (Grid d).

(** A small instance of [PlotEnv]: numbers convert to floats, the date parse
    keeps the values and sets the dtype, and the sort returns the frame as
    it is when the column exists. *)
Definition plain_plot_env : PlotEnv :=
  {| py_float := fun v =>
       match v with
       | PyBool b => Returned (Finite (if b then 1 else 0))
       | PyInt z | NpInt64 z => Returned (Finite (inject_Z z))
       | PyFloat f => Returned f
       | PyNone | PyStr _ => Raised ValueError
       end;
     to_datetime_series := fun s => Returned (mkSeries Datetime64 (s_values s));
     sort_values := fun d x =>
       match getitem d x with
       | Some _ => Returned d
       | None => Raised KeyError
       end |}.

(** A chat of a welcome, a question and an answer, with a route on the map,
    and the session of somebody who opens the shared link. *)
Definition welcome_message : gmap string jval :=
  {[ "role" := JStr "assistant"; "content" := JStr "Hello!" ]}.

Definition chat_with_route : session :=
  mkSession
    [ welcome_message;
      {[ "role" := JStr "user"; "content" := JStr "Where is float 17?" ]};
      {[ "role" := JStr "assistant"; "content" := JStr "Off Chennai." ]} ]
    true (JStr "17") (JStr "Singapore") false false.

Definition opened_link : session :=
  mkSession [welcome_message] false (JStr "") (JStr "") false false.

(** Two rows for a float; the first has no latitude. *)
Definition located_rows : DataFrame :=
  mkDataFrame 2
    [ ("latitude", mkSeries Object [PyNone; PyFloat (Finite 12)]);
      ("longitude", mkSeries Object [PyFloat (Finite 80); PyFloat (Finite 81)]) ].

(** [mask] keeps only rows that [mask'] keeps, and is no longer than it. *)
Fixpoint below (mask mask' : list bool) : bool :=
  match mask, mask' with
  | [], _ => true
  | b :: r, b' :: r' => implb b b' && below r r'
  | _ :: _, [] => false
  end.

(** A chat whose answer came with rows and remembers its question. *)
Definition answered_chat : list (gmap string jval) :=
  [ welcome_message;
    {[ "role" := JStr "user"; "content" := JStr "Where is float 17?" ]};
    {[ "role" := JStr "assistant"; "content" := JStr "Off Chennai.";
       "data" := JRows [[("latitude", fl (12 # 1))]];
       "user_query" := JStr "Where is float 17?" ]} ].

(** Two messages agree on every key but "content". *)
Definition same_but_content (m m' : gmap string jval) : Prop :=
  forall key : string, key <> "content" -> m' !! key = m !! key.

(** * Properties *)

(** ** Sorting *)

Section SortFacts.
Context {A : Type} (key : A -> Q).

Lemma key_lt_true (a b : A) : key_lt key a b = true <-> (key a < key b)%Q.
Proof.
  unfold key_lt. rewrite Qlt_alt. destruct (key a ?= key b)%Q; split; congruence.
Qed.

Lemma key_lt_false (a b : A) : key_lt key a b = false <-> (key b <= key a)%Q.
Proof.
  rewrite <- not_true_iff_false, key_lt_true. split.
  - apply Qnot_lt_le.
  - intros Hle Hlt. exact (Qlt_not_le _ _ Hlt Hle).
Qed.

Lemma sort_insert_In (x y : A) (l : list A) :
  In y (sort_insert key x l) <-> y = x \/ In y l.
Proof.
  induction l as [|z l IH]; simpl.
  - intuition congruence.
  - destruct (key_lt key z x); simpl; rewrite ?IH; intuition congruence.
Qed.

Lemma sort_by_key_In (y : A) (l : list A) : In y (sort_by_key key l) <-> In y l.
Proof.
  induction l as [|x l IH]; simpl; [tauto|].
  rewrite sort_insert_In, IH. intuition congruence.
Qed.

Lemma sort_insert_length (x : A) (l : list A) :
  List.length (sort_insert key x l) = S (List.length l).
Proof.
  induction l as [|z l IH]; simpl; [reflexivity|].
  destruct (key_lt key z x); simpl; congruence.
Qed.

Lemma sort_by_key_length (l : list A) : List.length (sort_by_key key l) = List.length l.
Proof.
  induction l as [|x l IH]; simpl; [reflexivity|].
  rewrite sort_insert_length. congruence.
Qed.

(** Inserting into a list sorted for [R] keeps it sorted for [R], when [R]
    refines the order of the keys and relates [x] to the elements of the list
    on the side the insertion puts them. *)
Lemma sort_insert_sorted (R : A -> A -> Prop) (x : A) (l : list A) :
  (forall a b, R a b -> (key a <= key b)%Q) ->
  (forall y, In y l -> (key y < key x)%Q -> R y x) ->
  (forall y, In y l -> (key x <= key y)%Q -> R x y) ->
  StronglySorted R l -> StronglySorted R (sort_insert key x l).
Proof.
  intros HR Hlow Hhigh. induction 1 as [|y l Hs IH Hy]; simpl.
  - repeat constructor.
  - destruct (key_lt key y x) eqn:E.
    + apply key_lt_true in E. constructor.
      * apply IH; intros; [apply Hlow | apply Hhigh]; simpl; auto.
      * apply List.Forall_forall. intros z Hz. apply sort_insert_In in Hz as [->|Hz].
        -- apply Hlow; simpl; auto.
        -- rewrite List.Forall_forall in Hy. auto.
    + apply key_lt_false in E. constructor; [constructor; assumption|].
      constructor; [apply Hhigh; simpl; auto|].
      apply List.Forall_forall. intros z Hz. apply Hhigh; [simpl; auto|].
      rewrite List.Forall_forall in Hy. eapply Qle_trans; [exact E|]. auto.
Qed.

Lemma StronglySorted_impl (R R' : A -> A -> Prop) (l : list A) :
  (forall a b, R a b -> R' a b) -> StronglySorted R l -> StronglySorted R' l.
Proof.
  intros HRR'. induction 1 as [|y l Hs IH Hy]; constructor; auto.
  eapply List.Forall_impl; [|exact Hy]. auto.
Qed.

Lemma StronglySorted_firstn (R : A -> A -> Prop) (n : nat) (l : list A) :
  StronglySorted R l -> StronglySorted R (firstn n l).
Proof.
  intros Hs. revert n. induction Hs as [|y l Hs IH Hy]; intros [|n]; simpl;
    try constructor; auto.
  apply Forall_take. assumption.
Qed.

Lemma before_cons (x a b : A) (l : list A) : before l a b -> before (x :: l) a b.
Proof.
  intros (l1 & l2 & l3 & ->). exists (x :: l1), l2, l3. reflexivity.
Qed.

Lemma before_head (x b : A) (l : list A) : In b l -> before (x :: l) x b.
Proof.
  intros Hb. apply in_split in Hb as (l2 & l3 & ->). exists [], l2, l3. reflexivity.
Qed.

(** The sort is ascending and stable. *)
Lemma sort_by_key_stable (l : list A) :
  StronglySorted (stable_le key l) (sort_by_key key l).
Proof.
  induction l as [|x l IH]; simpl; [constructor|].
  apply sort_insert_sorted.
  - intros a b [Hlt|[Heq _]]; [apply Qlt_le_weak; assumption|].
    rewrite Heq. apply Qle_refl.
  - intros y _ Hlt. left. assumption.
  - intros y Hy Hle. apply (proj1 (sort_by_key_In y l)) in Hy.
    apply Qle_lteq in Hle as [Hlt|Heq]; [left; assumption|].
    right. split; [assumption|]. apply before_head. assumption.
  - eapply StronglySorted_impl; [|exact IH].
    intros a b [Hlt|[Heq Hb]]; [left; assumption|].
    right. split; [assumption|]. apply before_cons. assumption.
Qed.

Lemma slice_to_sorted (R : A -> A -> Prop) (n : Z) (l : list A) :
  StronglySorted R l -> StronglySorted R (slice_to n l).
Proof.
  intros Hs. unfold slice_to. destruct (n <? 0)%Z; apply StronglySorted_firstn; assumption.
Qed.

End SortFacts.

Lemma before_map {A B : Type} (f : A -> B) (l : list A) (a b : A) :
  before l a b -> before (map f l) (f a) (f b).
Proof.
  intros (l1 & l2 & l3 & ->). exists (map f l1), (map f l2), (map f l3).
  rewrite !map_app. simpl. rewrite map_app. reflexivity.
Qed.

(** ** Results and exceptions *)

Lemma bind_Returned {A B : Type} (m : result A) (k : A -> result B) (b : B) :
  m ≫= k = Returned b <-> exists a, m = Returned a /\ k a = Returned b.
Proof.
  unfold mbind, result_bind. destruct m as [a|e]; split.
  - intros Hk. exists a. split; [reflexivity | exact Hk].
  - intros (a' & [= <-] & Hk). exact Hk.
  - discriminate.
  - intros (a' & [=] & _).
Qed.

Lemma bind_Raised {A B : Type} (m : result A) (k : A -> result B) (e : exn) :
  m ≫= k = Raised e <-> m = Raised e \/ exists a, m = Returned a /\ k a = Raised e.
Proof.
  unfold mbind, result_bind. destruct m as [a|e']; split.
  - intros Hk. right. exists a. split; [reflexivity | exact Hk].
  - intros [[=]|(a' & [= <-] & Hk)]. exact Hk.
  - intros [= ->]. left. reflexivity.
  - intros [[= ->]|(a' & [=] & _)]. reflexivity.
Qed.

(** ** find_nearest_ports *)

Section NearestPorts.
Context `{Geopy} `{FloatArith} `{Unicode}.

Lemma port_distances_Returned (fc : coords) (ports : list Port) (ds : list Candidate) :
  port_distances fc ports = Returned ds -> Forall2 (entry_of fc) ports ds.
Proof.
  revert ds. induction ports as [|p ports IH]; simpl; intros ds Hds.
  - injection Hds as <-. constructor.
  - apply bind_Returned in Hds as (d & Hd & Hds).
    apply bind_Returned in Hds as (ds' & Hds' & Hds).
    injection Hds as <-. constructor; [|auto].
    repeat split; simpl; eauto.
Qed.

Lemma port_distances_Raised (fc : coords) (ports : list Port) (e : exn) :
  port_distances fc ports = Raised e ->
  exists p, In p ports /\ distance_km fc (port_coords p) = Raised e.
Proof.
  induction ports as [|p ports IH]; simpl; [discriminate|]. intros Hr.
  apply bind_Raised in Hr as [Hr|(d & Hd & Hr)]; [eauto|].
  apply bind_Raised in Hr as [Hr|(ds & Hds & Hr)]; [|discriminate].
  destruct (IH Hr) as (p' & Hin & Hp'). eauto.
Qed.

Lemma port_distances_total (fc : coords) (ports : list Port) :
  (forall p, In p ports -> exists q, distance_km fc (port_coords p) = Returned q) ->
  exists ds, port_distances fc ports = Returned ds.
Proof.
  intros Hall. destruct (port_distances fc ports) as [ds|e] eqn:E; [eauto|].
  apply port_distances_Raised in E as (p & Hin & Hp).
  destruct (Hall p Hin) as (q & Hq). congruence.
Qed.

Lemma port_distances_names (fc : coords) (ports : list Port) (ds : list Candidate) :
  port_distances fc ports = Returned ds -> map c_name ds = map name ports.
Proof.
  intros Hds. apply port_distances_Returned in Hds.
  induction Hds as [|p c ports ds (Hn & _) _ IH]; simpl; congruence.
Qed.

Lemma port_distances_length (fc : coords) (ports : list Port) (ds : list Candidate) :
  port_distances fc ports = Returned ds -> List.length ds = List.length ports.
Proof.
  intros Hds. apply port_distances_names in Hds.
  rewrite <- (length_map c_name), Hds, length_map. reflexivity.
Qed.

(** Past the type check the function computes the catalog's distances and
    returns the head of the sorted list. *)
Lemma find_nearest_ports_guard_passed (float_lat float_lon : pyval) (n : Z) :
  isinstance_int_float float_lat = true -> isinstance_int_float float_lon = true ->
  find_nearest_ports float_lat float_lon n =
  port_distances (float_lat, float_lon) GLOBAL_OCEAN_PORTS ≫= fun distances =>
  mret (slice_to n (sort_by_key distance_from_float distances)).
Proof.
  intros Hlat Hlon. unfold find_nearest_ports. rewrite Hlat, Hlon. reflexivity.
Qed.

Lemma find_nearest_ports_guard_failed (float_lat float_lon : pyval) (n : Z) :
  isinstance_int_float float_lat = false \/ isinstance_int_float float_lon = false ->
  find_nearest_ports float_lat float_lon n = Returned [].
Proof.
  intros Hg. unfold find_nearest_ports.
  destruct Hg as [-> | ->]; simpl; [reflexivity|].
  rewrite orb_true_r. reflexivity.
Qed.

(** A list returned by [find_nearest_ports] is in the order [nearer]. *)
Lemma find_nearest_ports_nearer (float_lat float_lon : pyval) (n : Z) (r : list Candidate) :
  find_nearest_ports float_lat float_lon n = Returned r -> StronglySorted nearer r.
Proof.
  intros Hr.
  destruct (isinstance_int_float float_lat) eqn:Hlat;
    [destruct (isinstance_int_float float_lon) eqn:Hlon|].
  - rewrite find_nearest_ports_guard_passed in Hr by assumption.
    apply bind_Returned in Hr as (ds & Hds & Hr). injection Hr as <-.
    apply slice_to_sorted.
    eapply StronglySorted_impl; [|apply sort_by_key_stable].
    intros a b [Hlt|[Heq Hb]]; [left; assumption|]. right. split; [assumption|].
    rewrite <- (port_distances_names _ _ _ Hds). apply before_map. assumption.
  - rewrite find_nearest_ports_guard_failed in Hr by auto.
    injection Hr as <-. constructor.
  - rewrite find_nearest_ports_guard_failed in Hr by auto.
    injection Hr as <-. constructor.
Qed.

Lemma nearer_le (a b : Candidate) :
  nearer a b -> (distance_from_float a <= distance_from_float b)%Q.
Proof.
  intros [Hlt|[Heq _]]; [apply Qlt_le_weak; assumption|].
  rewrite Heq. apply Qle_refl.
Qed.

Lemma find_nearest_ports_length (float_lat float_lon : pyval) (r : list Candidate) :
  isinstance_int_float float_lat = true -> isinstance_int_float float_lon = true ->
  find_nearest_ports float_lat float_lon 4 = Returned r -> List.length r = 4%nat.
Proof.
  intros Hlat Hlon Hr. rewrite find_nearest_ports_guard_passed in Hr by assumption.
  apply bind_Returned in Hr as (ds & Hds & Hr). injection Hr as <-.
  apply port_distances_length in Hds. unfold slice_to. simpl.
  rewrite length_firstn, sort_by_key_length, Hds. reflexivity.
Qed.

Lemma slice_to_In {A : Type} (n : Z) (l : list A) (x : A) : In x (slice_to n l) -> In x l.
Proof.
  unfold slice_to. intros Hx.
  destruct (n <? 0)%Z;
    match type of Hx with In _ (firstn ?k _) =>
      rewrite <- (firstn_skipn k l); apply in_or_app; left; exact Hx
    end.
Qed.

(** Every candidate is the entry of a port of the catalog. *)
Lemma find_nearest_ports_entries (float_lat float_lon : pyval) (n : Z) (r : list Candidate) :
  find_nearest_ports float_lat float_lon n = Returned r ->
  Forall (fun c => exists p, In p GLOBAL_OCEAN_PORTS /\ entry_of (float_lat, float_lon) p c) r.
Proof.
  intros Hr. apply List.Forall_forall. intros c Hc.
  destruct (isinstance_int_float float_lat) eqn:Hlat;
    [destruct (isinstance_int_float float_lon) eqn:Hlon|].
  - rewrite find_nearest_ports_guard_passed in Hr by assumption.
    apply bind_Returned in Hr as (ds & Hds & Hr). injection Hr as <-.
    apply slice_to_In, sort_by_key_In in Hc.
    apply port_distances_Returned in Hds.
    clear -Hds Hc. induction Hds as [|p c' ports ds Hpc _ IH]; [destruct Hc|].
    destruct Hc as [<-|Hc].
    + exists p. split; [left; reflexivity | assumption].
    + destruct (IH Hc) as (p' & Hin & Hp'). exists p'. split; [right|]; assumption.
  - rewrite find_nearest_ports_guard_failed in Hr by auto. injection Hr as <-. destruct Hc.
  - rewrite find_nearest_ports_guard_failed in Hr by auto. injection Hr as <-. destruct Hc.
Qed.

End NearestPorts.

Lemma find_nearest_ports_not_empty `{Geopy} `{FloatArith} (float_lat float_lon : pyval) :
  isinstance_int_float float_lat = true -> isinstance_int_float float_lon = true ->
  find_nearest_ports float_lat float_lon 4 <> Returned [].
Proof.
  intros Hlat Hlon Hr. apply find_nearest_ports_length in Hr; [discriminate | assumption..].
Qed.

(** C1, as the code has it: [find_nearest_ports(lat, lon, 4)] returns the
    empty list exactly when [lat] or [lon] is not an instance of [int] or
    [float].  A NaN or an infinity is a [float], passes the check and goes to
    geopy: the result is then geopy's exception or four candidates, never the
    empty list. *)
Theorem find_nearest_ports_empty_iff `{Geopy} `{FloatArith} (float_lat float_lon : pyval) :
  find_nearest_ports float_lat float_lon 4 = Returned [] <->
  isinstance_int_float float_lat = false \/ isinstance_int_float float_lon = false.
Proof.
  split; [|apply find_nearest_ports_guard_failed].
  intros Hr.
  destruct (isinstance_int_float float_lat) eqn:Hlat; [|auto].
  destruct (isinstance_int_float float_lon) eqn:Hlon; [|auto].
  exfalso. revert Hr. apply find_nearest_ports_not_empty; assumption.
Qed.

(** C1 as stated fails: with [lat = float("nan")] and [lon = 10] the function
    does not return the empty list, whatever geopy does with the NaN. *)
Lemma find_nearest_ports_nan_not_empty :
  ~ exists (G : Geopy) (F : FloatArith),
      @find_nearest_ports G F (PyFloat NaN) (PyInt 10) 4 = Returned [].
Proof.
  intros (G & F & Hr). revert Hr. apply find_nearest_ports_not_empty; reflexivity.
Qed.

Lemma find_nearest_ports_returns `{Geopy} `{FloatArith} (float_lat float_lon : pyval) (n : Z) :
  (forall p, In p GLOBAL_OCEAN_PORTS ->
     exists q, distance_km (float_lat, float_lon) (port_coords p) = Returned q) ->
  exists r, find_nearest_ports float_lat float_lon n = Returned r.
Proof.
  intros Hgeo.
  destruct (isinstance_int_float float_lat) eqn:Hlat;
    [destruct (isinstance_int_float float_lon) eqn:Hlon|].
  - rewrite find_nearest_ports_guard_passed by assumption.
    destruct (port_distances_total _ _ Hgeo) as (ds & ->). simpl. eauto.
  - rewrite find_nearest_ports_guard_failed by auto. eauto.
  - rewrite find_nearest_ports_guard_failed by auto. eauto.
Qed.

(** ** The destination lookup *)

Lemma find_Some_first {A : Type} (f : A -> bool) (l : list A) (x : A) :
  List.find f l = Some x <->
  exists l1 l2, l = l1 ++ x :: l2 /\ f x = true /\ Forall (fun y => f y = false) l1.
Proof.
  induction l as [|q l IH]; simpl.
  - split; [discriminate|]. intros (l1 & l2 & Heq & _). destruct l1; discriminate.
  - destruct (f q) eqn:Eq.
    + split.
      * intros [= <-]. exists [], l. auto.
      * intros (l1 & l2 & Heq & Hp & Hl1). destruct l1 as [|q' l1]; simpl in Heq.
        -- congruence.
        -- injection Heq as <- _. apply Forall_inv in Hl1. congruence.
    + rewrite IH. split.
      * intros (l1 & l2 & -> & Hp & Hl1). exists (q :: l1), l2. auto.
      * intros (l1 & l2 & Heq & Hp & Hl1). destruct l1 as [|q' l1]; simpl in Heq.
        -- injection Heq as -> _. congruence.
        -- injection Heq as <- ->. apply Forall_inv_tail in Hl1. eauto.
Qed.

Lemma find_None_all {A : Type} (f : A -> bool) (l : list A) :
  List.find f l = None <-> Forall (fun y => f y = false) l.
Proof.
  induction l as [|q l IH]; simpl.
  - split; auto.
  - destruct (f q) eqn:Eq.
    + split; [discriminate|]. intros Hall. apply Forall_inv in Hall. congruence.
    + rewrite IH. split; [auto|apply Forall_inv_tail].
Qed.

Lemma find_dest_port_Some `{Unicode} (catalog : list Port) (dest_name : string) (p : Port) :
  find_dest_port catalog dest_name = Some p <->
  exists l1 l2, catalog = l1 ++ p :: l2 /\ name_matches dest_name p = true /\
    Forall (fun p' => name_matches dest_name p' = false) l1.
Proof. apply (find_Some_first (name_matches dest_name)). Qed.

Lemma find_dest_port_None `{Unicode} (catalog : list Port) (dest_name : string) :
  find_dest_port catalog dest_name = None <->
  Forall (fun p => name_matches dest_name p = false) catalog.
Proof. apply (find_None_all (name_matches dest_name)). Qed.

(** On ASCII strings the lookup is the one with ASCII lower-casing. *)
Lemma find_dest_port_ascii `{Unicode} (catalog : list Port) (dest_name : string) :
  lowers_ascii ->
  ascii_only dest_name = true ->
  forallb (fun p => ascii_only (name p)) catalog = true ->
  find_dest_port catalog dest_name
  = List.find (fun p => contains (lower dest_name) (lower (name p))) catalog.
Proof.
  intros Hlow Hdest. unfold find_dest_port. rewrite (Hlow dest_name Hdest).
  induction catalog as [|p catalog IH]; cbn [List.find forallb]; [reflexivity|].
  intros Hall. apply andb_true_iff in Hall as [Hp Hall].
  rewrite (Hlow (name p) Hp), (IH Hall). reflexivity.
Qed.

Lemma lower_kelvin_ascii (s : string) : ascii_only s = true -> lower_kelvin s = lower s.
Proof.
  induction s as [|c s IH]; [reflexivity|].
  cbn [ascii_only]. intros Hs. apply andb_true_iff in Hs as [Hc Hs].
  specialize (IH Hs).
  assert (Ascii.eqb c "226" = false) as Hne.
  { apply Ascii.eqb_neq. intros ->. vm_compute in Hc. discriminate. }
  cbn [lower_kelvin lower]. rewrite Hne. cbn [andb].
  destruct s as [|c2 [|c3 s3]]; rewrite IH; reflexivity.
Qed.

(** The stand-in for [str.lower()] treats ASCII strings as Python does. *)
Lemma kelvin_unicode_lowers_ascii : @lowers_ascii kelvin_unicode.
Proof. intros s Hs. apply lower_kelvin_ascii. exact Hs. Qed.

(** ** render_map_with_route *)

Section Render.
Context `{Geopy} `{FloatArith} `{Unicode}.

(** What has happened when the map was shown. *)
Lemma render_RouteShown (float_df : DataFrame) (float_id dest_name : string)
    (nearest : list Candidate) (dest_port : Port) (details : list RouteDetail) :
  render_map_with_route float_df float_id dest_name
    = Returned (RouteShown nearest dest_port details) ->
  exists float_lat float_lon,
    column float_df "latitude" ≫= iloc0 = Returned float_lat /\
    column float_df "longitude" ≫= iloc0 = Returned float_lon /\
    find_nearest_ports float_lat float_lon 4 = Returned nearest /\
    nearest <> [] /\
    find_dest_port GLOBAL_OCEAN_PORTS dest_name = Some dest_port /\
    route_loop 0 nearest dest_port = Returned details.
Proof.
  unfold render_map_with_route.
  destruct (df_empty float_df); [discriminate|].
  match goal with |- context [if ?c then _ else _] => destruct c end; [discriminate|].
  intros Hr.
  apply bind_Returned in Hr as (float_lat & Hlat & Hr).
  apply bind_Returned in Hr as (float_lon & Hlon & Hr).
  apply bind_Returned in Hr as (nearest' & Hnear & Hr).
  destruct nearest' as [|c nearest']; [discriminate|].
  destruct (find_dest_port GLOBAL_OCEAN_PORTS dest_name) as [dp|]; [|discriminate].
  apply bind_Returned in Hr as (details' & Hloop & Hr).
  destruct (List.length details' <? 4)%nat; [discriminate|].
  injection Hr as <- <- <-.
  exists float_lat, float_lon. repeat split; auto.
Qed.

Lemma render_DestinationNotFound (float_df : DataFrame) (float_id dest_name d : string) :
  render_map_with_route float_df float_id dest_name = Returned (DestinationNotFound d) ->
  d = dest_name /\ find_dest_port GLOBAL_OCEAN_PORTS dest_name = None.
Proof.
  unfold render_map_with_route.
  destruct (df_empty float_df); [discriminate|].
  match goal with |- context [if ?c then _ else _] => destruct c end; [discriminate|].
  intros Hr.
  apply bind_Returned in Hr as (float_lat & Hlat & Hr).
  apply bind_Returned in Hr as (float_lon & Hlon & Hr).
  apply bind_Returned in Hr as (nearest' & Hnear & Hr).
  destruct nearest' as [|c nearest']; [discriminate|].
  destruct (find_dest_port GLOBAL_OCEAN_PORTS dest_name) as [dp|].
  - apply bind_Returned in Hr as (details' & Hloop & Hr).
    destruct (List.length details' <? 4)%nat; discriminate.
  - injection Hr as <-. auto.
Qed.

End Render.

(** C2, as the code has it.  The lookup returns the first catalog entry
    whose lower-cased name contains the lower-cased destination; it fails
    exactly when no entry does, and only then does the rendering report that
    the destination was not found; it does not tell apart destinations that
    have the same lower-casing; all this whatever [str.lower()] does.  With a
    [str.lower()] that lower-cases the ASCII letters, "singapore", "SINGAPORE"
    and the part "Singa" of the name find the entry named "Singapore" in the
    catalog; "Singapore, " is not contained in any name and finds nothing. *)
Theorem destination_lookup `{Geopy} `{FloatArith} `{Unicode} :
  (forall catalog dest_name p,
     find_dest_port catalog dest_name = Some p <->
     exists l1 l2, catalog = l1 ++ p :: l2 /\ name_matches dest_name p = true /\
       Forall (fun p' => name_matches dest_name p' = false) l1) /\
  (forall catalog dest_name,
     find_dest_port catalog dest_name = None <->
     Forall (fun p => name_matches dest_name p = false) catalog) /\
  (forall catalog dest_name other,
     str_lower other = str_lower dest_name ->
     find_dest_port catalog other = find_dest_port catalog dest_name) /\
  (forall float_df float_id dest_name d,
     render_map_with_route float_df float_id dest_name = Returned (DestinationNotFound d) ->
     d = dest_name /\ find_dest_port GLOBAL_OCEAN_PORTS dest_name = None) /\
  (lowers_ascii ->
   find_dest_port GLOBAL_OCEAN_PORTS "singapore" = Some singapore /\
   find_dest_port GLOBAL_OCEAN_PORTS "SINGAPORE" = Some singapore /\
   find_dest_port GLOBAL_OCEAN_PORTS "Singa" = Some singapore /\
   find_dest_port GLOBAL_OCEAN_PORTS "Singapore, " = None).
Proof.
  split; [exact find_dest_port_Some|].
  split; [exact find_dest_port_None|].
  split; [intros catalog dest_name other Heq; unfold find_dest_port; rewrite Heq; reflexivity|].
  split; [exact render_DestinationNotFound|].
  intros Hlow.
  repeat split; rewrite (find_dest_port_ascii _ _ Hlow) by reflexivity;
    vm_compute; reflexivity.
Qed.

(** C2 with the stand-in for [str.lower()]. *)
Lemma destination_lookup_kelvin :
  @find_dest_port kelvin_unicode GLOBAL_OCEAN_PORTS "singapore" = Some singapore /\
  @find_dest_port kelvin_unicode GLOBAL_OCEAN_PORTS "SINGAPORE" = Some singapore /\
  @find_dest_port kelvin_unicode GLOBAL_OCEAN_PORTS "Singa" = Some singapore /\
  @find_dest_port kelvin_unicode GLOBAL_OCEAN_PORTS "Singapore, " = None.
Proof.
  destruct (@destination_lookup grid_geopy exact_floats kelvin_unicode)
    as (_ & _ & _ & _ & Hnames).
  exact (Hnames kelvin_unicode_lowers_ascii).
Defined.

(** C2 as stated fails: whatever [str.lower()] does outside ASCII, a
    destination with trailing content is not found, in the catalog and in a
    catalog that holds the entry "Singapore" alone, where "singapore" is. *)
Lemma singapore_with_trailing_content_not_found :
  ~ exists U : Unicode,
      @lowers_ascii U /\
      (@find_dest_port U GLOBAL_OCEAN_PORTS "singapore" <> Some singapore \/
       @find_dest_port U GLOBAL_OCEAN_PORTS "Singapore, " <> None \/
       @find_dest_port U [singapore] "singapore" <> Some singapore \/
       @find_dest_port U [singapore] "Singapore, " <> None).
Proof.
  intros (U & Hlow & Hfail).
  repeat (destruct Hfail as [Hfail|Hfail];
          [apply Hfail; rewrite (find_dest_port_ascii _ _ Hlow) by reflexivity;
           vm_compute; reflexivity|]).
  apply Hfail. rewrite (find_dest_port_ascii _ _ Hlow) by reflexivity.
  vm_compute. reflexivity.
Qed.

(** The Kelvin sign lower-cases to "k": a destination written with it and
    "enya" is contained in the lower-cased name of Mombasa, Kenya. *)
Example kelvin_sign_finds_mombasa :
  ascii_only kelvin_enya = false /\
  exists p, @find_dest_port kelvin_unicode GLOBAL_OCEAN_PORTS kelvin_enya = Some p /\
            name p = "Mombasa, Kenya".
Proof.
  split; [reflexivity|]. eexists. split; [vm_compute; reflexivity | reflexivity].
Qed.

(** ** Rounding *)

Lemma round_half_even_close (y : Q) :
  (- (1 # 2) <= inject_Z (round_half_even y) - y <= 1 # 2)%Q.
Proof.
  unfold round_half_even.
  pose proof (Qfloor_le y) as Hlo. pose proof (Qlt_floor y) as Hhi.
  rewrite inject_Z_plus in Hhi. change (inject_Z 1) with 1%Q in Hhi.
  set (f := Qfloor y) in *.
  destruct (Qcompare_spec (y - inject_Z f) (1 # 2)) as [Heq|Hlt|Hgt].
  - destruct (Z.even f); rewrite ?inject_Z_plus; change (inject_Z 1) with 1%Q; lra.
  - lra.
  - rewrite inject_Z_plus. change (inject_Z 1) with 1%Q. lra.
Qed.

(** ** The route table *)

Section Routes.
Context `{Geopy} `{FloatArith} `{Unicode}.

Lemma route_loop_Returned (i : nat) (ports : list Candidate) (dest_port : Port)
    (details : list RouteDetail) :
  route_loop i ports dest_port = Returned details ->
  Forall2 (route_of dest_port) ports details.
Proof.
  revert i details. induction ports as [|c ports IH]; simpl; intros i details Hd.
  - injection Hd as <-. constructor.
  - apply bind_Returned in Hd as (d & Hdist & Hd).
    apply bind_Returned in Hd as (rest & Hrest & Hd).
    injection Hd as <-. constructor; [|eauto].
    repeat split; simpl; eauto.
Qed.

(** Past the first index no entry is primary. *)
Lemma route_loop_alternates (i : nat) (ports : list Candidate) (dest_port : Port)
    (details : list RouteDetail) :
  route_loop (S i) ports dest_port = Returned details ->
  Forall (fun r => is_primary r = false) details.
Proof.
  revert i details. induction ports as [|c ports IH]; simpl; intros i details Hd.
  - injection Hd as <-. constructor.
  - apply bind_Returned in Hd as (d & Hdist & Hd).
    apply bind_Returned in Hd as (rest & Hrest & Hd).
    injection Hd as <-. constructor; [reflexivity|eauto].
Qed.

Lemma route_loop_primary (c : Candidate) (ports : list Candidate) (dest_port : Port)
    (details : list RouteDetail) :
  route_loop 0 (c :: ports) dest_port = Returned details ->
  exists r rest, details = r :: rest /\ is_primary r = true /\
    Forall (fun r' => is_primary r' = false) rest.
Proof.
  simpl. intros Hd.
  apply bind_Returned in Hd as (d & Hdist & Hd).
  apply bind_Returned in Hd as (rest & Hrest & Hd).
  injection Hd as <-. eexists _, rest. repeat split.
  eapply route_loop_alternates; eauto.
Qed.

Lemma route_of_names (dest_port : Port) (ports : list Candidate) (details : list RouteDetail) :
  Forall2 (route_of dest_port) ports details ->
  map r_name details = map c_name ports /\
  map distance_to_port details = map distance_from_float ports.
Proof.
  induction 1 as [|c r ports details (Hn & Hd & _) _ [IHn IHd]]; simpl; [auto|].
  split; congruence.
Qed.

End Routes.

(** C6, as the code has it.  In the table of a map that was shown the first
    entry is the primary one, and every entry, the primary one included,
    belongs to a port of the catalog; with [d1] the distance geopy gives from
    the float to that port and [d2] the one from the port to the destination,
    the entry reports [round(d1, 2)] as the distance to the port and
    [round(round(d1, 2) + d2, 2)] as the total distance, the sum and the
    roundings being those of the float arithmetic: the first distance is
    rounded before it is added, and the sum is rounded again. *)
Theorem total_distance_rounded `{Geopy} `{FloatArith} `{Unicode}
    (float_df : DataFrame) (float_id dest_name : string)
    (nearest : list Candidate) (dest_port : Port) (details : list RouteDetail) :
  render_map_with_route float_df float_id dest_name
    = Returned (RouteShown nearest dest_port details) ->
  exists float_lat float_lon,
    column float_df "latitude" ≫= iloc0 = Returned float_lat /\
    column float_df "longitude" ≫= iloc0 = Returned float_lon /\
    (exists r rest, details = r :: rest /\ is_primary r = true) /\
    Forall (fun r => exists port d1 d2,
      In port GLOBAL_OCEAN_PORTS /\ r_name r = name port /\
      distance_km (float_lat, float_lon) (port_coords port) = Returned d1 /\
      distance_km (port_coords port) (port_coords dest_port) = Returned d2 /\
      distance_to_port r = float_round2 d1 /\
      total_distance r = round_float (float_add (float_round2 d1) d2)) details.
Proof.
  intros Hr.
  apply render_RouteShown in Hr as (flat & flon & Hlat & Hlon & Hnear & Hne & _ & Hloop).
  exists flat, flon. split; [assumption|]. split; [assumption|]. split.
  { destruct nearest as [|c cs]; [congruence|].
    destruct (route_loop_primary _ _ _ _ Hloop) as (r & rest & -> & Hp & _).
    exists r, rest. split; [reflexivity | exact Hp]. }
  apply find_nearest_ports_entries in Hnear. apply route_loop_Returned in Hloop.
  clear Hlat Hlon Hne. induction Hloop as [|c r cs rs Hcr _ IH]; [constructor|].
  apply Forall_cons_iff in Hnear as [(p & Hin & Hn & Hla & Hlo & d1 & Hd1 & Hdff) Hnear].
  constructor; [|auto].
  destruct Hcr as (Hrn & Hrd & d2 & Hd2 & Htot).
  exists p, d1, d2.
  assert (candidate_coords c = port_coords p) as Hcoords.
  { unfold candidate_coords, port_coords. rewrite Hla, Hlo. reflexivity. }
  rewrite Hcoords in Hd2. rewrite Hdff in Hrd, Htot.
  repeat split; congruence.
Qed.

(** C6 at a float at (0, 0) bound for Singapore, with the grid distance and
    exact arithmetic. *)
Lemma total_distance_rounded_origin :
  let details :=
    [ mkRouteDetail "Lagos, Nigeria" (Finite (1281694 # 100)) (109323 # 100) true;
      mkRouteDetail "Mombasa, Kenya" (Finite (1256988 # 100)) (485255 # 100) false;
      mkRouteDetail "Rotterdam, Netherlands" (Finite (2291156 # 100)) (626063 # 100) false;
      mkRouteDetail "Durban, South Africa" (Finite (1829942 # 100)) (675774 # 100) false ] in
  exists float_lat float_lon,
    column origin_frame "latitude" ≫= iloc0 = Returned float_lat /\
    column origin_frame "longitude" ≫= iloc0 = Returned float_lon /\
    (exists r rest, details = r :: rest /\ is_primary r = true) /\
    Forall (fun r => exists port d1 d2,
      In port GLOBAL_OCEAN_PORTS /\ r_name r = name port /\
      @distance_km grid_geopy (float_lat, float_lon) (port_coords port) = Returned d1 /\
      @distance_km grid_geopy (port_coords port) (port_coords singapore) = Returned d2 /\
      distance_to_port r = round2 d1 /\
      total_distance r = Finite (round2 (round2 d1 + d2))) details.
Proof.
  eapply (@total_distance_rounded grid_geopy exact_floats kelvin_unicode
            origin_frame "1" "singapore").
  vm_compute. reflexivity.
Defined.

(** C6 as stated fails, even where the addition is exact: for that float the
    primary route goes through Lagos, 1093.2279 km away and 11723.707779 km
    from Singapore; the total reported is 12816.94 km, not their sum. *)
Lemma primary_total_is_not_the_sum :
  exists nearest r rest d1 d2 total,
    @render_map_with_route grid_geopy exact_floats kelvin_unicode
      origin_frame "1" "singapore"
      = Returned (RouteShown nearest singapore (r :: rest)) /\
    is_primary r = true /\ r_name r = "Lagos, Nigeria" /\
    @distance_km grid_geopy (PyFloat (Finite 0), PyFloat (Finite 0))
      (PyFloat (Finite (64531 # 10000)), PyFloat (Finite (33958 # 10000))) = Returned d1 /\
    @distance_km grid_geopy
      (PyFloat (Finite (64531 # 10000)), PyFloat (Finite (33958 # 10000)))
      (port_coords singapore) = Returned d2 /\
    total_distance r = Finite total /\
    (total == 1281694 # 100)%Q /\
    ~ (total == d1 + d2)%Q.
Proof.
  do 6 eexists. split; [vm_compute; reflexivity|].
  split; [reflexivity|]. split; [reflexivity|].
  split; [vm_compute; reflexivity|]. split; [vm_compute; reflexivity|].
  split; [reflexivity|]. split; [reflexivity|].
  vm_compute. discriminate.
Qed.

(** C7: in the table of a map that was shown exactly one entry is primary,
    it is the first one and no entry is nearer to the float than it; the
    entries are those of the candidates, in the candidates' order, which is
    the order of the distance from the float (catalog order at equal
    distance) and does not look at the total distances. *)
Theorem route_details_primary `{Geopy} `{FloatArith} `{Unicode}
    (float_df : DataFrame) (float_id dest_name : string)
    (nearest : list Candidate) (dest_port : Port) (details : list RouteDetail) :
  render_map_with_route float_df float_id dest_name
    = Returned (RouteShown nearest dest_port details) ->
  List.length (List.filter is_primary details) = 1%nat /\
  (exists r rest, details = r :: rest /\ is_primary r = true /\
     Forall (fun r' => is_primary r' = false /\
                       (distance_to_port r <= distance_to_port r')%Q) rest) /\
  map r_name details = map c_name nearest /\
  map distance_to_port details = map distance_from_float nearest /\
  StronglySorted nearer nearest.
Proof.
  intros Hr.
  apply render_RouteShown in Hr as (flat & flon & _ & _ & Hnear & Hne & _ & Hloop).
  apply find_nearest_ports_nearer in Hnear.
  destruct (route_of_names _ _ _ (route_loop_Returned _ _ _ _ Hloop)) as [Hnames Hdist].
  destruct nearest as [|c cs]; [congruence|].
  destruct (route_loop_primary _ _ _ _ Hloop) as (r & rest & -> & Hp & Halt).
  assert (List.filter is_primary rest = []) as Hnone.
  { clear -Halt. induction Halt as [|r' rest Hr' _ IH]; simpl; [reflexivity|].
    rewrite Hr'. exact IH. }
  split; [simpl; rewrite Hp, Hnone; reflexivity|].
  split; [|repeat split; assumption].
  exists r, rest. split; [reflexivity|]. split; [assumption|].
  simpl in Hdist. injection Hdist as Hd Hds.
  apply StronglySorted_inv in Hnear as [_ Hall].
  assert (Forall (fun q => (distance_to_port r <= q)%Q) (map distance_to_port rest)) as Hle.
  { rewrite Hds, Hd. apply List.Forall_map.
    eapply List.Forall_impl; [|exact Hall]. apply nearer_le. }
  apply List.Forall_forall. intros r' Hr'.
  rewrite List.Forall_forall in Halt, Hle.
  split; [auto|]. apply Hle, in_map. assumption.
Qed.

(** C7 at a float at (0, 0) bound for Singapore, with the grid distance: the
    primary route runs through Lagos, and the alternate through Mombasa has
    the smaller total distance. *)
Lemma route_details_primary_origin :
  let details :=
    [ mkRouteDetail "Lagos, Nigeria" (Finite (1281694 # 100)) (109323 # 100) true;
      mkRouteDetail "Mombasa, Kenya" (Finite (1256988 # 100)) (485255 # 100) false;
      mkRouteDetail "Rotterdam, Netherlands" (Finite (2291156 # 100)) (626063 # 100) false;
      mkRouteDetail "Durban, South Africa" (Finite (1829942 # 100)) (675774 # 100) false ] in
  exists nearest,
    @render_map_with_route grid_geopy exact_floats kelvin_unicode origin_frame "1" "singapore"
      = Returned (RouteShown nearest singapore details) /\
    (List.length (List.filter is_primary details) = 1%nat /\
     (exists r rest, details = r :: rest /\ is_primary r = true /\
        Forall (fun r' => is_primary r' = false /\
                          (distance_to_port r <= distance_to_port r')%Q) rest) /\
     map r_name details = map c_name nearest /\
     map distance_to_port details = map distance_from_float nearest /\
     StronglySorted nearer nearest) /\
    ~ StronglySorted (fun a b => float_le (total_distance a) (total_distance b)) details.
Proof.
  eexists. split; [vm_compute; reflexivity|]. split.
  - apply (@route_details_primary grid_geopy exact_floats kelvin_unicode
             origin_frame "1" "singapore" _ singapore).
    vm_compute. reflexivity.
  - intros Hs. apply StronglySorted_inv in Hs as [_ Hall].
    apply Forall_inv in Hall. vm_compute in Hall. apply Hall. reflexivity.
Defined.

(** ** DataFrames *)

Lemma lookup_column_labels (c : string) (cols : list (string * Series)) :
  In c (map fst cols) -> exists s, lookup_column c cols = Some s.
Proof.
  induction cols as [|[c' s'] cols IH]; simpl; [tauto|].
  intros Hin. destruct (String.eqb_spec c c') as [->|Hne]; [eauto|].
  apply IH. destruct Hin as [Heq|Hin]; [congruence|assumption].
Qed.

Lemma lookup_column_In (c : string) (s : Series) (cols : list (string * Series)) :
  lookup_column c cols = Some s -> In (c, s) cols.
Proof.
  induction cols as [|[c' s'] cols IH]; simpl; [discriminate|].
  destruct (String.eqb_spec c c') as [->|Hne].
  - intros [= ->]. auto.
  - auto.
Qed.

Lemma assign_column_labels (c : string) (s : Series) (cols : list (string * Series)) :
  In c (map fst cols) -> map fst (assign_column c s cols) = map fst cols.
Proof.
  induction cols as [|[c' s'] cols IH]; simpl; [tauto|].
  intros Hin. destruct (String.eqb_spec c c') as [->|Hne]; simpl; [reflexivity|].
  f_equal. apply IH. destruct Hin as [Heq|Hin]; [congruence|assumption].
Qed.

(** With distinct labels, [df[c]] is the series paired with [c]. *)
Lemma lookup_column_unique (c : string) (s : Series) (pre post : list (string * Series)) :
  ~ In c (map fst pre) -> lookup_column c (pre ++ (c, s) :: post) = Some s.
Proof.
  induction pre as [|[c' s'] pre IH]; simpl; intros Hnot.
  - rewrite String.eqb_refl. reflexivity.
  - destruct (String.eqb_spec c c') as [->|Hne]; [tauto|]. apply IH. tauto.
Qed.

Lemma assign_column_unique (c : string) (s s' : Series) (pre post : list (string * Series)) :
  ~ In c (map fst pre) ->
  assign_column c s' (pre ++ (c, s) :: post) = pre ++ (c, s') :: post.
Proof.
  induction pre as [|[c0 s0] pre IH]; simpl; intros Hnot.
  - rewrite String.eqb_refl. reflexivity.
  - destruct (String.eqb_spec c c0) as [->|Hne]; [tauto|]. f_equal. apply IH. tauto.
Qed.

Section Conversion.
Context `{Pandas}.

Lemma convert_step_labels (d : DataFrame) (c : string) :
  labels (convert_step d c) = labels d.
Proof.
  unfold convert_step, getitem. destruct (lookup_column c (columns d)) as [s|] eqn:E;
    [|reflexivity].
  destruct (dtype_eqb (s_dtype s) Object); [|reflexivity].
  unfold labels, setitem. simpl. apply assign_column_labels.
  apply lookup_column_In in E. apply (in_map fst) in E. exact E.
Qed.

Lemma convert_step_index_len (d : DataFrame) (c : string) :
  index_len (convert_step d c) = index_len d.
Proof.
  unfold convert_step. destruct (getitem d c) as [s|]; [|reflexivity].
  destruct (dtype_eqb (s_dtype s) Object); reflexivity.
Qed.

Lemma fold_convert_labels (cs : list string) (d : DataFrame) :
  labels (fold_left convert_step cs d) = labels d.
Proof.
  revert d. induction cs as [|c cs IH]; simpl; intros d; [reflexivity|].
  rewrite IH. apply convert_step_labels.
Qed.

Lemma fold_convert_index_len (cs : list string) (d : DataFrame) :
  index_len (fold_left convert_step cs d) = index_len d.
Proof.
  revert d. induction cs as [|c cs IH]; simpl; intros d; [reflexivity|].
  rewrite IH. apply convert_step_index_len.
Qed.

Lemma converted_labels (d : DataFrame) : labels (converted d) = labels d.
Proof. apply fold_convert_labels. Qed.

Lemma converted_index_len (d : DataFrame) : index_len (converted d) = index_len d.
Proof. apply fold_convert_index_len. Qed.

(** With distinct labels the loop converts every column in place. *)
Lemma fold_convert_columns (n : nat) (pre post : list (string * Series)) :
  List.NoDup (map fst (pre ++ post)) ->
  fold_left convert_step (map fst post) (mkDataFrame n (map convert_column pre ++ post))
  = mkDataFrame n (map convert_column (pre ++ post)).
Proof.
  revert pre. induction post as [|[c s] post IH]; intros pre Hnd; simpl.
  - rewrite !app_nil_r. reflexivity.
  - assert (~ In c (map fst (map convert_column pre))) as Hnot.
    { rewrite map_map. simpl. rewrite map_app in Hnd. simpl in Hnd.
      apply NoDup_remove_2 in Hnd. intros Hin. apply Hnd, in_or_app. left.
      unfold fmap, list_fmap in *. exact Hin. }
    assert (convert_step (mkDataFrame n (map convert_column pre ++ (c, s) :: post)) c
            = mkDataFrame n (map convert_column (pre ++ [(c, s)]) ++ post)) as ->.
    { unfold convert_step, getitem, setitem. cbn [columns index_len].
      rewrite lookup_column_unique by assumption.
      rewrite map_app, <- app_assoc. cbn [map app].
      change (convert_column (c, s)) with (c, convert_series s).
      unfold convert_series.
      destruct (dtype_eqb (s_dtype s) Object); [|reflexivity].
      rewrite assign_column_unique by assumption. reflexivity. }
    rewrite IH by (rewrite <- app_assoc; exact Hnd).
    rewrite <- app_assoc. reflexivity.
Qed.

Lemma converted_columns (d : DataFrame) :
  unique_labels d ->
  converted d = mkDataFrame (index_len d) (map convert_column (columns d)).
Proof.
  intros Hu. destruct d as [n cols]. unfold converted, labels. simpl.
  apply (fold_convert_columns n [] cols). exact Hu.
Qed.

End Conversion.

(** ** Running [to_numeric_df] and [choose_axes] on a store *)

Section StoreRun.
Context `{Pandas}.

Lemma M_bind_run {A B : Type} (m : M A) (k : A -> M B) (σ : store) :
  (m ≫= k) σ = match m σ with Some (a, σ') => k a σ' | None => None end.
Proof. reflexivity. Qed.

Lemma to_numeric_step_run (l : loc) (d : DataFrame) (σ : store) (c : string) :
  In c (labels d) ->
  to_numeric_step l c (<[l := d]> σ) = Some (tt, <[l := convert_step d c]> σ).
Proof.
  intros Hc. apply lookup_column_labels in Hc as (s & Hs).
  unfold to_numeric_step, convert_step, getitem. rewrite M_bind_run.
  unfold df_read. rewrite lookup_insert_eq, Hs.
  destruct (dtype_eqb (s_dtype s) Object).
  - unfold df_write. rewrite lookup_insert_eq, insert_insert_eq. reflexivity.
  - reflexivity.
Qed.

Lemma for_each_run (l : loc) (σ : store) (cs : list string) (d : DataFrame) :
  (forall c, In c cs -> In c (labels d)) ->
  for_each cs (to_numeric_step l) (<[l := d]> σ)
  = Some (tt, <[l := fold_left convert_step cs d]> σ).
Proof.
  revert d. induction cs as [|c cs IH]; simpl; intros d Hcs; [reflexivity|].
  rewrite M_bind_run, to_numeric_step_run by auto.
  apply IH. intros c' Hc'. rewrite convert_step_labels. auto.
Qed.

(** [to_numeric_df] allocates one new object, the converted copy, and returns
    it; no other object of the store changes. *)
Lemma to_numeric_df_run (l : loc) (d : DataFrame) (σ : store) :
  σ !! l = Some d ->
  to_numeric_df l σ = Some (fresh (dom σ), <[fresh (dom σ) := converted d]> σ).
Proof.
  intros Hl. unfold to_numeric_df. rewrite M_bind_run. unfold df_copy. rewrite Hl.
  rewrite M_bind_run. unfold df_read at 1. rewrite lookup_insert_eq.
  rewrite M_bind_run, for_each_run by auto. reflexivity.
Qed.

Lemma choose_axes_run (l : loc) (d : DataFrame) (σ : store) :
  σ !! l = Some d ->
  choose_axes l σ
  = Some (choose_axes_rules (converted d), <[fresh (dom σ) := converted d]> σ).
Proof.
  intros Hl. unfold choose_axes.
  rewrite M_bind_run, (to_numeric_df_run l d σ Hl), M_bind_run.
  unfold df_read. rewrite lookup_insert_eq. reflexivity.
Qed.

Lemma insert_fresh_lookup (σ : store) (d' : DataFrame) (l : loc) (d : DataFrame) :
  σ !! l = Some d -> <[fresh (dom σ) := d']> σ !! l = Some d.
Proof.
  intros Hl. rewrite lookup_insert_ne; [assumption|].
  intros Heq. apply (is_fresh (dom σ)). rewrite Heq. apply elem_of_dom. eauto.
Qed.

End StoreRun.

(** ** The rules of choose_axes *)

Section Rules.
Context `{Pandas}.

Lemma select_number_labels (d : DataFrame) (c : string) :
  In c (select_number d) -> In c (labels d).
Proof.
  unfold select_number, labels. rewrite !in_map_iff.
  intros (cs & Hc & Hin). apply filter_In in Hin as [Hin _]. eauto.
Qed.

Lemma mem_In (c : string) (l : list string) : mem c l = true <-> In c l.
Proof.
  unfold mem. rewrite existsb_exists. split.
  - intros (x & Hin & Heq). apply String.eqb_eq in Heq. congruence.
  - intros Hin. exists c. split; [assumption | apply String.eqb_refl].
Qed.

Lemma first_match_In (pref : string) (cols numeric_cols : list string) (c : string) :
  first_match pref cols numeric_cols = Some c ->
  In c cols /\ In c numeric_cols /\ contains pref (lower c) = true.
Proof.
  induction cols as [|c' cols IH]; simpl; [discriminate|].
  destruct (contains pref (lower c') && mem c' numeric_cols) eqn:E.
  - intros [= <-]. apply andb_true_iff in E as [Hc Hm]. apply mem_In in Hm. auto.
  - intros Hc. destruct (IH Hc) as (? & ? & ?). auto.
Qed.

Lemma first_preferred_In (prefs cols numeric_cols : list string) (c : string) :
  first_preferred prefs cols numeric_cols = Some c -> In c cols /\ In c numeric_cols.
Proof.
  induction prefs as [|pref prefs IH]; simpl; [discriminate|].
  destruct (first_match pref cols numeric_cols) as [c'|] eqn:E; [|exact IH].
  intros [= <-]. apply first_match_In in E as (? & ? & ?). auto.
Qed.

Lemma find_pressure_In (cols : list string) (c : string) :
  find_pressure cols = Some c -> In c cols.
Proof.
  induction cols as [|c' cols IH]; cbn [find_pressure]; [discriminate|].
  destruct (String.eqb "pressure" (lower c') || contains "pressure" (lower c')).
  - intros [= <-]. left. reflexivity.
  - intros Hc. right. auto.
Qed.

Lemma detect_date_loop_In (d : DataFrame) (cs : list string) (c : string) :
  detect_date_loop d cs = Some c -> In c cs /\ contains "date" (lower c) = true.
Proof.
  induction cs as [|c' cs IH]; simpl; [discriminate|].
  destruct (contains "date" (lower c')) eqn:E; [|intros Hc; destruct (IH Hc); auto].
  destruct (getitem d c') as [s|]; [|intros Hc; destruct (IH Hc); auto].
  destruct (to_datetime_raise s); [intros [= <-]; auto|].
  match goal with |- context [if ?b then _ else _] => destruct b end;
    [intros [= <-]; auto | intros Hc; destruct (IH Hc); auto].
Qed.

Lemma contains_truthy (p c : string) :
  truthy p = true -> contains p (lower c) = true -> truthy c = true.
Proof.
  destruct c; [|reflexivity]. destruct p; simpl; [discriminate|].
  intros _. discriminate.
Qed.

Lemma scatter_or_table_axes (cols numeric_cols : list string) :
  (forall c, In c numeric_cols -> In c cols) ->
  axes_of_columns cols (scatter_or_table numeric_cols).
Proof.
  intros Hsub. unfold scatter_or_table.
  destruct numeric_cols as [|x [|y rest]]; [right; left; reflexivity..|].
  right. right. exists x, y, "scatter". simpl in Hsub. auto 8.
Qed.

Lemma pressure_rule_axes (cols numeric_cols : list string) :
  (forall c, In c numeric_cols -> In c cols) ->
  axes_of_columns cols (pressure_rule cols numeric_cols).
Proof.
  intros Hsub. unfold pressure_rule.
  destruct (find_pressure cols) as [p|] eqn:Ep; [|apply scatter_or_table_axes; assumption].
  apply find_pressure_In in Ep.
  destruct (truthy p); [|apply scatter_or_table_axes; assumption].
  destruct (first_preferred _ cols numeric_cols) as [c|] eqn:Ec.
  - apply first_preferred_In in Ec as [Hc _].
    right. right. exists c, p, "line". auto.
  - destruct (List.filter _ numeric_cols) as [|o others] eqn:Eo;
      [apply scatter_or_table_axes; assumption|].
    assert (In o numeric_cols) as Ho.
    { assert (In o (o :: others)) as Hin by (left; reflexivity).
      rewrite <- Eo in Hin. apply filter_In in Hin as [Hin _]. exact Hin. }
    right. right. exists o, p, "line". auto.
Qed.

Lemma date_rule_axes (d : DataFrame) (numeric_cols : list string) :
  (forall c, In c numeric_cols -> In c (labels d)) ->
  axes_of_columns (labels d) (date_rule d (labels d) numeric_cols).
Proof.
  intros Hsub. unfold date_rule, detect_date_column.
  destruct (detect_date_loop d (labels d)) as [dc|] eqn:Ed;
    [|apply pressure_rule_axes; assumption].
  apply detect_date_loop_In in Ed as [Hdc _].
  destruct (truthy dc); [|apply pressure_rule_axes; assumption].
  destruct (first_preferred _ (labels d) numeric_cols) as [c|] eqn:Ec.
  - apply first_preferred_In in Ec as [Hc _].
    right. right. exists dc, c, "line". auto.
  - destruct numeric_cols as [|n rest]; [apply pressure_rule_axes; assumption|].
    right. right. exists dc, n, "line". simpl in Hsub. auto 8.
Qed.

Lemma choose_axes_rules_axes (d : DataFrame) :
  axes_of_columns (labels d) (choose_axes_rules d).
Proof.
  unfold choose_axes_rules.
  match goal with |- context [if ?b then _ else _] => destruct b end;
    [left; reflexivity|].
  apply date_rule_axes. apply select_number_labels.
Qed.

End Rules.

(** C10: on every table [choose_axes] returns; [x] and [y] are both [None]
    exactly when the kind is "bar" or "table", and when the kind is "line" or
    "scatter" both are labels of columns of the table. *)
Theorem choose_axes_shape `{Pandas} (σ : store) (l : loc) (d : DataFrame) :
  σ !! l = Some d ->
  exists x y kind σ',
    choose_axes l σ = Some ((x, y, kind), σ') /\
    ((x = None /\ y = None) <-> (kind = "bar" \/ kind = "table")) /\
    (kind = "line" \/ kind = "scatter" ->
       exists cx cy, x = Some cx /\ y = Some cy /\ In cx (labels d) /\ In cy (labels d)) /\
    In kind ["bar"; "line"; "scatter"; "table"].
Proof.
  intros Hl. rewrite (choose_axes_run l d σ Hl).
  pose proof (choose_axes_rules_axes (converted d)) as Hax.
  rewrite converted_labels in Hax.
  destruct (choose_axes_rules (converted d)) as [[x y] kind].
  exists x, y, kind, (<[fresh (dom σ) := converted d]> σ).
  split; [reflexivity|].
  destruct Hax as [[= -> -> ->]|[[= -> -> ->]|(cx & cy & k & Hk & [= -> -> ->] & Hx & Hy)]].
  - split; [tauto|]. split; [intros [[=]|[=]] | simpl; auto].
  - split; [tauto|]. split; [intros [[=]|[=]] | simpl; auto].
  - split; [|split].
    + split; [intros [[=] _] | intros [->| ->]; destruct Hk; discriminate].
    + intros _. exists cx, cy. auto.
    + destruct Hk as [->| ->]; simpl; auto.
Qed.

(** C10 on a two-row table with a pressure and a salinity column. *)
Lemma choose_axes_shape_profile_table :
  exists x y kind σ',
    @choose_axes iso_pandas 1%positive {[ 1%positive := profile_table ]}
      = Some ((x, y, kind), σ') /\
    ((x = None /\ y = None) <-> (kind = "bar" \/ kind = "table")) /\
    (kind = "line" \/ kind = "scatter" ->
       exists cx cy, x = Some cx /\ y = Some cy /\
         In cx (labels profile_table) /\ In cy (labels profile_table)) /\
    In kind ["bar"; "line"; "scatter"; "table"].
Proof.
  apply (@choose_axes_shape iso_pandas). apply lookup_singleton_eq.
Defined.

(** ** Numeric columns of the converted frame *)

Section NumericColumns.
Context `{Pandas}.

Lemma select_number_converted (d : DataFrame) (c : string) :
  unique_labels d ->
  In c (select_number (converted d)) <->
  exists s, In (c, s) (columns d) /\ numeric_column s = true.
Proof.
  intros Hu. rewrite (converted_columns d Hu). unfold select_number. cbn [columns].
  rewrite in_map_iff. split.
  - intros ([c' s'] & <- & Hin). apply filter_In in Hin as [Hin Hnum].
    apply in_map_iff in Hin as ([c0 s0] & [= <- <-] & Hin). eauto.
  - intros (s & Hin & Hnum). exists (convert_column (c, s)). split; [reflexivity|].
    apply filter_In. split; [apply in_map; assumption | exact Hnum].
Qed.

Lemma pressure_test (s : string) :
  String.eqb "pressure" s || contains "pressure" s = contains "pressure" s.
Proof.
  destruct (String.eqb_spec "pressure" s) as [<-|Hne]; reflexivity.
Qed.

Lemma first_match_none (pref : string) (cols numeric_cols : list string) :
  (forall c, In c cols -> In c numeric_cols -> contains pref (lower c) = false) ->
  first_match pref cols numeric_cols = None.
Proof.
  induction cols as [|c cols IH]; simpl; [reflexivity|]. intros Hno.
  destruct (mem c numeric_cols) eqn:Em.
  - rewrite (Hno c) by (auto; apply mem_In; exact Em). simpl. auto.
  - rewrite andb_false_r. auto.
Qed.

Lemma first_match_only (pref target : string) (cols numeric_cols : list string) :
  contains pref (lower target) = true ->
  In target cols -> In target numeric_cols ->
  (forall c, In c cols -> In c numeric_cols -> contains pref (lower c) = true -> c = target) ->
  first_match pref cols numeric_cols = Some target.
Proof.
  intros Ht Hin Hnum Honly. induction cols as [|c cols IH]; simpl; [destruct Hin|].
  destruct (contains pref (lower c) && mem c numeric_cols) eqn:E.
  - apply andb_true_iff in E as [Ec Em]. apply mem_In in Em.
    f_equal. apply Honly; [left; reflexivity | assumption..].
  - apply IH.
    + destruct Hin as [->|Hin]; [|exact Hin].
      apply mem_In in Hnum. rewrite Ht, Hnum in E. discriminate.
    + intros c' Hc'. apply Honly. right. exact Hc'.
Qed.

End NumericColumns.

(** C8: on a table with one row and at least one numeric column
    [choose_axes] returns the kind "bar" with [x] and [y] unset. *)
Theorem single_row_bar `{Pandas} (σ : store) (l : loc) (d : DataFrame) :
  σ !! l = Some d ->
  unique_labels d ->
  index_len d = 1%nat ->
  (exists c s, In (c, s) (columns d) /\ numeric_column s = true) ->
  exists σ', choose_axes l σ = Some ((None, None, "bar"), σ').
Proof.
  intros Hl Hu Hrows (c & s & Hin & Hnum).
  rewrite (choose_axes_run l d σ Hl). eexists. f_equal. f_equal.
  unfold choose_axes_rules. rewrite converted_index_len, Hrows.
  assert (In c (select_number (converted d))) as Hc.
  { apply select_number_converted; eauto. }
  destruct (select_number (converted d)); [destruct Hc | reflexivity].
Qed.

(** C8 on one profile row. *)
Lemma single_row_bar_profile :
  exists σ',
    @choose_axes iso_pandas 1%positive {[ 1%positive := single_row_table ]}
    = Some ((None, None, "bar"), σ').
Proof.
  apply (@single_row_bar iso_pandas _ _ single_row_table).
  - apply lookup_singleton_eq.
  - repeat constructor; simpl; intuition discriminate.
  - reflexivity.
  - exists "pressure", (mkSeries Float64 [fl 10]). split; [left; reflexivity | reflexivity].
Defined.

(** ** The date column *)

Section DateColumn.
Context `{Pandas}.

Lemma detect_date_loop_find (n : nat) (pre post : list (string * Series)) :
  List.NoDup (map fst (pre ++ post)) ->
  detect_date_loop (mkDataFrame n (pre ++ post)) (map fst post)
  = option_map fst (List.find date_like post).
Proof.
  revert pre. induction post as [|[c s] post IH]; intros pre Hnd; [reflexivity|].
  assert (~ In c (map fst pre)) as Hnot.
  { rewrite map_app in Hnd. simpl in Hnd. apply NoDup_remove_2 in Hnd.
    intros Hin. apply Hnd, in_or_app. left. exact Hin. }
  assert (detect_date_loop (mkDataFrame n (pre ++ (c, s) :: post)) (map fst post)
          = option_map fst (List.find date_like post)) as Hrest.
  { replace (pre ++ (c, s) :: post) with ((pre ++ [(c, s)]) ++ post)
      by (rewrite <- app_assoc; reflexivity).
    apply IH. rewrite <- app_assoc. exact Hnd. }
  cbn [map fst detect_date_loop List.find]. unfold getitem. cbn [columns].
  rewrite (lookup_column_unique c s pre post Hnot), Hrest.
  set (rest := List.find date_like post).
  unfold date_like. cbn [fst snd].
  destruct (contains "date" (lower c)); [|reflexivity].
  destruct (to_datetime_raise s); [reflexivity|]. cbn [andb orb].
  match goal with |- context [(?a <=? ?b)%nat] => destruct (a <=? b)%nat end; reflexivity.
Qed.

(** With distinct labels the loop of [detect_date_column] finds the first
    column that passes the date test. *)
Lemma detect_date_column_find (d : DataFrame) :
  unique_labels d ->
  detect_date_column d = option_map fst (List.find date_like (columns d)).
Proof.
  intros Hu. destruct d as [n cols]. apply (detect_date_loop_find n [] cols). exact Hu.
Qed.

End DateColumn.

(** ** What choose_axes depends on *)

Lemma map_filter_through {A B C : Type} (g : A -> C) (f : A -> bool) (h : A -> B)
    (f' : C -> bool) (h' : C -> B) (l : list A) :
  (forall x, f x = f' (g x)) -> (forall x, h x = h' (g x)) ->
  map h (List.filter f l) = map h' (List.filter f' (map g l)).
Proof.
  intros Hf Hh. induction l as [|x l IH]; simpl; [reflexivity|].
  rewrite <- Hf. destruct (f x); simpl; rewrite ?Hh, IH; reflexivity.
Qed.

Lemma find_through {A B C : Type} (g : A -> C) (f : A -> bool) (h : A -> B)
    (f' : C -> bool) (h' : C -> B) (l : list A) :
  (forall x, f x = f' (g x)) -> (forall x, h x = h' (g x)) ->
  option_map h (List.find f l) = option_map h' (List.find f' (map g l)).
Proof.
  intros Hf Hh. induction l as [|x l IH]; simpl; [reflexivity|].
  rewrite <- Hf. destruct (f x); simpl; rewrite ?Hh; auto.
Qed.

Section Profile.
Context `{Pandas}.

Lemma converted_unique (d : DataFrame) : unique_labels d -> unique_labels (converted d).
Proof. unfold unique_labels. rewrite converted_labels. auto. Qed.

Lemma labels_of_profile (d : DataFrame) :
  labels (converted d) = map (fun t => fst (fst t)) (snd (profile d)).
Proof.
  rewrite converted_labels. unfold labels, profile. cbn [snd].
  rewrite map_map. reflexivity.
Qed.

Lemma select_number_of_profile (d : DataFrame) :
  unique_labels d ->
  select_number (converted d)
  = map (fun t => fst (fst t)) (List.filter (fun t => snd (fst t)) (snd (profile d))).
Proof.
  intros Hu. rewrite (converted_columns d Hu). unfold select_number, profile.
  cbn [columns snd].
  rewrite <- (map_filter_through column_profile (fun cs => numeric_column (snd cs)) fst)
    by reflexivity.
  symmetry. apply (map_filter_through convert_column); reflexivity.
Qed.

Lemma detect_date_column_of_profile (d : DataFrame) :
  unique_labels d ->
  detect_date_column (converted d)
  = option_map (fun t => fst (fst t)) (List.find snd (snd (profile d))).
Proof.
  intros Hu. rewrite (detect_date_column_find _ (converted_unique d Hu)).
  rewrite (converted_columns d Hu). unfold profile. cbn [columns snd].
  rewrite <- (find_through column_profile (fun cs => date_like (convert_column cs)) fst)
    by reflexivity.
  symmetry. apply (find_through convert_column); reflexivity.
Qed.

(** The result computed on the converted frame is a function of the
    profile of the table. *)
Lemma choose_axes_rules_of_profile (d1 d2 : DataFrame) :
  unique_labels d1 -> unique_labels d2 -> profile d1 = profile d2 ->
  choose_axes_rules (converted d1) = choose_axes_rules (converted d2).
Proof.
  intros Hu1 Hu2 Hp. unfold choose_axes_rules, date_rule.
  rewrite !labels_of_profile, !select_number_of_profile, !detect_date_column_of_profile
    by assumption.
  rewrite !converted_index_len.
  replace (index_len d1) with (fst (profile d1)) by reflexivity.
  replace (index_len d2) with (fst (profile d2)) by reflexivity.
  rewrite Hp. reflexivity.
Qed.

End Profile.

(** C4, as the code has it.  [choose_axes] works on a copy: every object of
    the store, the input table among them, is the same after the call.  Its
    result is a function of the row count and, for each column in order, of
    the label, of whether the column is numeric after the conversion and of
    whether it passes the date test: two tables with distinct labels that
    agree on these get equal results.  The values of a column matter
    through the conversion and through the date test. *)
Theorem choose_axes_pure `{Pandas} (σ1 σ2 : store) (l1 l2 : loc) (d1 d2 : DataFrame) :
  σ1 !! l1 = Some d1 -> σ2 !! l2 = Some d2 ->
  unique_labels d1 -> unique_labels d2 ->
  profile d1 = profile d2 ->
  exists r σ1' σ2',
    choose_axes l1 σ1 = Some (r, σ1') /\ choose_axes l2 σ2 = Some (r, σ2') /\
    (forall l d, σ1 !! l = Some d -> σ1' !! l = Some d) /\
    (forall l d, σ2 !! l = Some d -> σ2' !! l = Some d).
Proof.
  intros Hl1 Hl2 Hu1 Hu2 Hp.
  exists (choose_axes_rules (converted d1)).
  exists (<[fresh (dom σ1) := converted d1]> σ1), (<[fresh (dom σ2) := converted d2]> σ2).
  split; [apply choose_axes_run; assumption|].
  split; [rewrite (choose_axes_rules_of_profile d1 d2) by assumption;
          apply choose_axes_run; assumption|].
  split; intros l d; apply insert_fresh_lookup.
Qed.

(** C4 on two tables with different dates and temperatures. *)
Lemma choose_axes_pure_dated :
  exists r σ1' σ2',
    @choose_axes iso_pandas 1%positive {[ 1%positive := dated_table ]} = Some (r, σ1') /\
    @choose_axes iso_pandas 2%positive {[ 2%positive := later_dated_table ]} = Some (r, σ2') /\
    (forall l d, ({[ 1%positive := dated_table ]} : store) !! l = Some d -> σ1' !! l = Some d) /\
    (forall l d, ({[ 2%positive := later_dated_table ]} : store) !! l = Some d ->
                 σ2' !! l = Some d).
Proof.
  apply (@choose_axes_pure iso_pandas _ _ _ _ dated_table later_dated_table).
  - apply lookup_singleton_eq.
  - apply lookup_singleton_eq.
  - repeat constructor; simpl; intuition discriminate.
  - repeat constructor; simpl; intuition discriminate.
  - reflexivity.
Defined.

(** C4 as stated fails: two tables with the same labels, dtypes and row
    count, one with dates in its column "date" and one without, get
    different results. *)
Lemma same_shape_different_axes :
  same_shape dated_table undated_table /\
  fst <$> @choose_axes iso_pandas 1%positive {[ 1%positive := dated_table ]}
    = Some (Some "date", Some "temp", "line") /\
  fst <$> @choose_axes iso_pandas 1%positive {[ 1%positive := undated_table ]}
    = Some (None, None, "table").
Proof.
  split; [split; reflexivity|].
  split.
  - rewrite (choose_axes_run _ dated_table) by apply lookup_singleton_eq. reflexivity.
  - rewrite (choose_axes_run _ undated_table) by apply lookup_singleton_eq. reflexivity.
Qed.

(** ** The map is shown whenever geopy returns *)

Lemma catalog_names_distinct : List.NoDup (map name GLOBAL_OCEAN_PORTS).
Proof.
  apply (NoDup_count_occ' string_dec). intros x Hx. simpl in Hx.
  repeat (destruct Hx as [<-|Hx]; [vm_compute; reflexivity|]). destruct Hx.
Qed.

Lemma lookup_column_present (c : string) (s : Series) (cols : list (string * Series)) :
  lookup_column c cols = Some s -> existsb (String.eqb c) (map fst cols) = true.
Proof.
  induction cols as [|[c' s'] cols IH]; simpl; [discriminate|].
  destruct (String.eqb c c'); [reflexivity | exact IH].
Qed.

Lemma column_iloc0 (d : DataFrame) (c : string) (s : Series) (v : pyval) (rest : list pyval) :
  getitem d c = Some s -> s_values s = v :: rest -> column d c ≫= iloc0 = Returned v.
Proof.
  intros Hs Hv. unfold column, iloc0. rewrite Hs. simpl. rewrite Hv. reflexivity.
Qed.

Section Shown.
Context `{Geopy} `{FloatArith} `{Unicode}.

Lemma route_loop_total (i : nat) (ports : list Candidate) (dest_port : Port) :
  (forall c, In c ports ->
     exists q, distance_km (candidate_coords c) (port_coords dest_port) = Returned q) ->
  exists details, route_loop i ports dest_port = Returned details /\
    List.length details = List.length ports.
Proof.
  revert i. induction ports as [|c ports IH]; intros i Hall; simpl.
  - exists []. split; reflexivity.
  - destruct (Hall c (or_introl eq_refl)) as (q & ->).
    destruct (IH (S i)) as (details & -> & Hlen); [intros c' Hc'; apply Hall; right; exact Hc'|].
    eexists. split; [reflexivity|]. simpl. congruence.
Qed.

(** A frame with a row, a latitude and a longitude that are Python numbers,
    a destination of the catalog, and distances from geopy: the map is
    shown, with four candidates and four routes. *)
Lemma render_map_with_route_shows (float_df : DataFrame) (float_id dest_name : string)
    (lats lons : Series) (float_lat float_lon : pyval) (rest rest' : list pyval)
    (dest_port : Port) :
  df_empty float_df = false ->
  getitem float_df "latitude" = Some lats -> s_values lats = float_lat :: rest ->
  getitem float_df "longitude" = Some lons -> s_values lons = float_lon :: rest' ->
  isinstance_int_float float_lat = true -> isinstance_int_float float_lon = true ->
  (forall p, In p GLOBAL_OCEAN_PORTS ->
     exists q, distance_km (float_lat, float_lon) (port_coords p) = Returned q) ->
  (forall p, In p GLOBAL_OCEAN_PORTS ->
     exists q, distance_km (port_coords p) (port_coords dest_port) = Returned q) ->
  find_dest_port GLOBAL_OCEAN_PORTS dest_name = Some dest_port ->
  exists nearest details,
    render_map_with_route float_df float_id dest_name
      = Returned (RouteShown nearest dest_port details) /\
    List.length nearest = 4%nat /\ List.length details = 4%nat.
Proof.
  intros Hne Hlats Hlat Hlons Hlon Hilat Hilon Hgeo Hgeo' Hdest.
  destruct (find_nearest_ports_returns float_lat float_lon 4 Hgeo) as (nearest & Hnear).
  pose proof (find_nearest_ports_entries _ _ _ _ Hnear) as Hent.
  pose proof (find_nearest_ports_length _ _ _ Hilat Hilon Hnear) as Hlen.
  destruct (route_loop_total 0 nearest dest_port) as (details & Hloop & Hlen').
  { intros c Hc. rewrite List.Forall_forall in Hent.
    destruct (Hent c Hc) as (p & Hin & _ & Hla & Hlo & _).
    replace (candidate_coords c) with (port_coords p); [auto|].
    unfold candidate_coords, port_coords. rewrite Hla, Hlo. reflexivity. }
  exists nearest, details. split; [|split; congruence].
  unfold render_map_with_route.
  rewrite Hne, Hlats, (column_iloc0 _ _ _ _ _ Hlats Hlat), (column_iloc0 _ _ _ _ _ Hlons Hlon).
  unfold getitem in Hlats, Hlons. unfold labels.
  rewrite (lookup_column_present _ _ _ Hlats), (lookup_column_present _ _ _ Hlons), Hlat.
  cbn -[find_nearest_ports find_dest_port GLOBAL_OCEAN_PORTS route_loop Nat.ltb].
  rewrite Hnear. cbn -[find_dest_port GLOBAL_OCEAN_PORTS route_loop Nat.ltb].
  destruct nearest as [|c nearest]; [discriminate|].
  rewrite Hdest, Hloop. cbn -[Nat.ltb]. rewrite Hlen', Hlen. reflexivity.
Qed.

End Shown.

(** * Further properties of the router *)

(** ** The sort is a permutation *)

Section SortPermutation.
Context {A : Type} (key : A -> Q).

Lemma sort_insert_perm (x : A) (l : list A) : Permutation (sort_insert key x l) (x :: l).
Proof.
  induction l as [|y l IH]; simpl; [reflexivity|].
  destruct (key_lt key y x); [|reflexivity].
  rewrite IH. apply perm_swap.
Qed.

Lemma sort_by_key_perm (l : list A) : Permutation (sort_by_key key l) l.
Proof.
  induction l as [|x l IH]; simpl; [reflexivity|].
  rewrite sort_insert_perm. constructor. exact IH.
Qed.

Lemma StronglySorted_app_inv (R : A -> A -> Prop) (l1 l2 : list A) :
  StronglySorted R (l1 ++ l2) -> forall a b, In a l1 -> In b l2 -> R a b.
Proof.
  induction l1 as [|x l1 IH]; simpl; intros Hs a b Ha Hb; [destruct Ha|].
  apply StronglySorted_inv in Hs as [Hs Hall]. destruct Ha as [<-|Ha].
  - rewrite List.Forall_forall in Hall. apply Hall, in_or_app. right. exact Hb.
  - eapply IH; eauto.
Qed.

Lemma slice_to_firstn (n : Z) (l : list A) : exists k, slice_to n l = firstn k l.
Proof. unfold slice_to. destruct (n <? 0)%Z; eauto. Qed.

Lemma NoDup_firstn (k : nat) (l : list A) : List.NoDup l -> List.NoDup (firstn k l).
Proof.
  intros Hnd. rewrite <- (firstn_skipn k l) in Hnd.
  apply NoDup_app_remove_r in Hnd. exact Hnd.
Qed.

End SortPermutation.

Section NearestPortsMore.
Context `{Geopy} `{FloatArith} `{Unicode}.

Lemma port_distances_entry (fc : coords) (ports : list Port) (ds : list Candidate)
    (p : Port) :
  port_distances fc ports = Returned ds -> In p ports ->
  exists c, In c ds /\ entry_of fc p c.
Proof.
  intros Hds Hp. apply port_distances_Returned in Hds.
  induction Hds as [|p' c ports ds Hpc _ IH]; [destruct Hp|].
  destruct Hp as [<-|Hp].
  - exists c. split; [left; reflexivity | exact Hpc].
  - destruct (IH Hp) as (c' & Hc' & He). exists c'. split; [right|]; assumption.
Qed.

(** The first port on which geopy raises decides the exception. *)
Lemma port_distances_first_Raised (fc : coords) (ports : list Port) (e : exn) :
  port_distances fc ports = Raised e ->
  exists before p after, ports = before ++ p :: after /\
    distance_km fc (port_coords p) = Raised e /\
    Forall (fun p' => exists q, distance_km fc (port_coords p') = Returned q) before.
Proof.
  induction ports as [|p ports IH]; simpl; [discriminate|]. intros Hr.
  apply bind_Raised in Hr as [Hr|(d & Hd & Hr)].
  - exists [], p, ports. repeat split; [exact Hr | constructor].
  - apply bind_Raised in Hr as [Hr|(ds & Hds & Hr)]; [|discriminate].
    destruct (IH Hr) as (before & p' & after & -> & Hp' & Hall).
    exists (p :: before), p', after. repeat split; [exact Hp'|].
    constructor; [eauto | exact Hall].
Qed.

(** The candidates are entries of distinct ports. *)
Lemma find_nearest_ports_distinct (float_lat float_lon : pyval) (n : Z)
    (r : list Candidate) :
  find_nearest_ports float_lat float_lon n = Returned r -> List.NoDup (map c_name r).
Proof.
  intros Hr.
  destruct (isinstance_int_float float_lat) eqn:Hlat;
    [destruct (isinstance_int_float float_lon) eqn:Hlon|].
  - rewrite find_nearest_ports_guard_passed in Hr by assumption.
    apply bind_Returned in Hr as (ds & Hds & Hr). injection Hr as <-.
    destruct (slice_to_firstn n (sort_by_key distance_from_float ds)) as (k & ->).
    rewrite <- firstn_map. apply NoDup_firstn.
    apply (Permutation_NoDup (l := map c_name ds)).
    + apply Permutation_map. symmetry. apply sort_by_key_perm.
    + rewrite (port_distances_names _ _ _ Hds). exact catalog_names_distinct.
  - rewrite find_nearest_ports_guard_failed in Hr by auto. injection Hr as <-. constructor.
  - rewrite find_nearest_ports_guard_failed in Hr by auto. injection Hr as <-. constructor.
Qed.

End NearestPortsMore.

(** C5, as the code has it.  [find_nearest_ports(lat, lon, 4)] returns
    whenever geopy returns a distance from (lat, lon) to every port of the
    catalog, which it is asked for only when [lat] and [lon] are instances of
    [int] or [float].  The list is then empty when one of them is not such an
    instance, and otherwise holds four entries of distinct ports of the
    catalog, each with geopy's distance from (lat, lon) to its port, rounded
    to two decimals, as [distance_from_float]; it is in ascending order of
    that rounded distance, candidates at equal rounded distance in catalog
    order, and the rounded distance of the first candidate is at most that of
    every candidate. *)
Theorem find_nearest_ports_sorted `{Geopy} `{FloatArith} (float_lat float_lon : pyval) :
  (isinstance_int_float float_lat = true -> isinstance_int_float float_lon = true ->
   forall p, In p GLOBAL_OCEAN_PORTS ->
     exists q, distance_km (float_lat, float_lon) (port_coords p) = Returned q) ->
  exists r, find_nearest_ports float_lat float_lon 4 = Returned r /\
    (if isinstance_int_float float_lat && isinstance_int_float float_lon
     then List.length r = 4%nat else r = []) /\
    Forall (fun c => exists p, In p GLOBAL_OCEAN_PORTS /\
                       entry_of (float_lat, float_lon) p c) r /\
    List.NoDup (map c_name r) /\
    StronglySorted nearer r /\
    StronglySorted (fun a b => (distance_from_float a <= distance_from_float b)%Q) r /\
    forall first c, hd_error r = Some first -> In c r ->
      (distance_from_float first <= distance_from_float c)%Q.
Proof.
  intros Hgeo.
  assert (exists r, find_nearest_ports float_lat float_lon 4 = Returned r /\
            (if isinstance_int_float float_lat && isinstance_int_float float_lon
             then List.length r = 4%nat else r = [])) as (r & Hr & Hlen).
  { destruct (isinstance_int_float float_lat) eqn:Hlat;
      [destruct (isinstance_int_float float_lon) eqn:Hlon|]; cbn [andb].
    - destruct (find_nearest_ports_returns float_lat float_lon 4
                  (Hgeo eq_refl eq_refl)) as (r & Hr).
      exists r. split; [exact Hr|].
      exact (find_nearest_ports_length _ _ _ Hlat Hlon Hr).
    - exists []. split; [|reflexivity]. apply find_nearest_ports_guard_failed. auto.
    - exists []. split; [|reflexivity]. apply find_nearest_ports_guard_failed. auto. }
  exists r. split; [exact Hr|]. split; [exact Hlen|].
  split; [eapply find_nearest_ports_entries; exact Hr|].
  split; [eapply find_nearest_ports_distinct; exact Hr|].
  pose proof (find_nearest_ports_nearer _ _ _ _ Hr) as Hs.
  split; [assumption|]. split.
  - eapply StronglySorted_impl; [|exact Hs]. apply nearer_le.
  - intros first c Hhd Hc. destruct r as [|x r]; [discriminate|].
    injection Hhd as ->. destruct Hc as [<-|Hc]; [apply Qle_refl|].
    apply StronglySorted_inv in Hs as [_ Hall].
    rewrite List.Forall_forall in Hall. apply nearer_le. auto.
Qed.

(** C5 at a float off Chennai, with the grid distance. *)
Lemma find_nearest_ports_sorted_chennai :
  exists r,
    @find_nearest_ports grid_geopy exact_floats
      (PyFloat (Finite (130827 # 10000))) (PyFloat (Finite (802707 # 10000))) 4 = Returned r /\
    List.length r = 4%nat /\
    Forall (fun c => exists p, In p GLOBAL_OCEAN_PORTS /\
      @entry_of grid_geopy exact_floats
        (PyFloat (Finite (130827 # 10000)), PyFloat (Finite (802707 # 10000))) p c) r /\
    List.NoDup (map c_name r) /\
    StronglySorted nearer r /\
    StronglySorted (fun a b => (distance_from_float a <= distance_from_float b)%Q) r /\
    forall first c, hd_error r = Some first -> In c r ->
      (distance_from_float first <= distance_from_float c)%Q.
Proof.
  apply (@find_nearest_ports_sorted grid_geopy exact_floats
           (PyFloat (Finite (130827 # 10000))) (PyFloat (Finite (802707 # 10000)))).
  intros _ _ p Hp. simpl in Hp.
  repeat (destruct Hp as [<-|Hp]; [eexists; vm_compute; reflexivity|]).
  destruct Hp.
Defined.

(** C5 as stated fails, in two ways.  A latitude of 95 is a finite number,
    and geopy refuses it: nothing is returned, whatever the float arithmetic.
    And the order is that of the rounded distances: for the float at
    (10.209645, 79.5) Chennai is 404.456805 km away and Colombo 404.455695 km,
    both are reported at 404.46 km, and Chennai, which comes first in the
    catalog, is listed before Colombo, which is nearer. *)
Lemma latitude_95_and_rounded_ties :
  is_finite_number (PyFloat (Finite 95)) = true /\
  (~ exists (F : FloatArith) r,
       @find_nearest_ports grid_geopy F (PyFloat (Finite 95)) (PyFloat (Finite 0)) 4
       = Returned r) /\
  exists a b rest da db,
    @find_nearest_ports grid_geopy exact_floats
      (PyFloat (Finite (10209645 # 1000000))) (PyFloat (Finite (795 # 10))) 4
      = Returned (a :: b :: rest) /\
    c_name a = "Chennai, India" /\ c_name b = "Colombo, Sri Lanka" /\
    @distance_km grid_geopy
      (PyFloat (Finite (10209645 # 1000000)), PyFloat (Finite (795 # 10)))
      (candidate_coords a) = Returned da /\
    @distance_km grid_geopy
      (PyFloat (Finite (10209645 # 1000000)), PyFloat (Finite (795 # 10)))
      (candidate_coords b) = Returned db /\
    (distance_from_float a == distance_from_float b)%Q /\
    (db < da)%Q.
Proof.
  split; [reflexivity|]. split.
  - intros (F & r & Hr).
    rewrite find_nearest_ports_guard_passed in Hr by reflexivity.
    apply bind_Returned in Hr as (ds & Hds & _).
    cbn [port_distances GLOBAL_OCEAN_PORTS] in Hds.
    apply bind_Returned in Hds as (d & Hd & _).
    vm_compute in Hd. discriminate.
  - do 5 eexists. split; [vm_compute; reflexivity|].
    split; [reflexivity|]. split; [reflexivity|].
    split; [vm_compute; reflexivity|]. split; [vm_compute; reflexivity|].
    split; vm_compute; reflexivity.
Qed.

(** X1: past the type check, and when geopy returns a distance for every
    port, [find_nearest_ports(lat, lon, n)] returns [min(n, 15)] candidates
    for [n >= 0] and [15 - |n|] (at least none) for a negative [n], as the
    slice [distances[:n]] does; the candidates are pairwise distinct ports of
    the catalog. *)
Theorem find_nearest_ports_count `{Geopy} `{FloatArith} (float_lat float_lon : pyval) (n : Z) :
  isinstance_int_float float_lat = true -> isinstance_int_float float_lon = true ->
  (forall p, In p GLOBAL_OCEAN_PORTS ->
     exists q, distance_km (float_lat, float_lon) (port_coords p) = Returned q) ->
  exists r, find_nearest_ports float_lat float_lon n = Returned r /\
    List.length r = (if (n <? 0)%Z then 15 - Z.to_nat (- n)
                     else Nat.min (Z.to_nat n) 15)%nat /\
    List.NoDup (map c_name r) /\
    (forall c, In c r -> In (c_name c) (map name GLOBAL_OCEAN_PORTS)).
Proof.
  intros Hlat Hlon Hgeo. rewrite find_nearest_ports_guard_passed by assumption.
  destruct (port_distances_total _ _ Hgeo) as (ds & Hds). rewrite Hds.
  eexists. split; [reflexivity|].
  pose proof (port_distances_length _ _ _ Hds) as Hlen.
  pose proof (port_distances_names _ _ _ Hds) as Hnames.
  pose proof (sort_by_key_perm distance_from_float ds) as Hperm.
  change (List.length GLOBAL_OCEAN_PORTS) with 15%nat in Hlen.
  split; [|split].
  - unfold slice_to. destruct (n <? 0)%Z;
      rewrite length_firstn, sort_by_key_length, Hlen; lia.
  - destruct (slice_to_firstn n (sort_by_key distance_from_float ds)) as (k & ->).
    rewrite <- firstn_map. apply NoDup_firstn.
    apply (Permutation_NoDup (l := map c_name ds)).
    + apply Permutation_map. symmetry. exact Hperm.
    + rewrite Hnames. exact catalog_names_distinct.
  - intros c Hc. apply slice_to_In in Hc. apply (proj1 (sort_by_key_In _ _ _)) in Hc.
    rewrite <- Hnames. apply in_map. exact Hc.
Qed.

(** X1 off Chennai, asking for twenty ports: all fifteen come back. *)
Lemma find_nearest_ports_count_chennai :
  exists r,
    @find_nearest_ports grid_geopy exact_floats
      (PyFloat (Finite (130827 # 10000))) (PyFloat (Finite (802707 # 10000))) 20 = Returned r /\
    List.length r = 15%nat /\
    List.NoDup (map c_name r) /\
    (forall c, In c r -> In (c_name c) (map name GLOBAL_OCEAN_PORTS)).
Proof.
  apply (@find_nearest_ports_count grid_geopy exact_floats _ _ 20); [reflexivity | reflexivity |].
  intros p Hp. simpl in Hp.
  repeat (destruct Hp as [<-|Hp]; [eexists; vm_compute; reflexivity|]).
  destruct Hp.
Defined.

(** X2: the candidates returned are the nearest ports: a port of the catalog
    that is not among them is, by its rounded distance, at least as far from
    the float as every candidate. *)
Theorem find_nearest_ports_nearest `{Geopy} `{FloatArith} (float_lat float_lon : pyval) (n : Z)
    (r : list Candidate) (c : Candidate) (p : Port) (d : Q) :
  find_nearest_ports float_lat float_lon n = Returned r ->
  In c r -> In p GLOBAL_OCEAN_PORTS -> ~ In (name p) (map c_name r) ->
  distance_km (float_lat, float_lon) (port_coords p) = Returned d ->
  (distance_from_float c <= float_round2 d)%Q.
Proof.
  intros Hr Hc Hp Hnot Hd.
  destruct (isinstance_int_float float_lat) eqn:Hlat;
    [destruct (isinstance_int_float float_lon) eqn:Hlon|];
    try (rewrite find_nearest_ports_guard_failed in Hr by auto;
         injection Hr as <-; destruct Hc).
  rewrite find_nearest_ports_guard_passed in Hr by assumption.
  apply bind_Returned in Hr as (ds & Hds & Hr). injection Hr as <-.
  destruct (port_distances_entry _ _ _ p Hds Hp) as (cp & Hcp & Hn & _ & _ & d' & Hd' & Hdff).
  rewrite Hd in Hd'. injection Hd' as <-. rewrite <- Hdff.
  set (l := sort_by_key distance_from_float ds) in *.
  destruct (slice_to_firstn n l) as (k & Hk). rewrite Hk in Hc, Hnot.
  assert (In cp l) as Hl by (apply sort_by_key_In; exact Hcp).
  rewrite <- (firstn_skipn k l) in Hl. apply in_app_or in Hl as [Hl|Hl].
  - exfalso. apply Hnot. rewrite <- Hn. apply in_map. exact Hl.
  - assert (StronglySorted (stable_le distance_from_float ds) (firstn k l ++ skipn k l))
      as Hs by (rewrite firstn_skipn; apply sort_by_key_stable).
    pose proof (StronglySorted_app_inv _ _ _ Hs c cp Hc Hl) as [Hlt|[Heq _]].
    + apply Qlt_le_weak. exact Hlt.
    + rewrite Heq. apply Qle_refl.
Qed.

(** X2 off Chennai: Shanghai is not among the four nearest, so it is no
    nearer than Chennai itself. *)
Lemma find_nearest_ports_nearest_chennai :
  exists d,
    @distance_km grid_geopy
      (PyFloat (Finite (130827 # 10000)), PyFloat (Finite (802707 # 10000)))
      (port_coords (mkPort "Shanghai, China" (312304 # 10000) (1214737 # 10000)))
      = Returned d /\
    (0 # 100 <= round2 d)%Q.
Proof.
  eexists. split; [vm_compute; reflexivity|].
  eapply (@find_nearest_ports_nearest grid_geopy exact_floats
           (PyFloat (Finite (130827 # 10000))) (PyFloat (Finite (802707 # 10000))) 4
           _ (mkCandidate "Chennai, India" (130827 # 10000) (802707 # 10000) (0 # 100))
           (mkPort "Shanghai, China" (312304 # 10000) (1214737 # 10000))).
  - vm_compute. reflexivity.
  - left. reflexivity.
  - simpl. do 7 right. left. reflexivity.
  - vm_compute. intuition discriminate.
  - vm_compute. reflexivity.
Defined.

(** X3: asking for fewer ports gives the beginning of the list for more
    ports: for [0 <= m <= n] the result for [m] is the first [m] entries of
    the result for [n]. *)
Theorem find_nearest_ports_prefix `{Geopy} `{FloatArith} (float_lat float_lon : pyval) (m n : Z)
    (rm rn : list Candidate) :
  (0 <= m <= n)%Z ->
  find_nearest_ports float_lat float_lon m = Returned rm ->
  find_nearest_ports float_lat float_lon n = Returned rn ->
  rm = firstn (Z.to_nat m) rn.
Proof.
  intros Hmn Hm Hn.
  destruct (isinstance_int_float float_lat) eqn:Hlat;
    [destruct (isinstance_int_float float_lon) eqn:Hlon|];
    try (rewrite find_nearest_ports_guard_failed in Hm, Hn by auto;
         injection Hm as <-; injection Hn as <-; rewrite firstn_nil; reflexivity).
  rewrite find_nearest_ports_guard_passed in Hm, Hn by assumption.
  apply bind_Returned in Hm as (ds & Hds & Hm). apply bind_Returned in Hn as (ds' & Hds' & Hn).
  rewrite Hds in Hds'. injection Hds' as <-. injection Hm as <-. injection Hn as <-.
  unfold slice_to.
  rewrite (proj2 (Z.ltb_ge m 0)), (proj2 (Z.ltb_ge n 0)) by lia.
  rewrite firstn_firstn. f_equal. lia.
Qed.

(** X3 off Chennai, for two and four ports. *)
Lemma find_nearest_ports_prefix_chennai :
  exists rm rn,
    @find_nearest_ports grid_geopy exact_floats
      (PyFloat (Finite (130827 # 10000))) (PyFloat (Finite (802707 # 10000))) 2 = Returned rm /\
    @find_nearest_ports grid_geopy exact_floats
      (PyFloat (Finite (130827 # 10000))) (PyFloat (Finite (802707 # 10000))) 4 = Returned rn /\
    rm = firstn 2 rn.
Proof.
  do 2 eexists. split; [vm_compute; reflexivity|]. split; [vm_compute; reflexivity|].
  apply (@find_nearest_ports_prefix grid_geopy exact_floats
           (PyFloat (Finite (130827 # 10000))) (PyFloat (Finite (802707 # 10000))) 2 4).
  - lia.
  - vm_compute. reflexivity.
  - vm_compute. reflexivity.
Defined.

(** X4: [find_nearest_ports] raises only what geopy raises, and only past
    the type check: the exception is the one of the first port of the catalog
    for which geopy refuses the coordinates. *)
Theorem find_nearest_ports_raises `{Geopy} `{FloatArith} (float_lat float_lon : pyval) (n : Z) (e : exn) :
  find_nearest_ports float_lat float_lon n = Raised e ->
  isinstance_int_float float_lat = true /\ isinstance_int_float float_lon = true /\
  exists before p after,
    GLOBAL_OCEAN_PORTS = before ++ p :: after /\
    distance_km (float_lat, float_lon) (port_coords p) = Raised e /\
    Forall (fun p' => exists q,
              distance_km (float_lat, float_lon) (port_coords p') = Returned q) before.
Proof.
  intros Hr.
  destruct (isinstance_int_float float_lat) eqn:Hlat;
    [destruct (isinstance_int_float float_lon) eqn:Hlon|];
    try (rewrite find_nearest_ports_guard_failed in Hr by auto; discriminate).
  split; [reflexivity|]. split; [reflexivity|].
  rewrite find_nearest_ports_guard_passed in Hr by assumption.
  apply bind_Raised in Hr as [Hr|(ds & _ & Hr)]; [|discriminate].
  apply port_distances_first_Raised. exact Hr.
Qed.

(** X4 with a NaN latitude, which the grid distance refuses as geopy 2 does. *)
Lemma find_nearest_ports_raises_nan :
  isinstance_int_float (PyFloat NaN) = true /\ isinstance_int_float (PyInt 10) = true /\
  exists before p after,
    GLOBAL_OCEAN_PORTS = before ++ p :: after /\
    @distance_km grid_geopy (PyFloat NaN, PyInt 10) (port_coords p) = Raised ValueError /\
    Forall (fun p' => exists q,
              @distance_km grid_geopy (PyFloat NaN, PyInt 10) (port_coords p') = Returned q)
      before.
Proof.
  apply (@find_nearest_ports_raises grid_geopy exact_floats (PyFloat NaN) (PyInt 10) 4 ValueError).
  vm_compute. reflexivity.
Defined.

(** ** Further properties of the rendering *)

Section RenderMore.
Context `{Geopy} `{FloatArith} `{Unicode}.

Lemma route_loop_Raised (i : nat) (ports : list Candidate) (dest_port : Port) (e : exn) :
  route_loop i ports dest_port = Raised e ->
  exists c, In c ports /\
    distance_km (candidate_coords c) (port_coords dest_port) = Raised e.
Proof.
  revert i. induction ports as [|c ports IH]; simpl; intros i Hr; [discriminate|].
  apply bind_Raised in Hr as [Hr|(d & Hd & Hr)]; [eauto|].
  apply bind_Raised in Hr as [Hr|(ds & Hds & Hr)]; [|discriminate].
  destruct (IH _ Hr) as (c' & Hin & Hc'). eauto.
Qed.

Lemma route_loop_length (i : nat) (ports : list Candidate) (dest_port : Port)
    (details : list RouteDetail) :
  route_loop i ports dest_port = Returned details ->
  List.length details = List.length ports.
Proof.
  intros Hd. apply route_loop_Returned in Hd.
  induction Hd; simpl; congruence.
Qed.

Lemma column_Returned (d : DataFrame) (c : string) (s : Series) :
  column d c = Returned s <-> getitem d c = Some s.
Proof.
  unfold column. destruct (getitem d c); split; intros Heq; try discriminate;
    injection Heq as <-; reflexivity.
Qed.

Lemma iloc0_Returned (s : Series) (v : pyval) :
  iloc0 s = Returned v <-> exists rest, s_values s = v :: rest.
Proof.
  unfold iloc0. destruct (s_values s) as [|v' rest]; split.
  - discriminate.
  - intros (rest' & [=]).
  - intros [= <-]. eauto.
  - intros (rest' & [= <- <-]). reflexivity.
Qed.

Lemma label_present (c : string) (cols : list (string * Series)) :
  existsb (String.eqb c) (map fst cols) = true ->
  exists s, lookup_column c cols = Some s.
Proof.
  intros Hex. apply lookup_column_labels. apply existsb_exists in Hex as (c' & Hin & Heq).
  apply String.eqb_eq in Heq. congruence.
Qed.

End RenderMore.

Lemma render_past_checks `{Geopy} `{FloatArith} `{Unicode}
    (float_df : DataFrame) (float_id dest_name : string)
    (float_lat float_lon : pyval) :
  df_empty float_df = false ->
  column float_df "latitude" ≫= iloc0 = Returned float_lat ->
  column float_df "longitude" ≫= iloc0 = Returned float_lon ->
  render_map_with_route float_df float_id dest_name =
  find_nearest_ports float_lat float_lon 4 ≫= fun nearest_ports =>
    match nearest_ports with
    | [] => mret NoNearestPort
    | _ :: _ =>
        match find_dest_port GLOBAL_OCEAN_PORTS dest_name with
        | None => mret (DestinationNotFound dest_name)
        | Some dest_port =>
            route_loop 0 nearest_ports dest_port ≫= fun route_details =>
            if (List.length route_details <? 4)%nat then Raised IndexError
            else mret (RouteShown nearest_ports dest_port route_details)
        end
    end.
Proof.
  intros Hne Hlat Hlon. unfold render_map_with_route. rewrite Hne, Hlat, Hlon.
  apply bind_Returned in Hlat as (lats & Hlats & Hv).
  apply bind_Returned in Hlon as (lons & Hlons & _).
  apply column_Returned in Hlats, Hlons. apply iloc0_Returned in Hv as (rest & Hv).
  rewrite Hlats. unfold getitem in Hlats, Hlons. unfold labels.
  rewrite (lookup_column_present _ _ _ Hlats), (lookup_column_present _ _ _ Hlons), Hv.
  reflexivity.
Qed.

(** X5: the notice that no nearest port could be found is shown exactly
    when the frame has rows and first coordinates of which one is not an
    instance of [int] or [float], such as a numpy integer from an int64
    column; no distance is computed then. *)
Theorem render_no_nearest_port `{Geopy} `{FloatArith} `{Unicode}
    (float_df : DataFrame) (float_id dest_name : string) :
  render_map_with_route float_df float_id dest_name = Returned NoNearestPort <->
  exists float_lat float_lon,
    df_empty float_df = false /\
    column float_df "latitude" ≫= iloc0 = Returned float_lat /\
    column float_df "longitude" ≫= iloc0 = Returned float_lon /\
    (isinstance_int_float float_lat = false \/ isinstance_int_float float_lon = false).
Proof.
  split.
  - unfold render_map_with_route.
    destruct (df_empty float_df); [discriminate|].
    match goal with |- context [if ?c then _ else _] => destruct c end; [discriminate|].
    intros Hr.
    apply bind_Returned in Hr as (float_lat & Hlat & Hr).
    apply bind_Returned in Hr as (float_lon & Hlon & Hr).
    apply bind_Returned in Hr as (nearest & Hnear & Hr).
    exists float_lat, float_lon. repeat split; try assumption.
    destruct nearest as [|c nearest].
    + destruct (isinstance_int_float float_lat) eqn:Ela; [|auto].
      destruct (isinstance_int_float float_lon) eqn:Elo; [|auto].
      exfalso. revert Hnear. apply find_nearest_ports_not_empty; assumption.
    + destruct (find_dest_port GLOBAL_OCEAN_PORTS dest_name); [|discriminate].
      apply bind_Returned in Hr as (details & _ & Hr).
      destruct (List.length details <? 4)%nat; discriminate.
  - intros (float_lat & float_lon & Hne & Hlat & Hlon & Hguard).
    rewrite (render_past_checks _ _ _ _ _ Hne Hlat Hlon).
    rewrite (find_nearest_ports_guard_failed _ _ _ Hguard). reflexivity.
Qed.

(** X6: on a frame whose columns have as many values as the frame has rows,
    [render_map_with_route] raises only an exception that geopy raised: its
    own indexing ([iloc[0]], [route_details[0..3]]) never fails. *)
Theorem render_raises_only_geopy `{Geopy} `{FloatArith} `{Unicode}
    (float_df : DataFrame) (float_id dest_name : string)
    (e : exn) :
  (forall c s, getitem float_df c = Some s -> List.length (s_values s) = index_len float_df) ->
  render_map_with_route float_df float_id dest_name = Raised e ->
  exists a b, distance_km a b = Raised e.
Proof.
  intros Hwf. unfold render_map_with_route.
  destruct (df_empty float_df) eqn:Hne; [discriminate|].
  apply orb_false_iff in Hne as [Hrows _]. apply Nat.eqb_neq in Hrows.
  match goal with |- context [if ?c then _ else _] => destruct c eqn:Hc end; [discriminate|].
  apply orb_false_iff in Hc as [Hc _]. apply orb_false_iff in Hc as [Hla Hlo].
  apply negb_false_iff in Hla, Hlo.
  apply label_present in Hla as (lats & Hlats), Hlo as (lons & Hlons).
  assert (forall c s, getitem float_df c = Some s -> exists v, column float_df c ≫= iloc0 = Returned v)
    as Hcol.
  { intros c s Hs. pose proof (Hwf c s Hs) as Hlen.
    destruct (s_values s) as [|v rest] eqn:Hv; [simpl in Hlen; congruence|].
    exists v. exact (column_iloc0 _ _ _ _ _ Hs Hv). }
  destruct (Hcol _ _ Hlats) as (float_lat & ->). destruct (Hcol _ _ Hlons) as (float_lon & ->).
  intros Hr. apply bind_Raised in Hr as [Hr|(v & [= <-] & Hr)]; [discriminate|].
  apply bind_Raised in Hr as [Hr|(v & [= <-] & Hr)]; [discriminate|].
  apply bind_Raised in Hr as [Hr|(nearest & Hnear & Hr)].
  - destruct (isinstance_int_float float_lat) eqn:Ela;
      [destruct (isinstance_int_float float_lon) eqn:Elo|];
      try (rewrite find_nearest_ports_guard_failed in Hr by auto; discriminate).
    rewrite find_nearest_ports_guard_passed in Hr by assumption.
    apply bind_Raised in Hr as [Hr|(ds & _ & Hr)]; [|discriminate].
    apply port_distances_Raised in Hr as (p & _ & Hp). eauto.
  - destruct nearest as [|c nearest]; [discriminate|].
    destruct (find_dest_port GLOBAL_OCEAN_PORTS dest_name) as [dp|]; [|discriminate].
    apply bind_Raised in Hr as [Hr|(details & Hloop & Hr)].
    + apply route_loop_Raised in Hr as (c' & _ & Hc'). eauto.
    + exfalso. apply route_loop_length in Hloop.
      assert (List.length (c :: nearest) = 4%nat) as Hfour.
      { destruct (isinstance_int_float float_lat) eqn:Ela;
          [destruct (isinstance_int_float float_lon) eqn:Elo|];
          try (rewrite find_nearest_ports_guard_failed in Hnear by auto; discriminate).
        exact (find_nearest_ports_length _ _ _ Ela Elo Hnear). }
      rewrite Hloop, Hfour in Hr. discriminate.
Qed.

(** A float reported at latitude 95. *)
Lemma render_raises_only_geopy_latitude_95 :
  exists a b, @distance_km grid_geopy a b = Raised ValueError.
Proof.
  apply (@render_raises_only_geopy grid_geopy exact_floats kelvin_unicode
           (mkDataFrame 1 [ ("latitude", mkSeries Float64 [PyFloat (Finite 95)]);
                            ("longitude", mkSeries Float64 [PyFloat (Finite 0)]) ])
           "1" "singapore" ValueError).
  - intros c s. unfold getitem. simpl.
    destruct (String.eqb c "latitude"); [intros [= <-]; reflexivity|].
    destruct (String.eqb c "longitude"); [intros [= <-]; reflexivity | discriminate].
  - vm_compute. reflexivity.
Defined.

Lemma prefix_refl (s : string) : String.prefix s s = true.
Proof.
  induction s as [|a s IH]; simpl; [reflexivity|].
  destruct (ascii_dec a a); [exact IH | congruence].
Qed.

Lemma contains_refl (s : string) : contains s s = true.
Proof. destruct s; cbn [contains]; rewrite prefix_refl; reflexivity. Qed.

(** Where [str.lower()] lower-cases the ASCII letters, every name of the
    catalog finds its own port. *)
Lemma find_dest_port_catalog `{Unicode} (p : Port) :
  lowers_ascii ->
  In p GLOBAL_OCEAN_PORTS -> find_dest_port GLOBAL_OCEAN_PORTS (name p) = Some p.
Proof.
  intros Hlow Hp. simpl in Hp.
  repeat (destruct Hp as [<-|Hp];
          [rewrite (find_dest_port_ascii _ _ Hlow) by reflexivity;
           vm_compute; reflexivity|]).
  destruct Hp.
Qed.

(** X7: a destination given by the full name of a catalog port resolves to
    that port whenever no earlier entry has a name that contains it; where
    [str.lower()] lower-cases the ASCII letters this holds for every port of
    the catalog, so a destination taken from the list of port names is never
    reported as not found. *)
Theorem destination_by_name `{Geopy} `{FloatArith} `{Unicode} :
  (forall catalog before p after,
     catalog = before ++ p :: after ->
     Forall (fun q => name_matches (name p) q = false) before ->
     find_dest_port catalog (name p) = Some p) /\
  (lowers_ascii ->
   forall p, In p GLOBAL_OCEAN_PORTS ->
     find_dest_port GLOBAL_OCEAN_PORTS (name p) = Some p) /\
  (lowers_ascii ->
   forall p float_df float_id, In p GLOBAL_OCEAN_PORTS ->
     render_map_with_route float_df float_id (name p)
     <> Returned (DestinationNotFound (name p))).
Proof.
  split; [|split].
  - intros catalog before p after -> Hbefore.
    apply find_dest_port_Some. exists before, after.
    split; [reflexivity|]. split; [apply contains_refl | exact Hbefore].
  - intros Hlow p Hp. exact (find_dest_port_catalog p Hlow Hp).
  - intros Hlow p float_df float_id Hp Hr.
    apply render_DestinationNotFound in Hr as [_ Hnone].
    rewrite (find_dest_port_catalog p Hlow Hp) in Hnone. discriminate.
Qed.

(** X7 with the stand-in for [str.lower()]. *)
Lemma destination_by_name_kelvin :
  (forall p, In p GLOBAL_OCEAN_PORTS ->
     @find_dest_port kelvin_unicode GLOBAL_OCEAN_PORTS (name p) = Some p) /\
  (forall p float_df float_id, In p GLOBAL_OCEAN_PORTS ->
     @render_map_with_route grid_geopy exact_floats kelvin_unicode float_df float_id (name p)
     <> Returned (DestinationNotFound (name p))).
Proof.
  destruct (@destination_by_name grid_geopy exact_floats kelvin_unicode)
    as (_ & Hfind & Hrender).
  split; [exact (Hfind kelvin_unicode_lowers_ascii)
         | exact (Hrender kelvin_unicode_lowers_ascii)].
Defined.

(** ** More on rounding *)

Lemma round_half_even_comp (x y : Q) : (x == y)%Q -> round_half_even x = round_half_even y.
Proof.
  intros Heq. unfold round_half_even.
  rewrite (Qfloor_comp x y Heq).
  assert (x - inject_Z (Qfloor y) == y - inject_Z (Qfloor y))%Q as Hfrac
    by (rewrite Heq; reflexivity).
  rewrite (Qcompare_comp _ _ Hfrac (1 # 2)%Q (1 # 2)%Q (Qeq_refl _)).
  reflexivity.
Qed.

Lemma round_half_even_mono (x y : Q) :
  (x <= y)%Q -> (round_half_even x <= round_half_even y)%Z.
Proof.
  intros Hle. destruct (Z_le_gt_dec (round_half_even x) (round_half_even y)) as [Hok|Hgt];
    [exact Hok|].
  pose proof (round_half_even_close x) as Hx. pose proof (round_half_even_close y) as Hy.
  assert (inject_Z (round_half_even y) + 1 <= inject_Z (round_half_even x))%Q as Hz.
  { change 1%Q with (inject_Z 1). rewrite <- inject_Z_plus. rewrite <- Zle_Qle. lia. }
  assert (x == y)%Q as Heq by lra.
  rewrite (round_half_even_comp x y Heq) in Hgt. lia.
Qed.

Lemma round2_mono (x y : Q) : (x <= y)%Q -> (round2 x <= round2 y)%Q.
Proof.
  intros Hle. unfold round2.
  assert (round_half_even (x * 100) <= round_half_even (y * 100))%Z as Hz
    by (apply round_half_even_mono; lra).
  unfold Qle. simpl. lia.
Qed.

(** A value with two decimals is its own rounding. *)
Lemma round2_round2 (x : Q) : (round2 (round2 x) == round2 x)%Q.
Proof.
  unfold round2. set (z := round_half_even (x * 100)).
  assert (round_half_even ((z # 100) * 100) = z) as ->; [|reflexivity].
  rewrite (round_half_even_comp ((z # 100) * 100) (inject_Z z)).
  - unfold round_half_even. rewrite Qfloor_Z.
    assert (Qcompare (inject_Z z - inject_Z z) (1 # 2) = Lt) as ->; [|reflexivity].
    apply Qlt_alt. assert (inject_Z z - inject_Z z == 0)%Q as Hzero by ring.
    rewrite Hzero. reflexivity.
  - unfold Qeq, Qmult, inject_Z. simpl. lia.
Qed.

(** Exact arithmetic has the laws of the float arithmetic. *)
Lemma exact_floats_laws : @float_laws exact_floats.
Proof.
  split; [|split].
  - intros x b Hb. cbn. pose proof (Qle_refl (round2 x)). lra.
  - exact round2_mono.
  - exact round2_round2.
Qed.

(** X8: when geopy's distances are not negative, and with a float
    arithmetic that has the laws of rounding to the nearest float, no route
    of the table is reported shorter than its first leg: the total distance
    of every entry is at least its distance to the port. *)
Theorem total_at_least_first_leg `{Geopy} `{FloatArith} `{Unicode} (float_df : DataFrame)
    (float_id dest_name : string) (nearest : list Candidate) (dest_port : Port)
    (details : list RouteDetail) :
  (forall a b d, distance_km a b = Returned d -> (0 <= d)%Q) ->
  float_laws ->
  render_map_with_route float_df float_id dest_name
    = Returned (RouteShown nearest dest_port details) ->
  Forall (fun r => float_le (Finite (distance_to_port r)) (total_distance r)) details.
Proof.
  intros Hpos (Hadd & Hmono & Hidem) Hr.
  apply render_RouteShown in Hr as (flat & flon & _ & _ & Hnear & _ & _ & Hloop).
  apply find_nearest_ports_entries in Hnear. apply route_loop_Returned in Hloop.
  induction Hloop as [|c r cs rs Hcr _ IH]; [constructor|].
  apply Forall_cons_iff in Hnear as [(p & _ & _ & _ & _ & d1 & _ & Hdff) Hnear].
  constructor; [|auto].
  destruct Hcr as (_ & Hrd & d2 & Hd2 & Htot).
  rewrite Hrd, Htot, Hdff. apply Hpos in Hd2.
  pose proof (Hadd d1 d2 Hd2) as Hle.
  destruct (float_add (float_round2 d1) d2) as [s| |[|]]; cbn in Hle |- *;
    try exact Hle; try exact I.
  rewrite <- (Hidem d1). apply Hmono. exact Hle.
Qed.

Lemma grid_distance_nonneg (a b : coords) (d : Q) :
  @distance_km grid_geopy a b = Returned d -> (0 <= d)%Q.
Proof.
  cbn [distance_km grid_geopy]. destruct (grid_point a) as [[la lo]|]; [|discriminate].
  destruct (grid_point b) as [[la' lo']|]; [|discriminate].
  intros Heq.
  assert ((111 * (Qabs (la - la') + Qabs (lo - lo')))%Q = d) as <- by congruence.
  pose proof (Qabs_nonneg (la - la')). pose proof (Qabs_nonneg (lo - lo')).
  lra.
Qed.

(** X8 at a float at (0, 0) bound for Singapore, with the grid distance and
    exact arithmetic. *)
Lemma total_at_least_first_leg_origin :
  Forall (fun r => float_le (Finite (distance_to_port r)) (total_distance r))
    [ mkRouteDetail "Lagos, Nigeria" (Finite (1281694 # 100)) (109323 # 100) true;
      mkRouteDetail "Mombasa, Kenya" (Finite (1256988 # 100)) (485255 # 100) false;
      mkRouteDetail "Rotterdam, Netherlands" (Finite (2291156 # 100)) (626063 # 100) false;
      mkRouteDetail "Durban, South Africa" (Finite (1829942 # 100)) (675774 # 100) false ].
Proof.
  eapply (@total_at_least_first_leg grid_geopy exact_floats kelvin_unicode
            origin_frame "1" "singapore" _ singapore).
  - exact grid_distance_nonneg.
  - exact exact_floats_laws.
  - vm_compute. reflexivity.
Defined.

(** * Further properties of the chart selector *)

Section RulesMore.
Context `{Pandas}.

Lemma first_preferred_no_numeric (prefs cols : list string) :
  first_preferred prefs cols [] = None.
Proof.
  induction prefs as [|pref prefs IH]; simpl; [reflexivity|].
  rewrite first_match_none; [exact IH|]. intros c _ [].
Qed.

Lemma find_pressure_none (cols : list string) :
  (forall c, In c cols -> contains "pressure" (lower c) = false) ->
  find_pressure cols = None.
Proof.
  induction cols as [|c cols IH]; cbn [find_pressure]; [reflexivity|]. intros Hno.
  rewrite pressure_test, (Hno c) by (left; reflexivity).
  apply IH. intros c' Hc'. apply Hno. right. exact Hc'.
Qed.

Lemma select_number_converted_filter (d : DataFrame) :
  unique_labels d ->
  select_number (converted d)
  = map fst (List.filter (fun cs => numeric_column (snd cs)) (columns d)).
Proof.
  intros Hu. rewrite (converted_columns d Hu). unfold select_number. cbn [columns].
  symmetry. apply (map_filter_through convert_column); reflexivity.
Qed.

Lemma rules_without_numeric (d : DataFrame) :
  select_number d = [] -> choose_axes_rules d = (None, None, "table").
Proof.
  intros Hnone. unfold choose_axes_rules, date_rule, pressure_rule. rewrite Hnone.
  rewrite andb_false_r, !first_preferred_no_numeric. cbn [List.filter scatter_or_table].
  destruct (detect_date_column d) as [dc|]; [destruct (truthy dc)|];
    (destruct (find_pressure (labels d)) as [pc|]; [destruct (truthy pc)|]); reflexivity.
Qed.

End RulesMore.

(** X9: a table without a numeric column, whatever its row count and its
    labels, gets the kind "table" with no axes. *)
Theorem no_numeric_column_table `{Pandas} (σ : store) (l : loc) (d : DataFrame) :
  σ !! l = Some d ->
  unique_labels d ->
  (forall c s, In (c, s) (columns d) -> numeric_column s = false) ->
  exists σ', choose_axes l σ = Some ((None, None, "table"), σ').
Proof.
  intros Hl Hu Hnone. rewrite (choose_axes_run l d σ Hl). eexists. f_equal. f_equal.
  apply rules_without_numeric.
  destruct (select_number (converted d)) as [|c rest] eqn:E; [reflexivity|].
  assert (In c (select_number (converted d))) as Hc by (rewrite E; left; reflexivity).
  apply select_number_converted in Hc as (s & Hin & Hnum); [|exact Hu].
  rewrite (Hnone c s Hin) in Hnum. discriminate.
Qed.

(** X9 on a table of text. *)
Lemma no_numeric_column_table_text :
  exists σ',
    @choose_axes iso_pandas 1%positive {[ 1%positive := text_table ]}
    = Some ((None, None, "table"), σ').
Proof.
  apply (@no_numeric_column_table iso_pandas _ _ text_table).
  - apply lookup_singleton_eq.
  - repeat constructor; simpl; intuition discriminate.
  - intros c s [[= <- <-]|[[= <- <-]|[]]]; reflexivity.
Defined.

(** X10: on a table whose row count is not one, with a date column and a
    numeric column "temperature" that is the only numeric column with
    "temperature" in its label, [choose_axes] returns the date column as x,
    "temperature" as y and the kind "line", whatever other columns there
    are. *)
Theorem date_temperature_line `{Pandas} (σ : store) (l : loc) (d : DataFrame)
    (date_col : string) :
  σ !! l = Some d ->
  unique_labels d ->
  index_len d <> 1%nat ->
  detect_date_column (converted d) = Some date_col ->
  (exists s, In ("temperature", s) (columns d) /\ numeric_column s = true) ->
  (forall c s, In (c, s) (columns d) -> numeric_column s = true ->
     contains "temperature" (lower c) = true -> c = "temperature") ->
  exists σ', choose_axes l σ = Some ((Some date_col, Some "temperature", "line"), σ').
Proof.
  intros Hl Hu Hrows Hdate (s & Hs & Hnum) Honly.
  rewrite (choose_axes_run l d σ Hl). eexists. f_equal. f_equal.
  unfold choose_axes_rules.
  rewrite converted_index_len, (proj2 (Nat.eqb_neq _ _) Hrows). cbn [andb].
  unfold date_rule. rewrite Hdate.
  apply detect_date_loop_In in Hdate as [_ Hdc].
  rewrite (contains_truthy "date" date_col) by (reflexivity || exact Hdc).
  cbn [first_preferred].
  rewrite (first_match_only "temperature" "temperature"); [reflexivity | reflexivity | | |].
  - rewrite converted_labels. apply (in_map fst) in Hs. exact Hs.
  - apply select_number_converted; eauto.
  - intros c _ Hc. apply select_number_converted in Hc as (s' & Hin & Hn); eauto.
Qed.

(** X10 on dates with a salinity and a temperature. *)
Lemma date_temperature_line_dated :
  exists σ',
    @choose_axes iso_pandas 1%positive {[ 1%positive := dated_temperature_table ]}
    = Some ((Some "date", Some "temperature", "line"), σ').
Proof.
  apply (@date_temperature_line iso_pandas _ _ dated_temperature_table).
  - apply lookup_singleton_eq.
  - repeat constructor; simpl; intuition discriminate.
  - discriminate.
  - reflexivity.
  - exists (mkSeries Float64 [fl 12; fl 13]).
    split; [right; right; left; reflexivity | reflexivity].
  - intros c s [[= <- <-]|[[= <- <-]|[[= <- <-]|[]]]] _; [discriminate.. | reflexivity].
Defined.

(** X11: on a table whose row count is not one, without a date column and
    without a label that contains "pressure", and with at least two numeric
    columns, [choose_axes] returns the first two numeric columns, in column
    order, as x and y of a scatter plot. *)
Theorem two_numeric_scatter `{Pandas} (σ : store) (l : loc) (d : DataFrame)
    (x y : string) (rest : list string) :
  σ !! l = Some d ->
  unique_labels d ->
  index_len d <> 1%nat ->
  detect_date_column (converted d) = None ->
  (forall c, In c (labels d) -> contains "pressure" (lower c) = false) ->
  map fst (List.filter (fun cs => numeric_column (snd cs)) (columns d)) = x :: y :: rest ->
  exists σ', choose_axes l σ = Some ((Some x, Some y, "scatter"), σ').
Proof.
  intros Hl Hu Hrows Hdate Hnop Hnum.
  rewrite (choose_axes_run l d σ Hl). eexists. f_equal. f_equal.
  unfold choose_axes_rules.
  rewrite converted_index_len, (proj2 (Nat.eqb_neq _ _) Hrows). cbn [andb].
  unfold date_rule. rewrite Hdate. unfold pressure_rule.
  rewrite converted_labels, (find_pressure_none _ Hnop).
  rewrite (select_number_converted_filter d Hu), Hnum. reflexivity.
Qed.

(** X11 on two rows of positions. *)
Lemma two_numeric_scatter_positions :
  exists σ',
    @choose_axes iso_pandas 1%positive {[ 1%positive := positions_table ]}
    = Some ((Some "latitude", Some "longitude", "scatter"), σ').
Proof.
  apply (@two_numeric_scatter iso_pandas _ _ positions_table "latitude" "longitude" []).
  - apply lookup_singleton_eq.
  - repeat constructor; simpl; intuition discriminate.
  - discriminate.
  - reflexivity.
  - intros c [<-|[<-|[<-|[]]]]; reflexivity.
  - reflexivity.
Defined.

(** X12: [to_numeric_df] returns a new object and leaves every object of
    the store, its argument included, as it was.  On a frame with distinct
    labels the new frame has the same row count and the same labels in the
    same order; each column of object dtype holds what [pd.to_numeric] made
    of it, every other column is the one of the argument. *)
Theorem to_numeric_df_copy `{Pandas} (σ : store) (l : loc) (d : DataFrame) :
  σ !! l = Some d ->
  unique_labels d ->
  exists l' d' σ',
    to_numeric_df l σ = Some (l', σ') /\
    σ !! l' = None /\ σ' !! l' = Some d' /\
    (forall l0 d0, σ !! l0 = Some d0 -> σ' !! l0 = Some d0) /\
    index_len d' = index_len d /\ labels d' = labels d /\
    columns d' =
      map (fun cs => (fst cs, if dtype_eqb (s_dtype (snd cs)) Object
                              then to_numeric_ignore (snd cs) else snd cs))
        (columns d).
Proof.
  intros Hl Hu.
  exists (fresh (dom σ)), (converted d), (<[fresh (dom σ) := converted d]> σ).
  split; [apply to_numeric_df_run; exact Hl|].
  split; [apply not_elem_of_dom, is_fresh|].
  split; [apply lookup_insert_eq|].
  split; [intros l0 d0; apply insert_fresh_lookup|].
  split; [apply converted_index_len|].
  split; [apply converted_labels|].
  rewrite (converted_columns d Hu). reflexivity.
Qed.

(** X12 on the table with dates as strings and temperatures. *)
Lemma to_numeric_df_copy_dated :
  exists l' d' σ',
    @to_numeric_df iso_pandas 1%positive {[ 1%positive := dated_table ]} = Some (l', σ') /\
    ({[ 1%positive := dated_table ]} : store) !! l' = None /\ σ' !! l' = Some d' /\
    (forall l0 d0, ({[ 1%positive := dated_table ]} : store) !! l0 = Some d0 ->
                   σ' !! l0 = Some d0) /\
    index_len d' = index_len dated_table /\ labels d' = labels dated_table /\
    columns d' =
      map (fun cs => (fst cs, if dtype_eqb (s_dtype (snd cs)) Object
                              then @to_numeric_ignore iso_pandas (snd cs) else snd cs))
        (columns dated_table).
Proof.
  apply (@to_numeric_df_copy iso_pandas _ _ dated_table).
  - apply lookup_singleton_eq.
  - repeat constructor; simpl; intuition discriminate.
Defined.

Section Idempotence.
Context `{Pandas}.

Lemma convert_series_twice (s : Series) :
  to_numeric_contract -> convert_series (convert_series s) = convert_series s.
Proof.
  intros Hc. unfold convert_series.
  destruct (dtype_eqb (s_dtype s) Object) eqn:Es; [|rewrite Es; reflexivity].
  destruct (Hc s) as [Hsame|Hnum].
  - rewrite Hsame, Es. exact Hsame.
  - destruct (s_dtype (to_numeric_ignore s)) eqn:Et; try reflexivity. congruence.
Qed.

(** Converting a converted frame changes nothing. *)
Lemma converted_twice (d : DataFrame) :
  to_numeric_contract -> unique_labels d -> converted (converted d) = converted d.
Proof.
  intros Hc Hu.
  rewrite (converted_columns (converted d) (converted_unique d Hu)).
  rewrite converted_index_len. rewrite (converted_columns d Hu). cbn [columns index_len].
  f_equal. rewrite map_map. apply map_ext. intros [c s].
  unfold convert_column. cbn [fst snd]. rewrite convert_series_twice by exact Hc.
  reflexivity.
Qed.

End Idempotence.

(** X13: the page converts the table with [to_numeric_df] and passes the
    result to [choose_axes], which converts again.  When [pd.to_numeric]
    returns its input or a series that is no longer of object dtype, the
    second conversion changes nothing, and the axes are those [choose_axes]
    gives on the table as received. *)
Theorem choose_axes_after_to_numeric_df `{Pandas} (σ : store) (l : loc) (d : DataFrame) :
  to_numeric_contract ->
  σ !! l = Some d ->
  unique_labels d ->
  exists l1 σ1 r σ2 σ3,
    to_numeric_df l σ = Some (l1, σ1) /\
    choose_axes l1 σ1 = Some (r, σ2) /\
    choose_axes l σ = Some (r, σ3).
Proof.
  intros Hc Hl Hu.
  exists (fresh (dom σ)), (<[fresh (dom σ) := converted d]> σ), (choose_axes_rules (converted d)).
  do 2 eexists.
  split; [apply to_numeric_df_run; exact Hl|].
  split; [|apply choose_axes_run; exact Hl].
  rewrite (choose_axes_run _ (converted d)) by apply lookup_insert_eq.
  rewrite (converted_twice d Hc Hu). reflexivity.
Qed.

Lemma iso_pandas_contract : @to_numeric_contract iso_pandas.
Proof.
  intros s. cbn [to_numeric_ignore iso_pandas].
  destruct (parse_numbers (s_values s)); [right; discriminate | left; reflexivity].
Qed.

(** X13 on the table with dates as strings and temperatures. *)
Lemma choose_axes_after_to_numeric_df_dated :
  exists l1 σ1 r σ2 σ3,
    @to_numeric_df iso_pandas 1%positive {[ 1%positive := dated_table ]} = Some (l1, σ1) /\
    @choose_axes iso_pandas l1 σ1 = Some (r, σ2) /\
    @choose_axes iso_pandas 1%positive {[ 1%positive := dated_table ]} = Some (r, σ3).
Proof.
  apply (@choose_axes_after_to_numeric_df iso_pandas _ _ dated_table).
  - exact iso_pandas_contract.
  - apply lookup_singleton_eq.
  - repeat constructor; simpl; intuition discriminate.
Defined.

(** * plot_dataframe *)

Lemma lookup_assign_ne (c x : string) (s : Series) (cols : list (string * Series)) :
  c <> x -> lookup_column c (assign_column x s cols) = lookup_column c cols.
Proof.
  intros Hne. induction cols as [|[c' s'] cols IH]; simpl.
  - destruct (String.eqb_spec c x); [congruence | reflexivity].
  - destruct (String.eqb_spec x c') as [<-|Hx]; simpl.
    + destruct (String.eqb_spec c x); [congruence | reflexivity].
    + destruct (String.eqb c c'); [reflexivity | exact IH].
Qed.

Section PlotRun.
Context `{PlotEnv}.

Lemma parse_date_axis_run (σ : store) (l : loc) (d : DataFrame) (x : string) :
  σ !! l = Some d ->
  parse_date_axis l x σ = Some (tt, <[l := date_axis_parsed d x]> σ).
Proof.
  intros Hl. unfold parse_date_axis, date_axis_parsed. rewrite M_bind_run.
  unfold df_read. rewrite Hl.
  destruct (getitem d x) as [s|]; [destruct (to_datetime_series s) as [s'|e]|].
  - unfold df_write. rewrite Hl. reflexivity.
  - unfold mret, M_ret. rewrite insert_id by exact Hl. reflexivity.
  - unfold mret, M_ret. rewrite insert_id by exact Hl. reflexivity.
Qed.

Lemma plot_dataframe_run (σ : store) (l : loc) (d : DataFrame) (x y : option string)
    (chart_type : string) :
  σ !! l = Some d ->
  plot_dataframe l x y chart_type σ
  = Some (plotted_chart d x y chart_type, <[l := plotted_frame d x y chart_type]> σ).
Proof.
  intros Hl. unfold plot_dataframe, plotted_chart, plotted_frame.
  assert (forall k : DataFrame -> result chart,
            (df_read l ≫= fun d0 => mret (k d0)) σ = Some (k d, <[l := d]> σ)) as Hread.
  { intros k. rewrite M_bind_run. unfold df_read. rewrite Hl.
    unfold mret, M_ret. rewrite insert_id by exact Hl. reflexivity. }
  destruct (String.eqb chart_type "bar").
  - rewrite M_bind_run. unfold df_read. rewrite Hl.
    unfold mret, M_ret. rewrite insert_id by exact Hl.
    destruct (select_number d); reflexivity.
  - destruct (String.eqb chart_type "line" || String.eqb chart_type "scatter");
      [|apply (Hread (fun d0 => Returned (Grid d0)))].
    destruct x as [x|]; [|apply (Hread (fun d0 => Returned (Grid d0)))].
    destruct y as [y|]; [|apply (Hread (fun d0 => Returned (Grid d0)))].
    rewrite M_bind_run.
    destruct (contains "date" (lower x)).
    + rewrite (parse_date_axis_run σ l d x Hl). rewrite M_bind_run.
      unfold df_read. rewrite lookup_insert_eq.
      destruct (String.eqb chart_type "line"); reflexivity.
    + unfold mret at 1, M_ret at 1. rewrite M_bind_run. unfold df_read. rewrite Hl.
      unfold mret, M_ret. rewrite insert_id by exact Hl.
      destruct (String.eqb chart_type "line"); reflexivity.
Qed.

Lemma date_axis_parsed_frame (d : DataFrame) (x : string) :
  index_len (date_axis_parsed d x) = index_len d /\
  labels (date_axis_parsed d x) = labels d /\
  (forall c, c <> x -> getitem (date_axis_parsed d x) c = getitem d c) /\
  (date_axis_parsed d x <> d -> In x (labels d)).
Proof.
  unfold date_axis_parsed. destruct (getitem d x) as [s|] eqn:Es;
    [destruct (to_datetime_series s) as [s'|e]|]; try (repeat split; congruence).
  assert (In x (labels d)) as Hx.
  { apply lookup_column_In in Es. apply (in_map fst) in Es. exact Es. }
  repeat split; [| |auto].
  - unfold labels, setitem. cbn [columns]. apply assign_column_labels. exact Hx.
  - intros c Hc. unfold getitem, setitem. cbn [columns]. apply lookup_assign_ne. exact Hc.
Qed.

End PlotRun.

(** X14: unlike [choose_axes], [plot_dataframe] writes to the table it is
    given, and only in one case: for the kinds "line" and "scatter", with
    both axes set and an x column of the table whose label contains "date",
    that column is replaced by its parse as dates.  Row count, labels and
    every other column stay, and no other object is touched. *)
Theorem plot_dataframe_effect `{PlotEnv} (σ : store) (l : loc) (d : DataFrame)
    (x y : option string) (chart_type : string) :
  σ !! l = Some d ->
  exists res σ' d',
    plot_dataframe l x y chart_type σ = Some (res, σ') /\
    σ' !! l = Some d' /\
    (forall l0, l0 <> l -> σ' !! l0 = σ !! l0) /\
    index_len d' = index_len d /\ labels d' = labels d /\
    (forall c, Some c <> x -> getitem d' c = getitem d c) /\
    (d' <> d ->
       (chart_type = "line" \/ chart_type = "scatter") /\ y <> None /\
       exists cx, x = Some cx /\ contains "date" (lower cx) = true /\ In cx (labels d)).
Proof.
  intros Hl. rewrite (plot_dataframe_run σ l d x y chart_type Hl).
  do 3 eexists. split; [reflexivity|].
  split; [apply lookup_insert_eq|].
  split; [intros l0 Hl0; apply lookup_insert_ne; congruence|].
  unfold plotted_frame.
  destruct (String.eqb chart_type "bar"); [repeat split; congruence|].
  destruct (String.eqb_spec chart_type "line") as [Hline|Hline];
    [|destruct (String.eqb_spec chart_type "scatter") as [Hsc|Hsc]]; cbn [orb];
    try (repeat split; congruence);
    (destruct x as [cx|]; [|repeat split; congruence];
     destruct y as [cy|]; [|repeat split; congruence];
     destruct (contains "date" (lower cx)) eqn:Edate; [|repeat split; congruence];
     destruct (date_axis_parsed_frame d cx) as (Hrows & Hlabels & Hother & Hchanged);
     split; [exact Hrows|]; split; [exact Hlabels|];
     split; [intros c Hc; apply Hother; congruence|];
     intros Hd; split; [auto|]; split; [discriminate|]; exists cx; auto).
Qed.

(** X14 on the table with dates as strings, drawn as a line over "date". *)
Lemma plot_dataframe_effect_dated :
  exists res σ' d',
    @plot_dataframe plain_plot_env 1%positive (Some "date") (Some "temp") "line"
      {[ 1%positive := dated_table ]} = Some (res, σ') /\
    σ' !! 1%positive = Some d' /\
    (forall l0, l0 <> 1%positive ->
       σ' !! l0 = ({[ 1%positive := dated_table ]} : store) !! l0) /\
    index_len d' = index_len dated_table /\ labels d' = labels dated_table /\
    (forall c, Some c <> Some "date" -> getitem d' c = getitem dated_table c) /\
    (d' <> dated_table ->
       ("line" = "line" \/ "line" = "scatter") /\ Some "temp" <> None /\
       exists cx, Some "date" = Some cx /\ contains "date" (lower cx) = true /\
                  In cx (labels dated_table)).
Proof.
  apply (@plot_dataframe_effect plain_plot_env _ _ dated_table).
  apply lookup_singleton_eq.
Defined.

Section PlotAfterChoose.
Context `{Pandas} `{PlotEnv}.

Lemma date_rule_not_bar (d : DataFrame) (cols numeric_cols : list string) :
  snd (date_rule d cols numeric_cols) <> "bar".
Proof.
  unfold date_rule, pressure_rule, scatter_or_table.
  repeat match goal with
         | |- context [match ?t with _ => _ end] => destruct t
         end; discriminate.
Qed.

Lemma find_pressure_test (cols : list string) (c : string) :
  find_pressure cols = Some c -> contains "pressure" (lower c) = true.
Proof.
  induction cols as [|c' cols IH]; cbn [find_pressure]; [discriminate|].
  rewrite pressure_test. destruct (contains "pressure" (lower c')) eqn:E; [|exact IH].
  intros [= <-]. exact E.
Qed.

Lemma reversed_axis_pressure (y : string) :
  contains "pressure" (lower y) = true -> reversed_axis y = true.
Proof. destruct y; [discriminate | intros Hy; exact Hy]. Qed.

Lemma bar_chart_not_grid (d g : DataFrame) (c : string) (cols : list string) :
  (bar_values d (c :: cols) ≫= fun values => Returned (BarChart (c :: cols) values))
  <> Returned (Grid g).
Proof. destruct (bar_values d (c :: cols)); discriminate. Qed.

End PlotAfterChoose.

(** X15: on a table that [to_numeric_df] leaves as it is, as the page's
    table is after its own conversion, [plot_dataframe] called with the axes
    and kind [choose_axes] returns never takes a fallback: "table" gives the
    grid; "line" and "scatter" give that chart over the chosen x and y; "bar"
    gives the bar chart or the exception of [float()], never the grid. *)
Theorem plot_shows_chosen_kind `{Pandas} `{PlotEnv} (σ : store) (l : loc) (d : DataFrame) :
  σ !! l = Some d ->
  converted d = d ->
  exists x y kind σ1 res σ2,
    choose_axes l σ = Some ((x, y, kind), σ1) /\
    plot_dataframe l x y kind σ1 = Some (res, σ2) /\
    (kind = "table" -> res = Returned (Grid d)) /\
    (kind = "bar" -> forall g, res <> Returned (Grid g)) /\
    (kind = "line" -> exists cx cy g,
       x = Some cx /\ y = Some cy /\
       res = Returned (LineChart g cx cy (reversed_axis cy))) /\
    (kind = "scatter" -> exists cx cy g,
       x = Some cx /\ y = Some cy /\
       res = Returned (ScatterChart g cx cy (reversed_axis cy))).
Proof.
  intros Hl Hfix. rewrite (choose_axes_run l d σ Hl), Hfix.
  pose proof (choose_axes_rules_axes d) as Hax.
  assert (snd (choose_axes_rules d) = "bar" -> select_number d <> []) as Hbar.
  { unfold choose_axes_rules.
    destruct (index_len d =? 1)%nat; cbn [andb];
      [destruct (select_number d); cbn [List.length Nat.eqb negb]; [|discriminate]|];
      intros Hk; exfalso; exact (date_rule_not_bar _ _ _ Hk). }
  destruct (choose_axes_rules d) as [[x y] kind].
  exists x, y, kind, (<[fresh (dom σ) := d]> σ).
  rewrite (plot_dataframe_run _ l d x y kind (insert_fresh_lookup σ d l d Hl)).
  do 2 eexists. split; [reflexivity|]. split; [reflexivity|].
  destruct Hax as [[= -> -> ->]|[[= -> -> ->]|(cx & cy & k & Hk & [= -> -> ->] & _ & _)]].
  - split; [discriminate|]. split; [|split; discriminate].
    intros _ g. unfold plotted_chart. cbn [String.eqb Ascii.eqb Bool.eqb].
    destruct (select_number d) as [|c cols]; [exfalso; apply Hbar; reflexivity|].
    apply bar_chart_not_grid.
  - split; [intros _; reflexivity|]. split; [discriminate|]. split; discriminate.
  - destruct Hk as [-> | ->].
    + split; [discriminate|]. split; [discriminate|]. split; [|discriminate].
      intros _. exists cx, cy. eexists. repeat split; reflexivity.
    + split; [discriminate|]. split; [discriminate|]. split; [discriminate|].
      intros _. exists cx, cy. eexists. repeat split; reflexivity.
Qed.

(** X15 on two profile rows. *)
Lemma plot_shows_chosen_kind_profile :
  exists x y kind σ1 res σ2,
    @choose_axes iso_pandas 1%positive {[ 1%positive := profile_table ]}
      = Some ((x, y, kind), σ1) /\
    @plot_dataframe plain_plot_env 1%positive x y kind σ1 = Some (res, σ2) /\
    (kind = "table" -> res = Returned (Grid profile_table)) /\
    (kind = "bar" -> forall g, res <> Returned (Grid g)) /\
    (kind = "line" -> exists cx cy g,
       x = Some cx /\ y = Some cy /\
       res = Returned (LineChart g cx cy (reversed_axis cy))) /\
    (kind = "scatter" -> exists cx cy g,
       x = Some cx /\ y = Some cy /\
       res = Returned (ScatterChart g cx cy (reversed_axis cy))).
Proof.
  apply (@plot_shows_chosen_kind iso_pandas plain_plot_env _ _ profile_table).
  - apply lookup_singleton_eq.
  - reflexivity.
Defined.

(** X16: a line chart chosen for a table without a date column is a profile:
    its y column has "pressure" in its label, and [plot_dataframe] draws it
    with the y axis reversed. *)
Theorem profile_line_reversed `{Pandas} `{PlotEnv} (σ σ1 : store) (l : loc) (d : DataFrame)
    (cx cy : string) :
  σ !! l = Some d ->
  detect_date_column (converted d) = None ->
  choose_axes l σ = Some ((Some cx, Some cy, "line"), σ1) ->
  contains "pressure" (lower cy) = true /\
  exists g σ2,
    plot_dataframe l (Some cx) (Some cy) "line" σ1
    = Some (Returned (LineChart g cx cy true), σ2).
Proof.
  intros Hl Hdate Hchoose. rewrite (choose_axes_run l d σ Hl) in Hchoose.
  injection Hchoose as Hrules <-.
  assert (contains "pressure" (lower cy) = true) as Hp.
  { revert Hrules. unfold choose_axes_rules.
    match goal with |- context [if ?b then _ else _] => destruct b end; [discriminate|].
    unfold date_rule. rewrite Hdate. unfold pressure_rule, scatter_or_table.
    destruct (find_pressure (labels (converted d))) as [p|] eqn:Ep.
    - apply find_pressure_test in Ep.
      repeat match goal with
             | |- context [match ?t with _ => _ end] => destruct t
             end; intros [= <- <-] || discriminate; exact Ep.
    - repeat match goal with
             | |- context [match ?t with _ => _ end] => destruct t
             end; discriminate. }
  split; [exact Hp|].
  rewrite (plot_dataframe_run _ l d _ _ _ (insert_fresh_lookup σ (converted d) l d Hl)).
  unfold plotted_chart. cbn [String.eqb Ascii.eqb orb].
  rewrite (reversed_axis_pressure cy Hp). eauto.
Qed.

(** X16 on two profile rows. *)
Lemma profile_line_reversed_profile :
  contains "pressure" (lower "pressure") = true /\
  exists g σ2,
    @plot_dataframe plain_plot_env 1%positive (Some "salinity") (Some "pressure") "line"
      (<[fresh (dom ({[ 1%positive := profile_table ]} : store))
           := @converted iso_pandas profile_table]> {[ 1%positive := profile_table ]})
    = Some (Returned (LineChart g "salinity" "pressure" true), σ2).
Proof.
  apply (@profile_line_reversed iso_pandas plain_plot_env
           {[ 1%positive := profile_table ]} _ 1%positive profile_table).
  - apply lookup_singleton_eq.
  - reflexivity.
  - rewrite (choose_axes_run _ profile_table) by apply lookup_singleton_eq. reflexivity.
Defined.

(** * The plot controls *)

Lemma index_of_nth (v : string) (l : list string) (i : nat) :
  index_of v l = Some i -> nth_error l i = Some v.
Proof.
  revert i. induction l as [|a l IH]; simpl; intros i; [discriminate|].
  destruct (String.eqb_spec v a) as [->|Hne].
  - intros [= <-]. reflexivity.
  - destruct (index_of v l) as [j|]; simpl; [|discriminate].
    intros [= <-]. simpl. auto.
Qed.

Lemma index_of_In (v : string) (l : list string) :
  In v l -> exists i, index_of v l = Some i.
Proof.
  induction l as [|a l IH]; simpl; [intros []|]. intros Hin.
  destruct (String.eqb_spec v a) as [->|Hne]; [eauto|].
  destruct IH as (i & ->); [destruct Hin; congruence|]. simpl. eauto.
Qed.

Lemma selectbox_default (v : string) (cols : list string) (fallback : nat) :
  In v cols -> selectbox cols (default_index v cols fallback) None = Some v.
Proof.
  intros Hin. unfold selectbox, default_index.
  destruct (index_of_In v cols Hin) as (i & Hi). rewrite Hi. apply index_of_nth. exact Hi.
Qed.

(** X17: while the three select boxes are untouched they never fail, and
    what is plotted is: the result of [choose_axes] itself for the kind
    "bar", for a table with at most one column and for "line" and "scatter";
    but for the kind "table" on a table with two or more columns, a line
    chart of the first column against the second, since the kind box has no
    default for "table" and starts at "line". *)
Theorem untouched_controls `{Pandas} (σ σ1 : store) (l : loc) (d : DataFrame)
    (x y : option string) (kind : string) :
  σ !! l = Some d ->
  choose_axes l σ = Some ((x, y, kind), σ1) ->
  exists x' y' kind',
    plot_controls (labels d) x y kind None None None = Some (x', y', kind') /\
    (kind = "bar" \/ (List.length (labels d) <= 1)%nat -> (x', y', kind') = (x, y, kind)) /\
    (kind = "line" \/ kind = "scatter" -> (x', y', kind') = (x, y, kind)) /\
    (kind = "table" -> forall c0 c1 rest, labels d = c0 :: c1 :: rest ->
       (x', y', kind') = (Some c0, Some c1, "line")).
Proof.
  intros Hl Hchoose. rewrite (choose_axes_run l d σ Hl) in Hchoose.
  injection Hchoose as Hrules _.
  pose proof (choose_axes_rules_axes (converted d)) as Hax.
  rewrite Hrules, converted_labels in Hax. clear Hrules.
  unfold plot_controls.
  destruct Hax as [[= -> -> ->]|[[= -> -> ->]|(cx & cy & k & Hk & [= -> -> ->] & Hx & Hy)]].
  - cbn [String.eqb Ascii.eqb Bool.eqb negb andb]. do 3 eexists. split; [reflexivity|].
    split; [reflexivity|]. split; [intros [[=]|[=]] | discriminate].
  - cbn [String.eqb Ascii.eqb Bool.eqb negb andb].
    destruct (labels d) as [|c0 [|c1 rest]] eqn:Ecols.
    + do 3 eexists. split; [reflexivity|]. split; [reflexivity|].
      split; [intros [[=]|[=]] | discriminate].
    + do 3 eexists. split; [reflexivity|]. split; [reflexivity|].
      split; [intros [[=]|[=]] | discriminate].
    + cbn [List.length Nat.ltb Nat.leb hd_error nth_error mbind option_bind].
      rewrite (selectbox_default c0 (c0 :: c1 :: rest)) by (left; reflexivity).
      rewrite (selectbox_default c1 (c0 :: c1 :: rest)) by (right; left; reflexivity).
      cbn [mbind option_bind]. do 3 eexists. split; [reflexivity|].
      split; [intros [[=]|Hlen]; simpl in Hlen; lia|].
      split; [intros [[=]|[=]]|]. intros _ c0' c1' rest' [= <- <- <-]. reflexivity.
  - assert (mem cx (labels d) = true) as Hmx by (apply mem_In; exact Hx).
    assert (mem cy (labels d) = true) as Hmy by (apply mem_In; exact Hy).
    assert (String.eqb k "bar" = false) as Hnb by (destruct Hk as [-> | ->]; reflexivity).
    rewrite Hnb. cbn [negb andb].
    destruct (1 <? List.length (labels d))%nat eqn:Elen.
    + rewrite Hmx, Hmy. cbn [mbind option_bind].
      rewrite (selectbox_default cx _ 0 Hx), (selectbox_default cy _ 1 Hy).
      cbn [mbind option_bind].
      destruct Hk as [-> | ->]; do 3 eexists; (split; [reflexivity|]);
        (split; [reflexivity|]); (split; [reflexivity | discriminate]).
    + do 3 eexists. split; [reflexivity|]. split; [reflexivity|].
      split; [reflexivity|]. destruct Hk as [-> | ->]; discriminate.
Qed.

(** X17 on the table of text: "table" is chosen, a line is plotted. *)
Lemma untouched_controls_text :
  exists x' y' kind',
    plot_controls (labels text_table) None None "table" None None None
      = Some (x', y', kind') /\
    ("table" = "bar" \/ (List.length (labels text_table) <= 1)%nat ->
       (x', y', kind') = (None, None, "table")) /\
    ("table" = "line" \/ "table" = "scatter" -> (x', y', kind') = (None, None, "table")) /\
    ("table" = "table" -> forall c0 c1 rest, labels text_table = c0 :: c1 :: rest ->
       (x', y', kind') = (Some c0, Some c1, "line")).
Proof.
  apply (@untouched_controls iso_pandas {[ 1%positive := text_table ]}
           (<[fresh (dom ({[ 1%positive := text_table ]} : store))
                := @converted iso_pandas text_table]> {[ 1%positive := text_table ]})
           1%positive text_table).
  - apply lookup_singleton_eq.
  - rewrite (choose_axes_run _ text_table) by apply lookup_singleton_eq. reflexivity.
Defined.

(** * Sharing the chat *)

Lemma map_state_message_role (s : session) :
  has_role "system_map_state" (map_state_message s) = true.
Proof. unfold has_role, map_state_message. rewrite lookup_insert_eq. reflexivity. Qed.

Lemma map_state_message_fields (s : session) :
  map_state_message s !! "map_id" = Some (map_float_id s) /\
  map_state_message s !! "map_dest" = Some (map_dest s).
Proof.
  unfold map_state_message. split.
  - rewrite lookup_insert_ne by discriminate. rewrite lookup_insert_eq. reflexivity.
  - rewrite !lookup_insert_ne by discriminate. rewrite lookup_singleton_eq. reflexivity.
Qed.

Lemma find_app_none {A : Type} (f : A -> bool) (l1 l2 : list A) :
  Forall (fun a => f a = false) l1 -> List.find f (l1 ++ l2) = List.find f l2.
Proof.
  induction 1 as [|a l1 Ha _ IH]; simpl; [reflexivity|]. rewrite Ha. exact IH.
Qed.

Lemma filter_all_kept {A : Type} (f : A -> bool) (l : list A) :
  Forall (fun a => f a = true) l -> List.filter f l = l.
Proof.
  induction 1 as [|a l Ha _ IH]; simpl; [reflexivity|]. rewrite Ha, IH. reflexivity.
Qed.

(** X18: a shared chat comes back as it was.  When the history built for
    the share button, from a chat that is not empty and holds no map-state
    marker, is what the backend returns to a session that still shows only
    the welcome message, the block that loads it reports no error and sets
    the messages to those of the sharer; when the sharer's map was visible
    with a float id and a destination, these are restored and the fetch of
    the map data is requested, otherwise the map state is left alone. *)
Theorem shared_history_round_trip (welcome : string) (s s0 : session)
    (m0 : gmap string jval) :
  messages s <> [] ->
  Forall (fun m => has_role "system_map_state" m = false) (messages s) ->
  messages s0 = [m0] -> m0 !! "content" = Some (JStr welcome) ->
  history_loaded s0 = false ->
  exists s',
    load_shared_history welcome s0 (history_to_share s) = (s', None) /\
    messages s' = messages s /\ history_loaded s' = true /\
    map_is_visible s' = map_is_visible s0 /\
    (if map_shared s
     then map_float_id s' = map_float_id s /\ map_dest s' = map_dest s /\
          fetch_map_data s' = true
     else map_float_id s' = map_float_id s0 /\ map_dest s' = map_dest s0 /\
          fetch_map_data s' = fetch_map_data s0).
Proof.
  intros Hne Hclean Hm0 Hcontent Hfresh.
  unfold load_shared_history. rewrite Hfresh, Hm0. unfold content_is.
  rewrite Hcontent, String.eqb_refl. unfold history_to_share.
  remember (messages s ++ (if map_shared s then [map_state_message s] else [])) as h eqn:Eh.
  destruct h as [|m rest].
  { symmetry in Eh. apply app_eq_nil in Eh as [Eh _]. congruence. }
  rewrite Eh. clear Eh m rest.
  destruct (map_shared s).
  - rewrite (find_app_none _ _ _ Hclean). cbn [List.find].
    rewrite map_state_message_role.
    destruct (map_state_message_fields s) as [-> ->].
    eexists. split; [reflexivity|]. cbn [messages history_loaded map_is_visible
      map_float_id map_dest fetch_map_data].
    rewrite List.filter_app. cbn [List.filter]. rewrite map_state_message_role. cbn [negb].
    rewrite app_nil_r, filter_all_kept; [auto 6|].
    eapply List.Forall_impl; [|exact Hclean]. intros a Ha. rewrite Ha. reflexivity.
  - rewrite app_nil_r. rewrite (proj2 (find_None_all _ _) Hclean).
    eexists. split; [reflexivity|]. cbn. auto 6.
Qed.

(** X18 on a chat with a route to Singapore, opened from the shared link. *)
Lemma shared_history_round_trip_route :
  exists s',
    load_shared_history "Hello!" opened_link (history_to_share chat_with_route) = (s', None) /\
    messages s' = messages chat_with_route /\ history_loaded s' = true /\
    map_is_visible s' = map_is_visible opened_link /\
    (if map_shared chat_with_route
     then map_float_id s' = map_float_id chat_with_route /\
          map_dest s' = map_dest chat_with_route /\ fetch_map_data s' = true
     else map_float_id s' = map_float_id opened_link /\
          map_dest s' = map_dest opened_link /\
          fetch_map_data s' = fetch_map_data opened_link).
Proof.
  apply (shared_history_round_trip "Hello!" chat_with_route opened_link welcome_message).
  - discriminate.
  - repeat constructor.
  - reflexivity.
  - reflexivity.
  - reflexivity.
Defined.

(** X19: whatever the backend returns, loading it never leaves a map-state
    marker among the messages of the chat. *)
Theorem loaded_history_has_no_marker (welcome : string) (s : session)
    (loaded_history : list (gmap string jval)) :
  Forall (fun m => has_role "system_map_state" m = false) (messages s) ->
  Forall (fun m => has_role "system_map_state" m = false)
    (messages (fst (load_shared_history welcome s loaded_history))).
Proof.
  intros Hclean. unfold load_shared_history.
  destruct (history_loaded s); [exact Hclean|].
  destruct (match messages s with [m] => content_is welcome m | _ => Returned false end)
    as [[|]|e]; try exact Hclean.
  destruct loaded_history as [|m1 rest]; [exact Hclean|].
  destruct (List.find (has_role "system_map_state") (m1 :: rest)) as [m|] eqn:Efind.
  - destruct (m !! "map_id"); [|exact Hclean].
    destruct (m !! "map_dest"); [|exact Hclean].
    cbn [fst messages]. apply List.Forall_forall. intros a Ha.
    apply filter_In in Ha as [_ Ha]. apply negb_true_iff in Ha. exact Ha.
  - cbn [fst messages]. apply find_None_all. exact Efind.
Qed.

(** X19 on a history that holds two markers. *)
Lemma loaded_history_has_no_marker_twice :
  Forall (fun m => has_role "system_map_state" m = false)
    (messages (fst (load_shared_history "Hello!" opened_link
       [ map_state_message chat_with_route; welcome_message;
         map_state_message chat_with_route ]))).
Proof.
  apply loaded_history_has_no_marker. repeat constructor.
Defined.

(** X20: the share button posts the history exactly when the chat has more
    than its first message, or has one message and a visible map with a float
    id and a destination; otherwise it warns and sends nothing. *)
Theorem share_button_posts (s : session) (h : list (gmap string jval)) :
  render_qr_share_button (history_to_share s) = HistoryPosted h <->
  h = history_to_share s /\
  ((1 < List.length (messages s))%nat \/
   (List.length (messages s) = 1%nat /\ map_shared s = true)).
Proof.
  unfold render_qr_share_button.
  assert (List.length (history_to_share s)
          = (List.length (messages s) + if map_shared s then 1 else 0)%nat) as Hlen.
  { unfold history_to_share. rewrite length_app. destruct (map_shared s); reflexivity. }
  destruct (Nat.leb_spec (List.length (history_to_share s)) 1) as [Hle|Hgt].
  - split; [discriminate|]. intros [_ Hs]. rewrite Hlen in Hle.
    destruct (map_shared s); destruct Hs as [Hs|[Hs Hm]]; try discriminate; lia.
  - split.
    + intros [= <-]. split; [reflexivity|]. rewrite Hlen in Hgt.
      destruct (map_shared s); [|left; lia].
      destruct (List.length (messages s)) as [|[|n]]; [lia | right; auto | left; lia].
    + intros [-> _]. reflexivity.
Qed.

(** * The float's location *)

Lemma below_both_l (a b : list bool) : below (both a b) a = true.
Proof.
  revert b. induction a as [|x a IH]; intros [|y b]; simpl; try reflexivity.
  rewrite IH. destruct x, y; reflexivity.
Qed.

Lemma below_both_r (a b : list bool) : below (both a b) b = true.
Proof.
  revert b. induction a as [|x a IH]; intros [|y b]; simpl; try reflexivity.
  rewrite IH. destruct x, y; reflexivity.
Qed.

Lemma below_trans (a b c : list bool) :
  below a b = true -> below b c = true -> below a c = true.
Proof.
  revert b c. induction a as [|x a IH]; intros [|y b] [|z c]; simpl; try congruence.
  intros Hab Hbc. apply andb_true_iff in Hab as [Hxy Hab], Hbc as [Hyz Hbc].
  rewrite (IH _ _ Hab Hbc). destruct x, y, z; try reflexivity; discriminate.
Qed.

Lemma keep_rows_below {A : Type} (f : A -> bool) (mask : list bool) (vals : list A) :
  below mask (map f vals) = true ->
  Forall (fun v => f v = true) (keep_rows mask vals) /\
  List.length (keep_rows mask vals) = count_rows mask.
Proof.
  revert vals. induction mask as [|b mask IH]; intros [|v vals]; simpl;
    try (intros _; split; [constructor | reflexivity]); [discriminate|].
  intros Hb. apply andb_true_iff in Hb as [Hbv Hb]. destruct (IH _ Hb) as [Hall Hlen].
  unfold count_rows in *. destruct b; simpl in *; [|auto].
  split; [constructor; assumption | congruence].
Qed.

Lemma complete_rows_below (d : DataFrame) (subset : list string) (mask m : list bool) :
  complete_rows d subset mask = Returned m ->
  below m mask = true /\
  forall c, In c subset -> exists s, column d c = Returned s /\ below m (notna_mask s) = true.
Proof.
  revert mask. induction subset as [|c subset IH]; simpl; intros mask Hm.
  - injection Hm as <-. split; [|intros c []].
    induction mask as [|b mask IHm]; simpl; [reflexivity|]. rewrite IHm. destruct b; reflexivity.
  - apply bind_Returned in Hm as (s & Hs & Hm).
    destruct (IH _ Hm) as [Hbelow Hrest]. split.
    + eapply below_trans; [exact Hbelow | apply below_both_l].
    + intros c' [<-|Hc']; [|auto].
      exists s. split; [exact Hs|]. eapply below_trans; [exact Hbelow | apply below_both_r].
Qed.

Lemma lookup_column_map (f : Series -> Series) (c : string) (cols : list (string * Series)) :
  lookup_column c (map (fun cs => (fst cs, f (snd cs))) cols)
  = option_map f (lookup_column c cols).
Proof.
  induction cols as [|[c' s'] cols IH]; simpl; [reflexivity|].
  destruct (String.eqb c c'); [reflexivity | exact IH].
Qed.

(** After [dropna] on a subset, a frame that still has rows has a first
    value in every column of the subset, and it is not null. *)
Lemma dropna_first_value (subset : list string) (d d' : DataFrame) (c : string) :
  dropna subset d = Returned d' -> index_len d' <> 0%nat -> In c subset ->
  exists v, column d' c ≫= iloc0 = Returned v /\ isna v = false.
Proof.
  unfold dropna. intros Hd Hrows Hc.
  apply bind_Returned in Hd as (mask & Hmask & Hd). injection Hd as <-.
  cbn [index_len] in Hrows.
  destruct (complete_rows_below _ _ _ _ Hmask) as [_ Hsub].
  destruct (Hsub c Hc) as (s & Hs & Hbelow). apply column_Returned in Hs.
  destruct (keep_rows_below (fun v => negb (isna v)) mask (s_values s) Hbelow) as [Hall Hlen].
  destruct (keep_rows mask (s_values s)) as [|v rest] eqn:Ekeep;
    [simpl in Hlen; congruence|].
  exists v. split.
  - apply (column_iloc0 _ c (mkSeries (s_dtype s) (keep_rows mask (s_values s))) v rest).
    + unfold getitem. cbn [columns].
      rewrite (lookup_column_map (fun s0 => mkSeries (s_dtype s0) (keep_rows mask (s_values s0)))).
      unfold getitem in Hs. rewrite Hs. reflexivity.
    + exact Ekeep.
  - apply Forall_inv in Hall. apply negb_true_iff in Hall. exact Hall.
Qed.

(** X21: a location that was kept can be shown.  When the block that
    prepares the float's location keeps a frame and makes the map visible,
    the first latitude and longitude of that frame exist and are not null:
    the emergency panel reports them, and [render_map_with_route] shows
    neither of its two missing-data notices. *)
Theorem located_frame_has_coordinates `{PandasCoerce} (float_df d : DataFrame) :
  located_frame float_df = Returned (Some d) ->
  exists float_lat float_lon,
    column d "latitude" ≫= iloc0 = Returned float_lat /\
    column d "longitude" ≫= iloc0 = Returned float_lon /\
    isna float_lat = false /\ isna float_lon = false /\
    last_coords true (Some d) = Some (float_lat, float_lon) /\
    forall (G : Geopy) (F : FloatArith) (U : Unicode) float_id dest_name,
      render_map_with_route d float_id dest_name <> Returned NoFloatData /\
      render_map_with_route d float_id dest_name <> Returned NoLatitudeLongitude.
Proof.
  unfold located_frame. intros Hloc.
  apply bind_Returned in Hloc as (lats & _ & Hloc).
  apply bind_Returned in Hloc as (lons & _ & Hloc).
  apply bind_Returned in Hloc as (d' & Hdrop & Hloc).
  destruct (df_empty d') eqn:Hne; [discriminate|]. injection Hloc as <-.
  assert (index_len d' <> 0%nat) as Hrows.
  { apply orb_false_iff in Hne as [Hrows _]. apply Nat.eqb_neq. exact Hrows. }
  destruct (dropna_first_value _ _ _ "latitude" Hdrop Hrows) as (flat & Hlat & Hnlat);
    [left; reflexivity|].
  destruct (dropna_first_value _ _ _ "longitude" Hdrop Hrows) as (flon & Hlon & Hnlon);
    [right; left; reflexivity|].
  exists flat, flon. repeat (split; [assumption|]). split.
  - unfold last_coords. rewrite Hne. cbn [andb negb]. rewrite Hlat.
    cbn [mbind result_bind]. rewrite Hlon. reflexivity.
  - intros G F U float_id dest_name.
    rewrite (render_past_checks _ _ _ _ _ Hne Hlat Hlon).
    split; intros Hr; apply bind_Returned in Hr as ([|c nearest] & _ & Hr);
      try discriminate;
      (destruct (find_dest_port GLOBAL_OCEAN_PORTS dest_name); [|discriminate];
       apply bind_Returned in Hr as (details & _ & Hr);
       destruct (List.length details <? 4)%nat; discriminate).
Qed.

(** X21 on two rows of which the first has no latitude. *)
Lemma located_frame_has_coordinates_rows :
  exists d,
    @located_frame plain_coerce located_rows = Returned (Some d) /\
    exists float_lat float_lon,
      column d "latitude" ≫= iloc0 = Returned float_lat /\
      column d "longitude" ≫= iloc0 = Returned float_lon /\
      isna float_lat = false /\ isna float_lon = false /\
      last_coords true (Some d) = Some (float_lat, float_lon) /\
      forall (G : Geopy) (F : FloatArith) (U : Unicode) float_id dest_name,
        render_map_with_route d float_id dest_name <> Returned NoFloatData /\
        render_map_with_route d float_id dest_name <> Returned NoLatitudeLongitude.
Proof.
  eexists. split; [vm_compute; reflexivity|].
  apply (@located_frame_has_coordinates plain_coerce located_rows).
  vm_compute. reflexivity.
Defined.

(** * Translating the history *)

Section TranslateProperties.
Context `{Backend}.

Lemma translate_message_no_role (welcome lang_code : string) (i : nat)
  (m : gmap string jval) :
  m !! "role" = None ->
  translate_message welcome lang_code i m = Raised KeyError.
Proof.
  intros Hr. unfold translate_message, item. rewrite Hr. reflexivity.
Qed.

Lemma translate_message_role (welcome lang_code : string) (i : nat)
  (m : gmap string jval) (role : jval) :
  m !! "role" = Some role ->
  exists m',
    translate_message welcome lang_code i m = Returned m'
    /\ same_but_content m m'
    /\ (is_assistant role = false -> m' = m).
Proof.
  intros Hr. unfold translate_message.
  assert (item m "role" = Returned role) as -> by (unfold item; rewrite Hr; reflexivity).
  cbn [mbind result_bind].
  assert (forall c : jval, same_but_content m (<["content" := c]> m)) as Hset.
  { intros c key Hkey. apply lookup_insert_ne. congruence. }
  assert (same_but_content m m) as Hsame by (intros key _; reflexivity).
  destruct (is_assistant role) eqn:Ea; cbn [andb].
  - destruct (get_truthy m "data" && get_truthy m "user_query").
    + match goal with
      | |- context [match ?e with Returned _ => _ | Raised _ => _ end] =>
          destruct e
      end.
      * eexists. split; [reflexivity|]. split; [apply Hset | discriminate].
      * eexists. split; [reflexivity|]. split; [apply Hsame | discriminate].
    + rewrite andb_true_r.
      destruct (i =? 0)%nat.
      * eexists. split; [reflexivity|]. split; [apply Hset | discriminate].
      * eexists. split; [reflexivity|]. split; [apply Hsame | discriminate].
  - rewrite andb_false_r.
    eexists. split; [reflexivity|]. split; [apply Hsame | reflexivity].
Qed.

Lemma translate_from_Returned (welcome lang_code : string)
  (ms : list (gmap string jval)) :
  forall (i : nat) (ms' : list (gmap string jval)),
    translate_from welcome lang_code i ms = Returned ms' ->
    List.Forall2
      (fun m m' =>
         same_but_content m m'
         /\ (m !! "role" <> Some (JStr "assistant") -> m' = m))
      ms ms'.
Proof.
  induction ms as [|m rest IH]; intros i ms' Hrun; cbn [translate_from] in Hrun.
  - injection Hrun as <-. constructor.
  - destruct (m !! "role") as [role|] eqn:Hr.
    + destruct (translate_message_role welcome lang_code i m role Hr)
        as (m' & Hm & Hsame & Hkeep).
      rewrite Hm in Hrun. cbn [mbind result_bind] in Hrun.
      destruct (translate_from welcome lang_code (S i) rest) as [rest'|e] eqn:Hrest;
        cbn [mbind result_bind] in Hrun; [|discriminate].
      injection Hrun as <-. constructor; [|exact (IH _ _ Hrest)].
      split; [exact Hsame|].
      intros Hne. apply Hkeep.
      destruct role as [|r|rows]; try reflexivity.
      cbn [is_assistant]. apply String.eqb_neq. congruence.
    + rewrite (translate_message_no_role welcome lang_code i m Hr) in Hrun.
      discriminate.
Qed.

Lemma translate_from_roles (welcome lang_code : string)
  (ms : list (gmap string jval)) :
  forall i : nat,
    (exists ms', translate_from welcome lang_code i ms = Returned ms')
    <-> List.Forall (fun m => m !! "role" <> None) ms.
Proof.
  induction ms as [|m rest IH]; intros i; cbn [translate_from].
  - split; [constructor | intros _; eexists; reflexivity].
  - destruct (m !! "role") as [role|] eqn:Hr.
    + destruct (translate_message_role welcome lang_code i m role Hr)
        as (m' & Hm & _).
      rewrite Hm. cbn [mbind result_bind]. split.
      * intros [ms' Hrun].
        destruct (translate_from welcome lang_code (S i) rest) as [rest'|e] eqn:Hrest;
          cbn [mbind result_bind] in Hrun; [|discriminate].
        constructor; [congruence|].
        apply (proj1 (IH (S i))). eexists. exact Hrest.
      * intros Hall. apply List.Forall_cons_iff in Hall as [_ Hall].
        destruct (proj2 (IH (S i)) Hall) as [rest' Hrest].
        rewrite Hrest. eexists. reflexivity.
    + rewrite (translate_message_no_role welcome lang_code i m Hr).
      cbn [mbind result_bind]. split.
      * intros [ms' Hrun]. discriminate.
      * intros Hall. apply List.Forall_cons_iff in Hall as [Hm _]. congruence.
Qed.

(** X22: translating the history never drops, adds or reorders a message.
    The translation returns exactly when every message has a "role"; it then
    returns as many messages as it was given, each agreeing with the message
    at its place on every key but "content", and each message whose role is
    not "assistant" unchanged, whatever the backend answered or raised. *)
Theorem translate_history_keeps_messages (welcome lang_code : string)
  (ms : list (gmap string jval)) :
  (exists ms',
     translate_history welcome lang_code ms = Returned ms'
     /\ List.length ms' = List.length ms
     /\ List.Forall2
          (fun m m' =>
             same_but_content m m'
             /\ (m !! "role" <> Some (JStr "assistant") -> m' = m))
          ms ms')
  <-> List.Forall (fun m => m !! "role" <> None) ms.
Proof.
  unfold translate_history. split.
  - intros (ms' & Hrun & _).
    apply (proj1 (translate_from_roles welcome lang_code ms 0)).
    eexists. exact Hrun.
  - intros Hall.
    destruct (proj2 (translate_from_roles welcome lang_code ms 0) Hall)
      as [ms' Hrun].
    exists ms'. split; [exact Hrun|].
    pose proof (translate_from_Returned welcome lang_code ms 0 ms' Hrun) as Hshape.
    split; [|exact Hshape].
    symmetry. exact (List.Forall2_length Hshape).
Qed.

End TranslateProperties.

(** The translation of a chat that has one answer with rows: that answer
    gets the backend's text, the other messages stay. *)
Example translate_history_answered_chat :
  exists ms',
    @translate_history fixed_backend "Hello!" "fr" answered_chat = Returned ms'
    /\ List.length ms' = 3%nat
    /\ List.map (fun m : gmap string jval => m !! "content") ms'
       = [Some (JStr "Hello!"); Some (JStr "Where is float 17?");
          Some (JStr "Au large de Chennai.")].
Proof.
  eexists. split; [vm_compute; reflexivity|]. split; vm_compute; reflexivity.
Qed.

(** * From the location to the map *)

(** X23: from the kept location to the drawn map.  When the location block
    keeps a frame whose first latitude and longitude are instances of int or
    float, the destination is a port chosen from the catalog by its name,
    [str.lower()] lower-cases the ASCII letters, and geopy returns a distance
    from the float to every port and from every port to the destination,
    [render_map_with_route] draws the map to that very port with four nearest
    ports and four routes: none of its four notices and no exception. *)
Theorem located_route_shown `{PandasCoerce} `{Geopy} `{FloatArith} `{Unicode}
    (float_df d : DataFrame) (float_id : string) (p : Port) :
  located_frame float_df = Returned (Some d) ->
  In p GLOBAL_OCEAN_PORTS ->
  lowers_ascii ->
  (forall float_lat float_lon,
     column d "latitude" ≫= iloc0 = Returned float_lat ->
     column d "longitude" ≫= iloc0 = Returned float_lon ->
     isinstance_int_float float_lat = true /\
     isinstance_int_float float_lon = true /\
     forall q, In q GLOBAL_OCEAN_PORTS ->
       exists r, distance_km (float_lat, float_lon) (port_coords q) = Returned r) ->
  (forall q, In q GLOBAL_OCEAN_PORTS ->
     exists r, distance_km (port_coords q) (port_coords p) = Returned r) ->
  exists nearest details,
    render_map_with_route d float_id (name p)
      = Returned (RouteShown nearest p details) /\
    List.length nearest = 4%nat /\ List.length details = 4%nat.
Proof.
  unfold located_frame. intros Hloc Hp Hlow Hfloat Hdest.
  apply bind_Returned in Hloc as (lats & _ & Hloc).
  apply bind_Returned in Hloc as (lons & _ & Hloc).
  apply bind_Returned in Hloc as (d' & Hdrop & Hloc).
  destruct (df_empty d') eqn:Hne; [discriminate|]. injection Hloc as <-.
  assert (index_len d' <> 0%nat) as Hrows.
  { apply orb_false_iff in Hne as [Hrows _]. apply Nat.eqb_neq. exact Hrows. }
  destruct (dropna_first_value _ _ _ "latitude" Hdrop Hrows) as (flat & Hlat & _);
    [left; reflexivity|].
  destruct (dropna_first_value _ _ _ "longitude" Hdrop Hrows) as (flon & Hlon & _);
    [right; left; reflexivity|].
  destruct (Hfloat flat flon Hlat Hlon) as (Hilat & Hilon & Hgeo).
  apply bind_Returned in Hlat as (slat & Hslat & Hvlat).
  apply bind_Returned in Hlon as (slon & Hslon & Hvlon).
  apply column_Returned in Hslat, Hslon.
  apply iloc0_Returned in Hvlat as (rest & Hvlat).
  apply iloc0_Returned in Hvlon as (rest' & Hvlon).
  exact (render_map_with_route_shows d' float_id (name p) slat slon flat flon
           rest rest' p Hne Hslat Hvlat Hslon Hvlon Hilat Hilon Hgeo Hdest
           (find_dest_port_catalog p Hlow Hp)).
Qed.

(** X23 on two rows of which the first has no latitude, to Singapore. *)
Lemma located_route_shown_singapore :
  exists d nearest details,
    @located_frame plain_coerce located_rows = Returned (Some d) /\
    @render_map_with_route grid_geopy exact_floats kelvin_unicode d "17" (name singapore)
      = Returned (RouteShown nearest singapore details) /\
    List.length nearest = 4%nat /\ List.length details = 4%nat.
Proof.
  eexists.
  assert (@located_frame plain_coerce located_rows = Returned (Some _)) as Hloc
    by (vm_compute; reflexivity).
  destruct (@located_route_shown plain_coerce grid_geopy exact_floats kelvin_unicode
              located_rows _ "17" singapore Hloc)
    as (nearest & details & Hr & Hn & Hd).
  - vm_compute. tauto.
  - exact kelvin_unicode_lowers_ascii.
  - intros float_lat float_lon Hlat Hlon.
    vm_compute in Hlat. vm_compute in Hlon.
    injection Hlat as <-. injection Hlon as <-.
    split; [reflexivity|]. split; [reflexivity|].
    intros q Hq. simpl in Hq.
    repeat (destruct Hq as [<-|Hq]; [eexists; vm_compute; reflexivity|]).
    destruct Hq.
  - intros q Hq. simpl in Hq.
    repeat (destruct Hq as [<-|Hq]; [eexists; vm_compute; reflexivity|]).
    destruct Hq.
  - exists nearest, details. split; [exact Hloc|]. split; [exact Hr|].
    split; [exact Hn | exact Hd].
Defined.

(** * The date rule and the pressure rule *)

Section RuleOrder.
Context `{Pandas}.

Lemma find_pressure_find (cols : list string) :
  find_pressure cols = List.find (fun c => contains "pressure" (lower c)) cols.
Proof.
  induction cols as [|c cols IH]; cbn [find_pressure List.find]; [reflexivity|].
  rewrite pressure_test, IH. reflexivity.
Qed.

Lemma first_match_find (pref : string) (cols numeric_cols : list string) :
  first_match pref cols numeric_cols
  = List.find (fun c => contains pref (lower c) && mem c numeric_cols) cols.
Proof.
  induction cols as [|c cols IH]; cbn [first_match List.find]; [reflexivity|].
  rewrite IH. reflexivity.
Qed.

Lemma first_label_find (test : string -> bool) (cols : list string) (c : string) :
  first_label test cols c <-> List.find test cols = Some c.
Proof. unfold first_label. symmetry. apply find_Some_first. Qed.

Lemma scatter_or_table_not_line (numeric_cols : list string) (x y : option string) :
  scatter_or_table numeric_cols <> (x, y, "line").
Proof. destruct numeric_cols as [|a [|b rest]]; discriminate. Qed.

(** When the pressure rule gives salinity against pressure. *)
Lemma pressure_rule_salinity (cols numeric_cols : list string) :
  (forall c, In c numeric_cols -> In c cols) ->
  pressure_rule cols numeric_cols = (Some "salinity", Some "pressure", "line") <->
  List.find (fun c => contains "pressure" (lower c)) cols = Some "pressure" /\
  List.find (fun c => contains "temperature" (lower c) && mem c numeric_cols) cols = None /\
  List.find (fun c => contains "salinity" (lower c) && mem c numeric_cols) cols
    = Some "salinity".
Proof.
  intros Hsub. unfold pressure_rule. rewrite find_pressure_find.
  cbn [first_preferred]. rewrite !first_match_find.
  set (pressure := List.find (fun c => contains "pressure" (lower c)) cols).
  set (temperature :=
         List.find (fun c => contains "temperature" (lower c) && mem c numeric_cols) cols).
  set (salinity :=
         List.find (fun c => contains "salinity" (lower c) && mem c numeric_cols) cols).
  split.
  - destruct pressure as [pc|];
      [|intros Hr; destruct (scatter_or_table_not_line _ _ _ Hr)].
    destruct (truthy pc); [|intros Hr; destruct (scatter_or_table_not_line _ _ _ Hr)].
    destruct temperature as [c|] eqn:Et.
    { intros [= -> ->]. apply find_some in Et as [_ Et]. discriminate. }
    destruct salinity as [c|] eqn:Es; [intros [= -> ->]; auto|].
    match goal with
    | |- context [List.find ?f cols] => destruct (List.find f cols) as [c|] eqn:Etemp
    end.
    { intros [= -> ->]. apply find_some in Etemp as [_ Etemp]. discriminate. }
    match goal with
    | |- context [List.filter ?f numeric_cols] =>
        destruct (List.filter f numeric_cols) as [|o others] eqn:Eo
    end; [intros Hr; destruct (scatter_or_table_not_line _ _ _ Hr)|].
    intros [= -> ->]. exfalso.
    assert (In "salinity" numeric_cols) as Hin.
    { assert (In "salinity" ("salinity" :: others)) as Ho by (left; reflexivity).
      rewrite <- Eo in Ho. apply filter_In in Ho as [Ho _]. exact Ho. }
    pose proof (find_none _ _ Es "salinity" (Hsub _ Hin)) as Hno.
    cbn beta in Hno. rewrite (proj2 (mem_In _ _) Hin) in Hno. discriminate.
  - intros (-> & -> & ->). reflexivity.
Qed.

(** When the date rule gives salinity against pressure: never through a
    date column. *)
Lemma date_rule_salinity (d : DataFrame) (numeric_cols : list string) :
  (forall c, In c numeric_cols -> In c (labels d)) ->
  date_rule d (labels d) numeric_cols = (Some "salinity", Some "pressure", "line") <->
  detect_date_column d = None /\
  pressure_rule (labels d) numeric_cols = (Some "salinity", Some "pressure", "line").
Proof.
  intros Hsub. unfold date_rule.
  destruct (detect_date_column d) as [dc|] eqn:Ed.
  - apply detect_date_loop_In in Ed as [_ Ed].
    rewrite (contains_truthy "date" dc) by (reflexivity || exact Ed).
    split; [|intros [[=] _]].
    destruct (first_preferred _ (labels d) numeric_cols) as [y|].
    { intros [= -> ->]. discriminate. }
    destruct numeric_cols as [|n rest]; [|intros [= -> ->]; discriminate].
    intros Hr. apply (pressure_rule_salinity _ _ Hsub) in Hr as (_ & _ & Hs).
    apply find_some in Hs as [_ Hs]. rewrite andb_false_r in Hs. discriminate.
  - split; [auto | intros [_ Hr]; exact Hr].
Qed.

(** When [choose_axes] gives salinity against pressure. *)
Lemma choose_axes_rules_salinity (d : DataFrame) :
  choose_axes_rules d = (Some "salinity", Some "pressure", "line") <->
  index_len d <> 1%nat /\
  detect_date_column d = None /\
  List.find (fun c => contains "pressure" (lower c)) (labels d) = Some "pressure" /\
  List.find (fun c => contains "temperature" (lower c) && mem c (select_number d))
    (labels d) = None /\
  List.find (fun c => contains "salinity" (lower c) && mem c (select_number d))
    (labels d) = Some "salinity".
Proof.
  assert (forall c, In c (select_number d) -> In c (labels d)) as Hsub
    by (intros c; apply select_number_labels).
  unfold choose_axes_rules. split.
  - intros Hr.
    assert (date_rule d (labels d) (select_number d)
            = (Some "salinity", Some "pressure", "line")) as Hrule.
    { destruct ((index_len d =? 1)%nat
                && negb (List.length (select_number d) =? 0)%nat);
        [discriminate | exact Hr]. }
    apply (date_rule_salinity _ _ Hsub) in Hrule as [Hd Hrule].
    apply (pressure_rule_salinity _ _ Hsub) in Hrule as (Hp & Ht & Hs).
    split; [|auto]. intros Hrows. rewrite Hrows in Hr. cbn [Nat.eqb andb] in Hr.
    destruct (select_number d) as [|n rest]; [|discriminate].
    apply find_some in Hs as [_ Hs]. rewrite andb_false_r in Hs. discriminate.
  - intros (Hrows & Hd & Hfinds).
    rewrite (proj2 (Nat.eqb_neq _ _) Hrows). cbn [andb].
    apply (date_rule_salinity _ _ Hsub). split; [exact Hd|].
    apply (pressure_rule_salinity _ _ Hsub). exact Hfinds.
Qed.

(** With a date column, a numeric column and a row count that is not one,
    the date column is the x of a line chart. *)
Lemma choose_axes_rules_dated (d : DataFrame) (c : string) :
  detect_date_column d = Some c -> select_number d <> [] -> index_len d <> 1%nat ->
  exists y, choose_axes_rules d = (Some c, Some y, "line") /\ In y (select_number d).
Proof.
  intros Hc Hnum Hrows. unfold choose_axes_rules.
  rewrite (proj2 (Nat.eqb_neq _ _) Hrows). cbn [andb].
  unfold date_rule. rewrite Hc.
  apply detect_date_loop_In in Hc as [_ Hc].
  rewrite (contains_truthy "date" c) by (reflexivity || exact Hc).
  destruct (first_preferred _ (labels d) (select_number d)) as [y|] eqn:Ey.
  - exists y. split; [reflexivity|]. apply first_preferred_In in Ey as [_ Ey]. exact Ey.
  - destruct (select_number d) as [|y rest]; [congruence|].
    exists y. split; [reflexivity | left; reflexivity].
Qed.

(** Without a date column, or without a numeric column, the rules that
    follow the single-row rule are the pressure rule and what follows it. *)
Lemma date_rule_skipped (d : DataFrame) :
  detect_date_column d = None \/ select_number d = [] ->
  date_rule d (labels d) (select_number d) = pressure_rule (labels d) (select_number d).
Proof.
  unfold date_rule. intros [-> | Hnum]; [reflexivity|].
  destruct (detect_date_column d) as [dc|]; [|reflexivity].
  destruct (truthy dc); [|reflexivity].
  rewrite Hnum, first_preferred_no_numeric. reflexivity.
Qed.

End RuleOrder.

(** C3, as the code has it.  [choose_axes] looks for the date column in the
    converted table.  [detect_date_column] returns the first column whose
    label contains "date" (in any case) and whose values either pass the
    strict parse or parse, in the lenient parse, for at least
    [max(1, rows // 4)] entries; it returns nothing exactly when no column
    passes, in particular when every column with "date" in its label fails
    the strict parse and has no entry that parses.  The single-row rule comes
    first: a table of one row with a numeric column gets the kind "bar",
    with or without a date column.  On any other table with a numeric column
    the column returned becomes the x of a line chart over a numeric column;
    when none is returned, or no column is numeric, the evaluation goes on
    with the pressure rule. *)
Theorem detect_date_column_first `{Pandas} (σ : store) (l : loc) (d : DataFrame) :
  σ !! l = Some d ->
  unique_labels d ->
  (forall c, detect_date_column (converted d) = Some c <->
     exists pre s post,
       columns (converted d) = pre ++ (c, s) :: post /\ date_like (c, s) = true /\
       Forall (fun cs => date_like cs = false) pre) /\
  (detect_date_column (converted d) = None <->
   Forall (fun cs => date_like cs = false) (columns (converted d))) /\
  ((forall c s, In (c, s) (columns (converted d)) -> contains "date" (lower c) = true ->
      to_datetime_raise s = false /\ notna_sum (to_datetime_coerce s) = 0%nat) ->
   detect_date_column (converted d) = None) /\
  (index_len d = 1%nat -> select_number (converted d) <> [] ->
   exists σ', choose_axes l σ = Some ((None, None, "bar"), σ')) /\
  (forall c, detect_date_column (converted d) = Some c ->
     index_len d <> 1%nat -> select_number (converted d) <> [] ->
     exists y σ', choose_axes l σ = Some ((Some c, Some y, "line"), σ') /\
                  numeric_label d y = true) /\
  (detect_date_column (converted d) = None \/ select_number (converted d) = [] ->
   index_len d <> 1%nat \/ select_number (converted d) = [] ->
   exists σ', choose_axes l σ
     = Some (pressure_rule (labels d) (select_number (converted d)), σ')).
Proof.
  intros Hl Hu. pose proof (converted_unique d Hu) as Hu'.
  pose proof (detect_date_column_find (converted d) Hu') as Hfind.
  assert (detect_date_column (converted d) = None <->
          Forall (fun cs => date_like cs = false) (columns (converted d))) as Hnone.
  { rewrite Hfind, <- find_None_all.
    destruct (List.find date_like (columns (converted d))); simpl; split; congruence. }
  rewrite (choose_axes_run l d σ Hl).
  split; [|split; [exact Hnone|split; [|split; [|split]]]].
  - intros c. rewrite Hfind. split.
    + destruct (List.find date_like (columns (converted d))) as [[c' s]|] eqn:E;
        [|discriminate].
      intros [= <-]. apply find_Some_first in E as (pre & post & ? & ? & ?). eauto 6.
    + intros (pre & s & post & Hcols & Hlike & Hpre).
      rewrite (proj2 (find_Some_first date_like (columns (converted d)) (c, s))) by eauto.
      reflexivity.
  - intros Hfail. apply Hnone, List.Forall_forall. intros [c s] Hin.
    unfold date_like. cbn [fst snd].
    destruct (contains "date" (lower c)) eqn:E; [|reflexivity].
    destruct (Hfail c s Hin E) as [-> ->]. cbn [andb orb].
    apply Nat.leb_gt. lia.
  - intros Hrows Hnum. eexists. f_equal. f_equal.
    unfold choose_axes_rules. rewrite converted_index_len, Hrows.
    destruct (select_number (converted d)); [congruence | reflexivity].
  - intros c Hc Hrows Hnum.
    rewrite <- converted_index_len in Hrows.
    destruct (choose_axes_rules_dated (converted d) c Hc Hnum Hrows) as (y & -> & Hy).
    exists y. eexists. split; [reflexivity|].
    unfold numeric_label. apply mem_In. exact Hy.
  - intros Hskip Hrule. eexists. f_equal. f_equal.
    unfold choose_axes_rules. rewrite converted_index_len.
    assert ((index_len d =? 1)%nat
            && negb (List.length (select_number (converted d)) =? 0)%nat = false) as ->.
    { destruct Hrule as [Hrows| ->]; [|apply andb_false_r].
      rewrite (proj2 (Nat.eqb_neq _ _) Hrows). reflexivity. }
    rewrite (date_rule_skipped (converted d) Hskip), converted_labels. reflexivity.
Qed.

(** C3 on the table whose date column holds "north" and "south". *)
Lemma detect_date_column_first_undated :
  let σ : gmap positive DataFrame := {[ 1%positive := undated_table ]} in
  let d := @converted iso_pandas undated_table in
  (forall c, @detect_date_column iso_pandas d = Some c <->
     exists pre s post,
       columns d = pre ++ (c, s) :: post /\ @date_like iso_pandas (c, s) = true /\
       Forall (fun cs => @date_like iso_pandas cs = false) pre) /\
  (@detect_date_column iso_pandas d = None <->
   Forall (fun cs => @date_like iso_pandas cs = false) (columns d)) /\
  ((forall c s, In (c, s) (columns d) -> contains "date" (lower c) = true ->
      @to_datetime_raise iso_pandas s = false /\
      notna_sum (@to_datetime_coerce iso_pandas s) = 0%nat) ->
   @detect_date_column iso_pandas d = None) /\
  (index_len undated_table = 1%nat -> select_number d <> [] ->
   exists σ', @choose_axes iso_pandas 1%positive σ = Some ((None, None, "bar"), σ')) /\
  (forall c, @detect_date_column iso_pandas d = Some c ->
     index_len undated_table <> 1%nat -> select_number d <> [] ->
     exists y σ', @choose_axes iso_pandas 1%positive σ
                    = Some ((Some c, Some y, "line"), σ') /\
                  @numeric_label iso_pandas undated_table y = true) /\
  (@detect_date_column iso_pandas d = None \/ select_number d = [] ->
   index_len undated_table <> 1%nat \/ select_number d = [] ->
   exists σ', @choose_axes iso_pandas 1%positive σ
     = Some (pressure_rule (labels undated_table) (select_number d), σ')).
Proof.
  apply (@detect_date_column_first iso_pandas {[ 1%positive := undated_table ]}
           1%positive undated_table).
  - apply lookup_singleton_eq.
  - repeat constructor; simpl; intuition discriminate.
Defined.

(** C3 as stated fails, in two ways.  Of the seven entries of the column
    "date" one parses, fewer than 25% of the non-null entries, and the column
    is taken as the date column of a line chart.  And a table of one row whose
    column "date" holds a date does not get a line chart but the kind "bar". *)
Lemma sparse_dates_and_single_row :
  @documented_date_like iso_pandas ("date", sparse_dates) = false /\
  @detect_date_column iso_pandas (@converted iso_pandas sparse_dates_table) = Some "date" /\
  fst <$> @choose_axes iso_pandas 1%positive {[ 1%positive := sparse_dates_table ]}
    = Some (Some "date", Some "temp", "line") /\
  @documented_date_like iso_pandas ("date", mkSeries Object [PyStr "2020-01-01"]) = true /\
  @detect_date_column iso_pandas (@converted iso_pandas single_dated_row) = Some "date" /\
  fst <$> @choose_axes iso_pandas 1%positive {[ 1%positive := single_dated_row ]}
    = Some (None, None, "bar").
Proof.
  split; [reflexivity|]. split; [reflexivity|]. split.
  { rewrite (choose_axes_run _ sparse_dates_table) by apply lookup_singleton_eq.
    reflexivity. }
  split; [reflexivity|]. split; [reflexivity|].
  rewrite (choose_axes_run _ single_dated_row) by apply lookup_singleton_eq.
  reflexivity.
Qed.

(** C9, as the code has it.  Among the tables with distinct labels,
    [choose_axes] returns x = "salinity", y = "pressure", kind "line" for
    exactly those in which no date column is detected, the row count is not
    one, "pressure" is the first label that contains "pressure", "salinity"
    is numeric and the first numeric label that contains "salinity", and no
    numeric label contains "temperature"; labels are compared in lower case,
    and numeric means a number dtype after the conversion. *)
Theorem pressure_salinity_line `{Pandas} (σ : store) (l : loc) (d : DataFrame) :
  σ !! l = Some d ->
  unique_labels d ->
  (exists σ', choose_axes l σ = Some ((Some "salinity", Some "pressure", "line"), σ'))
  <->
  detect_date_column (converted d) = None /\
  index_len d <> 1%nat /\
  first_label (fun c => contains "pressure" (lower c)) (labels d) "pressure" /\
  first_label (fun c => contains "salinity" (lower c) && numeric_label d c)
    (labels d) "salinity" /\
  Forall (fun c => contains "temperature" (lower c) && numeric_label d c = false)
    (labels d).
Proof.
  intros Hl _. rewrite (choose_axes_run l d σ Hl).
  rewrite !first_label_find, <- find_None_all. unfold numeric_label.
  rewrite <- (converted_labels d), <- (converted_index_len d). split.
  - intros (σ' & Hr). injection Hr as Hr _.
    apply choose_axes_rules_salinity in Hr as (Hrows & Hd & Hp & Ht & Hs). auto.
  - intros (Hd & Hrows & Hp & Hs & Ht). eexists. f_equal. f_equal.
    apply choose_axes_rules_salinity. auto.
Qed.

(** C9 on two profile rows, and on two profile rows followed by adjusted
    values and flags. *)
Lemma pressure_salinity_line_profile :
  (exists σ',
     @choose_axes iso_pandas 1%positive {[ 1%positive := profile_table ]}
     = Some ((Some "salinity", Some "pressure", "line"), σ')) /\
  (exists σ',
     @choose_axes iso_pandas 1%positive {[ 1%positive := profile_with_adjusted ]}
     = Some ((Some "salinity", Some "pressure", "line"), σ')).
Proof.
  split.
  - refine (proj2 (@pressure_salinity_line iso_pandas {[ 1%positive := profile_table ]}
                     1%positive profile_table (lookup_singleton_eq _ _) _) _).
    + repeat constructor; simpl; intuition discriminate.
    + split; [reflexivity|]. split; [discriminate|].
      split; [exists [], ["salinity"]; repeat split; constructor|].
      split; [exists ["pressure"], []; repeat split; repeat constructor|].
      repeat constructor.
  - refine (proj2 (@pressure_salinity_line iso_pandas
                     {[ 1%positive := profile_with_adjusted ]}
                     1%positive profile_with_adjusted (lookup_singleton_eq _ _) _) _).
    + repeat constructor; simpl; intuition discriminate.
    + split; [reflexivity|]. split; [discriminate|].
      split; [exists [], ["salinity"; "pressure_adjusted"; "salinity_qc"];
              repeat split; constructor|].
      split; [exists ["pressure"], ["pressure_adjusted"; "salinity_qc"];
              repeat split; repeat constructor|].
      repeat constructor.
Defined.

(** C9 as stated fails on tables with the columns "pressure" and "salinity"
    and no date column: one row gets the kind "bar"; with a numeric
    temperature the x axis is the temperature; a salinity given in words
    leaves one numeric column and the kind "table"; and with "sea_pressure"
    before "pressure" the y axis is "sea_pressure". *)
Lemma pressure_salinity_not_always_line :
  Forall (fun d => In "pressure" (labels d) /\ In "salinity" (labels d) /\
                   @detect_date_column iso_pandas (@converted iso_pandas d) = None)
    [ single_row_table; profile_with_temperature; profile_with_worded_salinity;
      profile_with_sea_pressure ] /\
  fst <$> @choose_axes iso_pandas 1%positive {[ 1%positive := single_row_table ]}
    = Some (None, None, "bar") /\
  fst <$> @choose_axes iso_pandas 1%positive {[ 1%positive := profile_with_temperature ]}
    = Some (Some "temperature", Some "pressure", "line") /\
  fst <$> @choose_axes iso_pandas 1%positive {[ 1%positive := profile_with_worded_salinity ]}
    = Some (None, None, "table") /\
  fst <$> @choose_axes iso_pandas 1%positive {[ 1%positive := profile_with_sea_pressure ]}
    = Some (Some "salinity", Some "sea_pressure", "line").
Proof.
  split.
  { repeat (apply List.Forall_cons;
            [split; [simpl; tauto | split; [simpl; tauto | reflexivity]]|]).
    apply List.Forall_nil. }
  split; [rewrite (choose_axes_run _ single_row_table) by apply lookup_singleton_eq;
          reflexivity|].
  split; [rewrite (choose_axes_run _ profile_with_temperature) by apply lookup_singleton_eq;
          reflexivity|].
  split; [rewrite (choose_axes_run _ profile_with_worded_salinity)
            by apply lookup_singleton_eq; reflexivity|].
  rewrite (choose_axes_run _ profile_with_sea_pressure) by apply lookup_singleton_eq.
  reflexivity.
Qed.
